(** * Payment reconciliation of the treasure-hunt backend

    A shallow embedding of the Express/Prisma handlers that register
    participants and promoters, open Stripe checkout sessions and consume
    Stripe webhook events, together with the properties of the payment
    reconciliation flow.

    - The relational store is a record of tables; a table is the list of its
      rows in insertion order, so [findFirst] returns the oldest matching row.
    - Row ids (Prisma [cuid()] strings) are modelled by the allocation number
      of the row, taken from one counter of the store.
    - A Prisma call is a computation that threads the store and may throw.
      Outside [$transaction] the writes made before a throw persist; inside,
      a throw restores the store the transaction started from.
    - The Prisma schema is not among the sources: rows carry the columns the
      properties below speak of (not the password of a user, the dates or
      the receipt of a payment), amounts are integers, and the constraints
      the schema may add (foreign keys, unique columns) are not modelled;
      every [create] of the handlers is preceded by the lookup that rules
      the duplicate out.
    - A route is modelled up to the error it throws: what the framework
      makes of an error thrown by an asynchronous handler is not part of
      the routes and is not modelled.
    - Logging and the e-mail TODOs are left out. The middlewares in front of
      the routes ([authenticate], [authorize], [validateTurnstile]) are
      modelled on their own: a route starts from the request they let
      through. *)

From Stdlib Require Import Ascii String List ZArith Bool Arith Lia.
Import ListNotations.
Local Open Scope string_scope.

Set Implicit Arguments.

(* ===================================================================== *)
(** ** Data model *)
(* ===================================================================== *)

Definition Id := nat.

Module Tier.
Inductive t := FREE | PREMIUM | VIP.

Definition eqb (a b : t) : bool :=
  match a, b with
  | FREE, FREE | PREMIUM, PREMIUM | VIP, VIP => true
  | _, _ => false
  end.

Definition toString (a : t) : string :=
  match a with FREE => "FREE" | PREMIUM => "PREMIUM" | VIP => "VIP" end.

(** A string used where Prisma expects the enum ([tier as any]). *)
Definition parse (s : string) : option t :=
  if String.eqb s "FREE" then Some FREE
  else if String.eqb s "PREMIUM" then Some PREMIUM
  else if String.eqb s "VIP" then Some VIP
  else None.
End Tier.

Module PaymentStatus.
Inductive t := PENDING | COMPLETED | FAILED.

Definition eqb (a b : t) : bool :=
  match a, b with
  | PENDING, PENDING | COMPLETED, COMPLETED | FAILED, FAILED => true
  | _, _ => false
  end.
End PaymentStatus.

Module ParticipantStatus.
Inductive t := PENDING | APPROVED | ACTIVE | REJECTED | SUSPENDED.
End ParticipantStatus.

Module PromoterStatus.
Inductive t := PENDING | APPROVED | REJECTED | SUSPENDED.

Definition eqb (a b : t) : bool :=
  match a, b with
  | PENDING, PENDING | APPROVED, APPROVED
  | REJECTED, REJECTED | SUSPENDED, SUSPENDED => true
  | _, _ => false
  end.
End PromoterStatus.

Module User.
Record t := mk { id : Id; email : string; role : string }.
End User.

Module Participant.
Record t := mk {
  id : Id;
  userId : Id;
  tier : Tier.t;
  status : ParticipantStatus.t;
  referredBy : option string
}.
End Participant.

Module Promoter.
Record t := mk {
  id : Id;
  userId : Id;
  status : PromoterStatus.t;
  referralCode : string;
  totalReferrals : Z;
  totalRevenue : Z
}.
End Promoter.

Module Referral.
Record t := mk {
  id : Id;
  promoterId : Id;
  participantEmail : string;
  referralCode : string;
  tier : Tier.t;
  commission : Z;
  isConverted : bool;
  convertedAt : option nat;
  paymentId : option Id
}.
End Referral.

Module Payment.
Record t := mk {
  id : Id;
  userId : Id;
  participantId : Id;
  stripePaymentIntentId : string;
  stripeSessionId : string;
  amount : Z;
  currency : string;
  tier : Tier.t;
  status : PaymentStatus.t;
  failureReason : option string;
  referralCode : option string
}.
End Payment.

Module AuditLog.
Record t := mk {
  id : Id;
  userId : option Id;
  action : string;
  entityType : string;
  entityId : Id
}.
End AuditLog.

(** The metadata attached to a checkout session and echoed by the provider. *)
Module Metadata.
Record t := mk {
  participantId : Id;
  userId : Id;
  tier : string;
  referralCode : string
}.
End Metadata.

(** A checkout session as the provider holds it after
    [stripe.checkout.sessions.create]. *)
Module CheckoutSession.
Record t := mk {
  id : string;
  url : string;
  unit_amount : Z;
  success_url : string;
  cancel_url : string;
  customer_email : string;
  metadata : Metadata.t
}.
End CheckoutSession.

(** The [Stripe.Checkout.Session] object of a [checkout.session.completed]
    event, with the fields the handler reads. *)
Module Session.
Record t := mk {
  id : string;
  payment_intent : string;
  customer_email : string;
  metadata : Metadata.t
}.
End Session.

Module PaymentIntent.
Record t := mk {
  id : string;
  last_payment_error : option string
}.
End PaymentIntent.

(** Database tables, the provider's sessions, and the id counter. *)
Record Store := mkStore {
  users : list User.t;
  participants : list Participant.t;
  promoters : list Promoter.t;
  referrals : list Referral.t;
  payments : list Payment.t;
  auditLogs : list AuditLog.t;
  stripeSessions : list CheckoutSession.t;
  nextId : Id
}.

Definition emptyStore : Store := mkStore [] [] [] [] [] [] [] 0.

(* ===================================================================== *)
(** ** Computations over the store *)
(* ===================================================================== *)

Inductive Exn :=
| AppError (message : string) (statusCode : nat)
| ZodError (message : string)
| PrismaError (message : string)
| StripeError (message : string)
| Error (message : string).

Inductive Result (A : Type) :=
| Ok (a : A)
| Throw (e : Exn).
Arguments Ok {A} a.
Arguments Throw {A} e.

Definition M (A : Type) := Store -> Store * Result A.

Definition ret {A} (a : A) : M A := fun s => (s, Ok a).

Definition throw {A} (e : Exn) : M A := fun s => (s, Throw e).

Definition bind {A B} (m : M A) (k : A -> M B) : M B :=
  fun s =>
    match m s with
    | (s1, Ok a) => k a s1
    | (s1, Throw e) => (s1, Throw e)
    end.

Declare Scope prisma_scope.
Delimit Scope prisma_scope with prisma.
Notation "x <- m ;; k" := (bind m (fun x => k))
  (at level 61, m at next level, right associativity) : prisma_scope.
Notation "m ;; k" := (bind m (fun _ => k))
  (at level 61, right associativity) : prisma_scope.
Local Open Scope prisma_scope.

(** [try { m } catch (error) { h error }]. *)
Definition tryCatch {A} (m : M A) (h : Exn -> M A) : M A :=
  fun s =>
    match m s with
    | (s1, Ok a) => (s1, Ok a)
    | (s1, Throw e) => h e s1
    end.

(** [prisma.$transaction(async (tx) => body)]: the writes of [body] are
    committed when it returns and discarded when it throws. *)
Definition transaction {A} (body : M A) : M A :=
  fun s =>
    match body s with
    | (s1, Ok a) => (s1, Ok a)
    | (_, Throw e) => (s, Throw e)
    end.

(** A table of the store: how to read it, how to replace it, and the id
    column of its rows. *)
Record Table (R : Type) := mkTable {
  rows : Store -> list R;
  setRows : list R -> Store -> Store;
  rowId : R -> Id
}.

Definition bumpId (s : Store) : Store :=
  mkStore (users s) (participants s) (promoters s) (referrals s)
          (payments s) (auditLogs s) (stripeSessions s) (S (nextId s)).

Section Prisma.
Context {R : Type} (T : Table R).

Definition findFirst (where_ : R -> bool) : M (option R) :=
  fun s => (s, Ok (find where_ (rows T s))).

Definition updateRows (id : Id) (data : R -> R) (l : list R) : list R :=
  map (fun r => if Nat.eqb (rowId T r) id then data r else r) l.

(** [update({ where: { id }, data })]: throws when no row has the id. *)
Definition update (id : Id) (data : R -> R) : M R :=
  fun s =>
    match find (fun r => Nat.eqb (rowId T r) id) (rows T s) with
    | Some r => (setRows T (updateRows id data (rows T s)) s, Ok (data r))
    | None => (s, Throw (PrismaError "Record to update not found."))
    end.

(** [create({ data })]: the new row gets the next id and goes last. *)
Definition create (data : Id -> R) : M R :=
  fun s =>
    let r := data (nextId s) in
    (bumpId (setRows T (rows T s ++ [r]) s), Ok r).
End Prisma.

Definition userTable : Table User.t :=
  mkTable users
    (fun l s => mkStore l (participants s) (promoters s) (referrals s)
                        (payments s) (auditLogs s) (stripeSessions s) (nextId s))
    User.id.

Definition participantTable : Table Participant.t :=
  mkTable participants
    (fun l s => mkStore (users s) l (promoters s) (referrals s)
                        (payments s) (auditLogs s) (stripeSessions s) (nextId s))
    Participant.id.

Definition promoterTable : Table Promoter.t :=
  mkTable promoters
    (fun l s => mkStore (users s) (participants s) l (referrals s)
                        (payments s) (auditLogs s) (stripeSessions s) (nextId s))
    Promoter.id.

Definition referralTable : Table Referral.t :=
  mkTable referrals
    (fun l s => mkStore (users s) (participants s) (promoters s) l
                        (payments s) (auditLogs s) (stripeSessions s) (nextId s))
    Referral.id.

Definition paymentTable : Table Payment.t :=
  mkTable payments
    (fun l s => mkStore (users s) (participants s) (promoters s) (referrals s)
                        l (auditLogs s) (stripeSessions s) (nextId s))
    Payment.id.

Definition auditLogTable : Table AuditLog.t :=
  mkTable auditLogs
    (fun l s => mkStore (users s) (participants s) (promoters s) (referrals s)
                        (payments s) l (stripeSessions s) (nextId s))
    AuditLog.id.

(** JavaScript truthiness of a string: every string but the empty one. *)
Definition truthy (s : string) : bool := negb (String.eqb s "").

(** Truthiness of a [string | undefined]. *)
Definition truthyOpt (o : option string) : bool :=
  match o with Some s => truthy s | None => false end.

(* ===================================================================== *)
(** ** webhooks/stripe.ts *)
(* ===================================================================== *)

Definition completePayment (intent : string) (p : Payment.t) : Payment.t :=
  Payment.mk (Payment.id p) (Payment.userId p) (Payment.participantId p)
    intent (Payment.stripeSessionId p) (Payment.amount p) (Payment.currency p)
    (Payment.tier p) PaymentStatus.COMPLETED (Payment.failureReason p)
    (Payment.referralCode p).

(** [failureReason: paymentIntent.last_payment_error?.message]: an
    [undefined] value leaves the column as it is. *)
Definition failPayment (reason : option string) (p : Payment.t) : Payment.t :=
  Payment.mk (Payment.id p) (Payment.userId p) (Payment.participantId p)
    (Payment.stripePaymentIntentId p) (Payment.stripeSessionId p)
    (Payment.amount p) (Payment.currency p) (Payment.tier p)
    PaymentStatus.FAILED
    (match reason with Some m => Some m | None => Payment.failureReason p end)
    (Payment.referralCode p).

Definition activateParticipant (tier : Tier.t) (p : Participant.t)
  : Participant.t :=
  Participant.mk (Participant.id p) (Participant.userId p) tier
    ParticipantStatus.ACTIVE (Participant.referredBy p).

Definition convertReferral (now : nat) (payment : Id) (r : Referral.t)
  : Referral.t :=
  Referral.mk (Referral.id r) (Referral.promoterId r)
    (Referral.participantEmail r) (Referral.referralCode r) (Referral.tier r)
    (Referral.commission r) true (Some now) (Some payment).

Definition creditPromoter (referralsInc revenueInc : Z) (p : Promoter.t)
  : Promoter.t :=
  Promoter.mk (Promoter.id p) (Promoter.userId p) (Promoter.status p)
    (Promoter.referralCode p)
    (Promoter.totalReferrals p + referralsInc)
    (Promoter.totalRevenue p + revenueInc).

(** The [where] clause of the referral lookup of the completed handler. *)
Definition referralMatches (email code : string) (r : Referral.t) : bool :=
  String.eqb (Referral.participantEmail r) email
  && String.eqb (Referral.referralCode r) code
  && negb (Referral.isConverted r).

(** [tx.participant.update] with [tier: tier as any]: the client rejects a
    string that is not a value of the enum before it reaches the table. *)
Definition asTier (tier : string) : M Tier.t :=
  match Tier.parse tier with
  | Some t => ret t
  | None => throw (PrismaError "Invalid value for argument tier.")
  end.

(** The referral branch of the completed handler (lines 94-124). *)
Definition processReferral (now : nat) (session : Session.t)
  (payment : Payment.t) : M unit :=
  let referralCode := Metadata.referralCode (Session.metadata session) in
  if truthy referralCode then
    referral <- findFirst referralTable
                  (referralMatches (Session.customer_email session)
                                   referralCode) ;;
    match referral with
    | Some referral =>
        update referralTable (Referral.id referral)
               (convertReferral now (Payment.id payment)) ;;
        update promoterTable (Referral.promoterId referral)
               (creditPromoter 1 (Referral.commission referral)) ;;
        ret tt
    | None => ret tt
    end
  else ret tt.

(** The callback passed to [prisma.$transaction] (lines 65-142). *)
Definition checkoutSessionCompletedTx (now : nat) (session : Session.t)
  : M unit :=
  let md := Session.metadata session in
  payment <- findFirst paymentTable
               (fun p => String.eqb (Payment.stripeSessionId p)
                                    (Session.id session)) ;;
  match payment with
  | None =>
      throw (Error ("Payment record not found for session "
                    ++ Session.id session))
  | Some payment =>
      update paymentTable (Payment.id payment)
             (completePayment (Session.payment_intent session)) ;;
      tier <- asTier (Metadata.tier md) ;;
      update participantTable (Metadata.participantId md)
             (activateParticipant tier) ;;
      processReferral now session payment ;;
      create auditLogTable
             (fun id => AuditLog.mk id (Some (Metadata.userId md))
                          "PAYMENT_COMPLETED" "PAYMENT" (Payment.id payment)) ;;
      ret tt
  end.

Definition handleCheckoutSessionCompleted (now : nat) (session : Session.t)
  : M unit :=
  tryCatch (transaction (checkoutSessionCompletedTx now session))
           (fun error => throw error).

Definition handlePaymentIntentSucceeded (paymentIntent : PaymentIntent.t)
  : M unit :=
  ret tt.

Definition handlePaymentIntentFailed (paymentIntent : PaymentIntent.t)
  : M unit :=
  tryCatch
    (payment <- findFirst paymentTable
                  (fun p => String.eqb (Payment.stripePaymentIntentId p)
                                       (PaymentIntent.id paymentIntent)) ;;
     match payment with
     | Some payment =>
         update paymentTable (Payment.id payment)
                (failPayment (PaymentIntent.last_payment_error paymentIntent)) ;;
         create auditLogTable
                (fun id => AuditLog.mk id (Some (Payment.userId payment))
                             "PAYMENT_FAILED" "PAYMENT" (Payment.id payment)) ;;
         ret tt
     | None => ret tt
     end)
    (fun error => throw error).

(** A verified event: its [type] and the object it carries. *)
Inductive Event :=
| CheckoutSessionCompleted (session : Session.t)
| PaymentIntentSucceeded (paymentIntent : PaymentIntent.t)
| PaymentIntentPaymentFailed (paymentIntent : PaymentIntent.t)
| InvoicePaymentSucceeded (invoice : string)
| OtherEvent (type : string).

Definition dispatch (now : nat) (event : Event) : M unit :=
  match event with
  | CheckoutSessionCompleted session =>
      handleCheckoutSessionCompleted now session
  | PaymentIntentSucceeded paymentIntent =>
      handlePaymentIntentSucceeded paymentIntent
  | PaymentIntentPaymentFailed paymentIntent =>
      handlePaymentIntentFailed paymentIntent
  | InvoicePaymentSucceeded _ => ret tt
  | OtherEvent _ => ret tt
  end.

Inductive Body :=
| Received
| Send (text : string)
| JsonError (error : string)
| SessionCreated (sessionId sessionUrl : string) (paymentId : Id)
                 (amount : Z) (tier : string)
| RegistrationSuccessful (participantId : Id) (email : string)
                         (tier : Tier.t) (status : ParticipantStatus.t)
                         (needsPayment : bool)
| ApplicationSubmitted (promoterId : Id) (email : string)
                       (referralCode : string).

Record Response := mkResponse { statusCode : nat; body : Body }.

Record WebhookRequest := mkWebhookRequest {
  rawBody : string;
  stripeSignature : string
}.

Section Webhook.
(** [stripe.webhooks.constructEvent(payload, header, secret)] of the Stripe
    library: the event, or the message of the error it throws. *)
Variable constructEvent : string -> string -> string -> Event + string.
Variable endpointSecret : string.

(** [router.post('/stripe', ...)]. *)
Definition stripeWebhook (now : nat) (req : WebhookRequest) (s : Store)
  : Store * Response :=
  match constructEvent (rawBody req) (stripeSignature req) endpointSecret with
  | inr message => (s, mkResponse 400 (Send ("Webhook Error: " ++ message)))
  | inl event =>
      match dispatch now event s with
      | (s1, Ok _) => (s1, mkResponse 200 Received)
      | (s1, Throw _) => (s1, mkResponse 500 (JsonError "Webhook handler failed"))
      end
  end.
End Webhook.

(* ===================================================================== *)
(** ** The routes *)
(* ===================================================================== *)

(** The [catch] block shared by the routes. *)
Definition rethrowZod {A} (error : Exn) : M A :=
  match error with
  | ZodError message => throw (AppError message 400)
  | _ => throw error
  end.

(* ===================================================================== *)
(** ** routes/payments.ts *)
(* ===================================================================== *)

(** The tiers [z.enum(['PREMIUM', 'VIP'])] accepts. *)
Module PaidTier.
Inductive t := PREMIUM | VIP.

Definition toTier (a : t) : Tier.t :=
  match a with PREMIUM => Tier.PREMIUM | VIP => Tier.VIP end.

Definition parse (s : string) : option t :=
  if String.eqb s "PREMIUM" then Some PREMIUM
  else if String.eqb s "VIP" then Some VIP
  else None.
End PaidTier.

Definition TIER_PRICES (tier : PaidTier.t) : Z :=
  match tier with PaidTier.PREMIUM => 99%Z | PaidTier.VIP => 299%Z end.

Record CreateSessionBody := mkCreateSessionBody {
  csTier : string;
  csParticipantId : Id;
  csSuccessUrl : string;
  csCancelUrl : string
}.

Record CreateSessionData := mkCreateSessionData {
  vTier : PaidTier.t;
  vParticipantId : Id;
  vSuccessUrl : string;
  vCancelUrl : string
}.

(** An authenticated request: [authenticate] has set [req.user]. *)
Record CreateSessionRequest := mkCreateSessionRequest {
  csUser : Id;
  csBody : CreateSessionBody
}.

(** [participant.referredBy || '']. *)
Definition orEmpty (o : option string) : string :=
  match o with
  | Some s => if truthy s then s else ""
  | None => ""
  end.

Section Routes.
(** [z.string().url()] and [z.string().email()]. *)
Variable isUrl : string -> bool.
Variable isEmail : string -> bool.

(** [createPaymentSessionSchema.parse]; an id is a cuid by construction. *)
Definition createPaymentSessionSchema (b : CreateSessionBody)
  : M CreateSessionData :=
  match PaidTier.parse (csTier b) with
  | None => throw (ZodError "Invalid enum value")
  | Some tier =>
      if negb (isUrl (csSuccessUrl b)) then throw (ZodError "Invalid url")
      else if negb (isUrl (csCancelUrl b)) then throw (ZodError "Invalid url")
      else ret (mkCreateSessionData tier (csParticipantId b)
                  (csSuccessUrl b) (csCancelUrl b))
  end.

(** [stripe.checkout.sessions.create]: [reply] is what the provider
    answers, the id and url of the new session, or nothing when the call
    fails. *)
Definition stripeCheckoutSessionsCreate (reply : option (string * string))
  (unit_amount : Z) (success_url cancel_url customer_email : string)
  (metadata : Metadata.t) : M CheckoutSession.t :=
  match reply with
  | None => throw (StripeError "checkout session creation failed")
  | Some (id, url) =>
      fun s =>
        let session :=
          CheckoutSession.mk id url unit_amount success_url cancel_url
                             customer_email metadata in
        (mkStore (users s) (participants s) (promoters s) (referrals s)
                 (payments s) (auditLogs s) (stripeSessions s ++ [session])
                 (nextId s),
         Ok session)
  end.

Definition completedFor (participant : Id) (tier : Tier.t) (p : Payment.t)
  : bool :=
  Nat.eqb (Payment.participantId p) participant
  && Tier.eqb (Payment.tier p) tier
  && PaymentStatus.eqb (Payment.status p) PaymentStatus.COMPLETED.

(** [POST /api/payments/create-session]. *)
Definition createSession (reply : option (string * string))
  (req : CreateSessionRequest) : M Response :=
  tryCatch
    (validatedData <- createPaymentSessionSchema (csBody req) ;;
     participant <- findFirst participantTable
                      (fun p => Nat.eqb (Participant.id p)
                                        (vParticipantId validatedData)) ;;
     match participant with
     | None => throw (AppError "Participant not found" 404)
     | Some participant =>
         if negb (Nat.eqb (Participant.userId participant) (csUser req))
         then throw (AppError "Unauthorized access to participant record" 403)
         else
           let tier := PaidTier.toTier (vTier validatedData) in
           existingPayment <- findFirst paymentTable
                                (completedFor (Participant.id participant)
                                              tier) ;;
           match existingPayment with
           | Some _ =>
               throw (AppError "Payment already completed for this tier" 400)
           | None =>
               let amount := TIER_PRICES (vTier validatedData) in
               user <- findFirst userTable
                         (fun u => Nat.eqb (User.id u)
                                           (Participant.userId participant)) ;;
               match user with
               | None => throw (Error "Cannot read properties of null")
               | Some user =>
                   session <- stripeCheckoutSessionsCreate reply
                                (amount * 100)
                                (vSuccessUrl validatedData)
                                (vCancelUrl validatedData)
                                (User.email user)
                                (Metadata.mk (Participant.id participant)
                                   (Participant.userId participant)
                                   (Tier.toString tier)
                                   (orEmpty (Participant.referredBy
                                               participant))) ;;
                   payment <- create paymentTable
                                (fun id =>
                                   Payment.mk id
                                     (Participant.userId participant)
                                     (Participant.id participant)
                                     "pending"
                                     (CheckoutSession.id session)
                                     amount "usd" tier
                                     PaymentStatus.PENDING None
                                     (Participant.referredBy participant)) ;;
                   create auditLogTable
                          (fun id => AuditLog.mk id (Some (csUser req))
                                       "PAYMENT_SESSION_CREATED" "PAYMENT"
                                       (Payment.id payment)) ;;
                   ret (mkResponse 200
                          (SessionCreated (CheckoutSession.id session)
                             (CheckoutSession.url session)
                             (Payment.id payment) amount
                             (Tier.toString tier)))
               end
           end
     end)
    rethrowZod.

(* =================================================================== *)
(** ** routes/participants.ts *)
(* =================================================================== *)

Record RegistrationBody := mkRegistrationBody {
  rFirstName : string;
  rLastName : string;
  rEmail : string;
  rCountry : string;
  rTier : string;
  rReferralCode : option string;
  rTurnstileToken : string;
  rAcceptTerms : bool
}.

Record RegistrationData := mkRegistrationData {
  dEmail : string;
  dTier : Tier.t;
  dReferralCode : option string
}.

(** [participantRegistrationSchema.parse], the required fields in the
    order of the schema. *)
Definition participantRegistrationSchema (b : RegistrationBody)
  : M RegistrationData :=
  if negb (truthy (rFirstName b)) then
    throw (ZodError "First name is required")
  else if negb (truthy (rLastName b)) then
    throw (ZodError "Last name is required")
  else if negb (isEmail (rEmail b)) then
    throw (ZodError "Invalid email format")
  else if negb (truthy (rCountry b)) then
    throw (ZodError "Country is required")
  else
    match Tier.parse (rTier b) with
    | None => throw (ZodError "Invalid enum value")
    | Some tier =>
        if negb (truthy (rTurnstileToken b)) then
          throw (ZodError "Bot verification required")
        else if negb (rAcceptTerms b) then
          throw (ZodError "You must accept the terms and conditions")
        else ret (mkRegistrationData (rEmail b) tier (rReferralCode b))
    end.

Definition approvedWithCode (code : string) (p : Promoter.t) : bool :=
  String.eqb (Promoter.referralCode p) code
  && PromoterStatus.eqb (Promoter.status p) PromoterStatus.APPROVED.

(** Lines 52-65: the promoter owning the supplied code, if a code is
    supplied. *)
Definition lookupReferrer (referralCode : option string)
  : M (option Promoter.t) :=
  match referralCode with
  | Some code =>
      if truthy code then
        referredByPromoter <- findFirst promoterTable (approvedWithCode code) ;;
        match referredByPromoter with
        | None => throw (AppError "Invalid referral code" 400)
        | Some p => ret (Some p)
        end
      else ret None
  | None => ret None
  end.

(** Lines 104-124: the referrer's counter and the referral record. *)
Definition recordReferral (validatedData : RegistrationData)
  (referredByPromoter : option Promoter.t) : M unit :=
  match referredByPromoter with
  | Some referredByPromoter =>
      update promoterTable (Promoter.id referredByPromoter)
             (creditPromoter 1 0) ;;
      create referralTable
             (fun id =>
                Referral.mk id (Promoter.id referredByPromoter)
                  (dEmail validatedData)
                  (match dReferralCode validatedData with
                   | Some c => c
                   | None => ""
                   end)
                  (dTier validatedData) 0
                  (Tier.eqb (dTier validatedData) Tier.FREE)
                  None None) ;;
      ret tt
  | None => ret tt
  end.

(** [POST /api/participants/register]. *)
Definition registerParticipant (b : RegistrationBody) : M Response :=
  tryCatch
    (validatedData <- participantRegistrationSchema b ;;
     existingUser <- findFirst userTable
                       (fun u => String.eqb (User.email u)
                                            (dEmail validatedData)) ;;
     match existingUser with
     | Some _ =>
         throw (AppError "Email already registered. Please login instead."
                         409)
     | None =>
         referredByPromoter <- lookupReferrer (dReferralCode validatedData) ;;
         result <- transaction
           (user <- create userTable
                      (fun id => User.mk id (dEmail validatedData)
                                         "PARTICIPANT") ;;
            participant <- create participantTable
                      (fun id =>
                         Participant.mk id (User.id user)
                           (dTier validatedData)
                           (if Tier.eqb (dTier validatedData) Tier.FREE
                            then ParticipantStatus.APPROVED
                            else ParticipantStatus.PENDING)
                           (dReferralCode validatedData)) ;;
            recordReferral validatedData referredByPromoter ;;
            create auditLogTable
                   (fun id => AuditLog.mk id (Some (User.id user))
                                "PARTICIPANT_REGISTER" "PARTICIPANT"
                                (Participant.id participant)) ;;
            ret (user, participant)) ;;
         let (user, participant) := result in
         ret (mkResponse 201
                (RegistrationSuccessful (Participant.id participant)
                   (User.email user) (Participant.tier participant)
                   (Participant.status participant)
                   (negb (Tier.eqb (Participant.tier participant)
                                   Tier.FREE))))
     end)
    rethrowZod.
(* =================================================================== *)
(** ** routes/promoters.ts *)
(* =================================================================== *)

Definition toUpperCaseAscii (c : ascii) : ascii :=
  let n := nat_of_ascii c in
  if Nat.leb 97 n && Nat.leb n 122 then ascii_of_nat (n - 32) else c.

Fixpoint toUpperCase (s : string) : string :=
  match s with
  | EmptyString => EmptyString
  | String c rest => String (toUpperCaseAscii c) (toUpperCase rest)
  end.

(** ['REF' + r.substring(2, 8).toUpperCase()], where [r] is the text of
    [Math.random().toString(36)]. *)
Definition candidateCode (r : string) : string :=
  "REF" ++ toUpperCase (substring 2 6 r).

Definition hasCode (code : string) (p : Promoter.t) : bool :=
  String.eqb (Promoter.referralCode p) code.

(** [generateReferralCode]: the [while (exists)] loop, one iteration per
    draw of [Math.random]. [draws] lists the texts the generator will
    produce; the result is [None] when the loop is still running after the
    last of them. *)
Fixpoint generateReferralCode (draws : list string) : M (option string) :=
  match draws with
  | [] => ret None
  | r :: rest =>
      let code := candidateCode r in
      existing <- findFirst promoterTable (hasCode code) ;;
      match existing with
      | Some _ => generateReferralCode rest
      | None => ret (Some code)
      end
  end.

Record PromoterBody := mkPromoterBody {
  pFirstName : string;
  pLastName : string;
  pEmail : string;
  pCountry : string;
  pType : string;
  pExperienceDescription : string;
  pPromotionPlan : string;
  pTurnstileToken : string;
  pAcceptTerms : bool;
  pAgreeCommission : bool
}.

Definition isPromoterType (s : string) : bool :=
  String.eqb s "INFLUENCER" || String.eqb s "BUSINESS"
  || String.eqb s "COMMUNITY".

(** [promoterRegistrationSchema.parse], the required fields in the order of
    the schema; the validated value the route uses further is the email. *)
Definition promoterRegistrationSchema (b : PromoterBody) : M string :=
  if negb (truthy (pFirstName b)) then
    throw (ZodError "First name is required")
  else if negb (truthy (pLastName b)) then
    throw (ZodError "Last name is required")
  else if negb (isEmail (pEmail b)) then
    throw (ZodError "Invalid email format")
  else if negb (truthy (pCountry b)) then
    throw (ZodError "Country is required")
  else if negb (isPromoterType (pType b)) then
    throw (ZodError "Invalid enum value")
  else if Nat.ltb (String.length (pExperienceDescription b)) 50 then
    throw (ZodError
             "Please provide at least 50 characters about your experience")
  else if Nat.ltb (String.length (pPromotionPlan b)) 100 then
    throw (ZodError
             "Please provide at least 100 characters about your promotion plan")
  else if negb (truthy (pTurnstileToken b)) then
    throw (ZodError "Bot verification required")
  else if negb (pAcceptTerms b) then
    throw (ZodError "You must accept the terms and conditions")
  else if negb (pAgreeCommission b) then
    throw (ZodError "You must agree to the commission structure")
  else ret (pEmail b).

(** The values the schema, which is not among the sources, gives the two
    counters of a promoter created without them. *)
Variable defaultTotalReferrals : Z.
Variable defaultTotalRevenue : Z.

(** [POST /api/promoters/register]. The response is [None] when
    [generateReferralCode] has not returned. *)
Definition registerPromoter (draws : list string) (b : PromoterBody)
  : M (option Response) :=
  tryCatch
    (email <- promoterRegistrationSchema b ;;
     existingUser <- findFirst userTable
                       (fun u => String.eqb (User.email u) email) ;;
     match existingUser with
     | Some _ =>
         throw (AppError "Email already registered. Please login instead."
                         409)
     | None =>
         referralCode <- generateReferralCode draws ;;
         match referralCode with
         | None => ret None
         | Some referralCode =>
             result <- transaction
               (user <- create userTable
                          (fun id => User.mk id email "PROMOTER") ;;
                promoter <- create promoterTable
                          (fun id =>
                             Promoter.mk id (User.id user)
                               PromoterStatus.PENDING referralCode
                               defaultTotalReferrals defaultTotalRevenue) ;;
                create auditLogTable
                       (fun id => AuditLog.mk id None
                                    "PROMOTER_APPLICATION" "PROMOTER"
                                    (Promoter.id promoter)) ;;
                ret (user, promoter)) ;;
             let (user, promoter) := result in
             ret (Some (mkResponse 201
                          (ApplicationSubmitted (Promoter.id promoter)
                             (User.email user)
                             (Promoter.referralCode promoter))))
         end
     end)
    rethrowZod.
End Routes.

(* ===================================================================== *)
(** ** What a committed checkout-completed transaction leaves behind *)
(* ===================================================================== *)

Definition bySession (session : Session.t) (p : Payment.t) : bool :=
  String.eqb (Payment.stripeSessionId p) (Session.id session).

Definition byIntent (paymentIntent : PaymentIntent.t) (p : Payment.t) : bool :=
  String.eqb (Payment.stripePaymentIntentId p) (PaymentIntent.id paymentIntent).

Definition hasId {R} (T : Table R) (id : Id) (r : R) : bool :=
  Nat.eqb (rowId T r) id.

(** The referral the handler converts for a session, if any. *)
Definition matchingReferral (session : Session.t) (s : Store)
  : option Referral.t :=
  if truthy (Metadata.referralCode (Session.metadata session)) then
    find (referralMatches (Session.customer_email session)
                          (Metadata.referralCode (Session.metadata session)))
         (referrals s)
  else None.

Definition completedAuditLog (session : Session.t) (payment : Payment.t)
  (id : Id) : AuditLog.t :=
  AuditLog.mk id (Some (Metadata.userId (Session.metadata session)))
    "PAYMENT_COMPLETED" "PAYMENT" (Payment.id payment).

(** The store after the five steps, for the payment, tier and referral the
    handler found. *)
Definition committedStore (now : nat) (session : Session.t)
  (payment : Payment.t) (tier : Tier.t) (referral : option Referral.t)
  (s : Store) : Store :=
  mkStore
    (users s)
    (updateRows participantTable
       (Metadata.participantId (Session.metadata session))
       (activateParticipant tier) (participants s))
    (match referral with
     | Some r => updateRows promoterTable (Referral.promoterId r)
                   (creditPromoter 1 (Referral.commission r)) (promoters s)
     | None => promoters s
     end)
    (match referral with
     | Some r => updateRows referralTable (Referral.id r)
                   (convertReferral now (Payment.id payment)) (referrals s)
     | None => referrals s
     end)
    (updateRows paymentTable (Payment.id payment)
       (completePayment (Session.payment_intent session)) (payments s))
    (auditLogs s ++ [completedAuditLog session payment (nextId s)])
    (stripeSessions s)
    (S (nextId s)).

(** The two ways the handler can end. *)
Inductive CompletedOutcome (now : nat) (session : Session.t) (s : Store)
  : Store * Result unit -> Prop :=
| RolledBack (e : Exn) :
    CompletedOutcome now session s (s, Throw e)
| Committed (payment : Payment.t) (tier : Tier.t) :
    find (bySession session) (payments s) = Some payment ->
    Tier.parse (Metadata.tier (Session.metadata session)) = Some tier ->
    find (hasId participantTable
            (Metadata.participantId (Session.metadata session)))
         (participants s) <> None ->
    (forall r, matchingReferral session s = Some r ->
               find (hasId promoterTable (Referral.promoterId r))
                    (promoters s) <> None) ->
    CompletedOutcome now session s
      (committedStore now session payment tier (matchingReferral session s) s,
       Ok tt).

(** The handler in closed form: which of its lookups decide the result. *)
Definition completedResult (now : nat) (session : Session.t) (s : Store)
  : Store * Result unit :=
  match find (bySession session) (payments s) with
  | None =>
      (s, Throw (Error ("Payment record not found for session "
                        ++ Session.id session)))
  | Some payment =>
      match Tier.parse (Metadata.tier (Session.metadata session)) with
      | None => (s, Throw (PrismaError "Invalid value for argument tier."))
      | Some tier =>
          match find (hasId participantTable
                        (Metadata.participantId (Session.metadata session)))
                     (participants s) with
          | None => (s, Throw (PrismaError "Record to update not found."))
          | Some _ =>
              match matchingReferral session s with
              | None =>
                  (committedStore now session payment tier None s, Ok tt)
              | Some r =>
                  match find (hasId promoterTable (Referral.promoterId r))
                             (promoters s) with
                  | None =>
                      (s, Throw (PrismaError "Record to update not found."))
                  | Some _ =>
                      (committedStore now session payment tier (Some r) s,
                       Ok tt)
                  end
              end
          end
      end
  end.

Definition failedAuditLog (payment : Payment.t) (id : Id) : AuditLog.t :=
  AuditLog.mk id (Some (Payment.userId payment))
    "PAYMENT_FAILED" "PAYMENT" (Payment.id payment).

(** The store after the failed handler has found [payment]. *)
Definition failedStore (paymentIntent : PaymentIntent.t) (payment : Payment.t)
  (s : Store) : Store :=
  mkStore (users s) (participants s) (promoters s) (referrals s)
    (updateRows paymentTable (Payment.id payment)
       (failPayment (PaymentIntent.last_payment_error paymentIntent))
       (payments s))
    (auditLogs s ++ [failedAuditLog payment (nextId s)])
    (stripeSessions s)
    (S (nextId s)).

(* ===================================================================== *)
(** ** What the routes leave behind *)
(* ===================================================================== *)

Definition sessionMetadata (participant : Participant.t) (tier : PaidTier.t)
  : Metadata.t :=
  Metadata.mk (Participant.id participant) (Participant.userId participant)
    (Tier.toString (PaidTier.toTier tier))
    (orEmpty (Participant.referredBy participant)).

Definition sessionCreated (sessionId url : string) (d : CreateSessionData)
  (participant : Participant.t) (user : User.t) : CheckoutSession.t :=
  CheckoutSession.mk sessionId url (TIER_PRICES (vTier d) * 100)
    (vSuccessUrl d) (vCancelUrl d) (User.email user)
    (sessionMetadata participant (vTier d)).

Definition pendingPayment (sessionId : string) (d : CreateSessionData)
  (participant : Participant.t) (id : Id) : Payment.t :=
  Payment.mk id (Participant.userId participant) (Participant.id participant)
    "pending" sessionId (TIER_PRICES (vTier d)) "usd"
    (PaidTier.toTier (vTier d)) PaymentStatus.PENDING None
    (Participant.referredBy participant).

(** The store after [create-session] has gone through. *)
Definition sessionStore (sessionId url : string) (d : CreateSessionData)
  (reqUser : Id) (participant : Participant.t) (user : User.t) (s : Store)
  : Store :=
  mkStore (users s) (participants s) (promoters s) (referrals s)
    (payments s ++ [pendingPayment sessionId d participant (nextId s)])
    (auditLogs s ++ [AuditLog.mk (S (nextId s)) (Some reqUser)
                       "PAYMENT_SESSION_CREATED" "PAYMENT" (nextId s)])
    (stripeSessions s ++ [sessionCreated sessionId url d participant user])
    (S (S (nextId s))).

(** The promoter a registration is attributed to. *)
Definition referrerOf (referralCode : option string) (s : Store)
  : option Promoter.t :=
  match referralCode with
  | Some code =>
      if truthy code then find (approvedWithCode code) (promoters s) else None
  | None => None
  end.

Definition newReferral (d : RegistrationData) (referrer : Promoter.t)
  (id : Id) : Referral.t :=
  Referral.mk id (Promoter.id referrer) (dEmail d)
    (match dReferralCode d with Some c => c | None => "" end)
    (dTier d) 0 (Tier.eqb (dTier d) Tier.FREE) None None.

Definition newParticipant (d : RegistrationData) (userId id : Id)
  : Participant.t :=
  Participant.mk id userId (dTier d)
    (if Tier.eqb (dTier d) Tier.FREE then ParticipantStatus.APPROVED
     else ParticipantStatus.PENDING)
    (dReferralCode d).

(** The store after a participant registration has gone through. *)
Definition registeredStore (d : RegistrationData)
  (referrer : option Promoter.t) (s : Store) : Store :=
  mkStore
    (users s ++ [User.mk (nextId s) (dEmail d) "PARTICIPANT"])
    (participants s ++ [newParticipant d (nextId s) (S (nextId s))])
    (match referrer with
     | Some p => updateRows promoterTable (Promoter.id p) (creditPromoter 1 0)
                   (promoters s)
     | None => promoters s
     end)
    (match referrer with
     | Some p => referrals s ++ [newReferral d p (S (S (nextId s)))]
     | None => referrals s
     end)
    (payments s)
    (auditLogs s ++
       [AuditLog.mk (match referrer with
                     | Some _ => S (S (S (nextId s)))
                     | None => S (S (nextId s))
                     end)
          (Some (nextId s)) "PARTICIPANT_REGISTER" "PARTICIPANT"
          (S (nextId s))])
    (stripeSessions s)
    (match referrer with
     | Some _ => S (S (S (S (nextId s))))
     | None => S (S (S (nextId s)))
     end).

(** The store after a promoter application has gone through. *)
Definition appliedStore (email referralCode : string)
  (defaultReferrals defaultRevenue : Z) (s : Store) : Store :=
  mkStore
    (users s ++ [User.mk (nextId s) email "PROMOTER"])
    (participants s)
    (promoters s ++ [Promoter.mk (S (nextId s)) (nextId s)
                       PromoterStatus.PENDING referralCode
                       defaultReferrals defaultRevenue])
    (referrals s) (payments s)
    (auditLogs s ++ [AuditLog.mk (S (S (nextId s))) None
                       "PROMOTER_APPLICATION" "PROMOTER" (S (nextId s))])
    (stripeSessions s)
    (S (S (S (nextId s)))).

(** No promoter of the store holds [code]. *)
Definition codeIsFree (s : Store) (code : string) : bool :=
  match find (hasCode code) (promoters s) with
  | Some _ => false
  | None => true
  end.

(** Every payment of an account is linked to the participant record of
    that account, as [create-session] writes it. *)
Definition paymentsLinked (s : Store) : Prop :=
  forall pm pt,
    In pm (payments s) -> In pt (participants s) ->
    Participant.userId pt = Payment.userId pm ->
    Payment.participantId pm = Participant.id pt.

(* ===================================================================== *)
(** ** The server over a sequence of requests, and promoter counters *)
(* ===================================================================== *)

Inductive Request :=
| RegisterParticipant (b : RegistrationBody)
| RegisterPromoter (draws : list string) (b : PromoterBody)
| CreateSession (reply : option (string * string))
                (req : CreateSessionRequest)
| StripeWebhook (now : nat) (req : WebhookRequest).

Section Server.
Variable constructEvent : string -> string -> string -> Event + string.
Variable endpointSecret : string.
Variable isUrl : string -> bool.
Variable isEmail : string -> bool.
Variable defaultTotalReferrals : Z.
Variable defaultTotalRevenue : Z.

(** The store after one request. *)
Definition serveRequest (r : Request) (s : Store) : Store :=
  match r with
  | RegisterParticipant b => fst (registerParticipant isEmail b s)
  | RegisterPromoter draws b =>
      fst (registerPromoter isEmail defaultTotalReferrals defaultTotalRevenue
                            draws b s)
  | CreateSession reply req => fst (createSession isUrl reply req s)
  | StripeWebhook now req =>
      fst (stripeWebhook constructEvent endpointSecret now req s)
  end.

(** The store after the requests, served one after the other. *)
Definition serveAll (rs : list Request) (s : Store) : Store :=
  fold_left (fun s r => serveRequest r s) rs s.
End Server.

(** Sum of a weight over the referral rows. *)
Definition total (w : Referral.t -> Z) (l : list Referral.t) : Z :=
  fold_right (fun r acc => (w r + acc)%Z) 0%Z l.

Definition attributedTo (promoter : Id) (r : Referral.t) : bool :=
  Nat.eqb (Referral.promoterId r) promoter.

(** A referral converted by a checkout-completed transaction: converted,
    and linked to the payment that converted it. *)
Definition convertedByPayment (r : Referral.t) : bool :=
  Referral.isConverted r
  && match Referral.paymentId r with Some _ => true | None => false end.

(** The referral rows recorded for a promoter. *)
Definition referralsRecorded (promoter : Id) (l : list Referral.t) : Z :=
  total (fun r => if attributedTo promoter r then 1%Z else 0%Z) l.

(** The referrals of a promoter converted by a payment. *)
Definition conversions (promoter : Id) (l : list Referral.t) : Z :=
  total (fun r => if attributedTo promoter r && convertedByPayment r
                  then 1%Z else 0%Z) l.

(** The commission amounts of those referrals. *)
Definition commissionsConverted (promoter : Id) (l : list Referral.t) : Z :=
  total (fun r => if attributedTo promoter r && convertedByPayment r
                  then Referral.commission r else 0%Z) l.

(** [x] is the first row of [l], in table order, that has property [P]. *)
Definition firstWith {A} (P : A -> Prop) (l : list A) (x : A) : Prop :=
  exists pre post,
    l = app pre (x :: post) /\ P x /\ forall y, In y pre -> ~ P y.

(** A referral that is recorded for the customer of [session] under the
    code of its metadata and has not been converted. *)
Definition unconvertedFor (session : Session.t) (r : Referral.t) : Prop :=
  Referral.participantEmail r = Session.customer_email session
  /\ Referral.referralCode r = Metadata.referralCode (Session.metadata session)
  /\ Referral.isConverted r = false.

(** The referral a checkout-completed event is to convert: the first
    unconverted referral for the session when its metadata carries a code,
    none when the code is empty or no such referral is recorded. *)
Definition referralToConvert (session : Session.t) (s : Store)
  (referral : option Referral.t) : Prop :=
  match referral with
  | Some r =>
      Metadata.referralCode (Session.metadata session) <> ""
      /\ firstWith (unconvertedFor session) (referrals s) r
  | None =>
      Metadata.referralCode (Session.metadata session) = ""
      \/ forall x, In x (referrals s) -> ~ unconvertedFor session x
  end.

(** What can have become of referral row [r0], now [r]: nothing, or, when
    it was unconverted, its conversion at some time by some payment. *)
Definition convertedFrom (r0 r : Referral.t) : Prop :=
  r = r0
  \/ (Referral.isConverted r0 = false
      /\ exists now payment,
           r = Referral.mk (Referral.id r0) (Referral.promoterId r0)
                 (Referral.participantEmail r0) (Referral.referralCode r0)
                 (Referral.tier r0) (Referral.commission r0)
                 true (Some now) (Some payment)).

(** Row by row, [s'] holds what became of the referrals of [s]. *)
Definition referralsKept (s s' : Store) : Prop :=
  forall i r0, nth_error (referrals s) i = Some r0 ->
               exists r, nth_error (referrals s') i = Some r
                         /\ convertedFrom r0 r.

(** Referral ids are distinct and below the id counter. *)
Definition referralIdsFresh (s : Store) : Prop :=
  NoDup (map Referral.id (referrals s))
  /\ forall r, In r (referrals s) -> Referral.id r < nextId s.

(** How the counters of promoter row [p0], now [p], moved while the
    referral table went from [l0] to [l]. *)
Definition tracks (l0 l : list Referral.t) (p0 p : Promoter.t) : Prop :=
  Promoter.id p = Promoter.id p0
  /\ (Promoter.totalReferrals p - Promoter.totalReferrals p0
      = (referralsRecorded (Promoter.id p0) l
         - referralsRecorded (Promoter.id p0) l0)
        + (conversions (Promoter.id p0) l - conversions (Promoter.id p0) l0))%Z
  /\ (Promoter.totalRevenue p - Promoter.totalRevenue p0
      = commissionsConverted (Promoter.id p0) l
        - commissionsConverted (Promoter.id p0) l0)%Z.

(** Every promoter row of [s0] is still there in [s], in its place, with
    counters that moved as [tracks] says; rows may have been added. *)
Definition countersTrack (s0 s : Store) : Prop :=
  exists kept added,
    promoters s = (kept ++ added)%list
    /\ Forall2 (tracks (referrals s0) (referrals s)) (promoters s0) kept.

(** An account has one participant record, and the accounts that
    participants and payments name were created before the id counter. *)
Definition accountsLinked (s : Store) : Prop :=
  paymentsLinked s
  /\ (forall p1 p2,
        In p1 (participants s) -> In p2 (participants s) ->
        Participant.userId p1 = Participant.userId p2 ->
        Participant.id p1 = Participant.id p2)
  /\ (forall pt, In pt (participants s) -> Participant.userId pt < nextId s)
  /\ (forall pm, In pm (payments s) -> Payment.userId pm < nextId s).

(** A participant email has at most one referral, and it is the email of a
    user. *)
Definition referralPerEmail (s : Store) : Prop :=
  NoDup (map Referral.participantEmail (referrals s))
  /\ forall r, In r (referrals s) ->
               exists u, In u (users s)
                         /\ User.email u = Referral.participantEmail r.

(** What the modelled requests keep true of the store. *)
Definition consistent (s : Store) : Prop :=
  referralIdsFresh s /\ accountsLinked s /\ referralPerEmail s.

(* ===================================================================== *)
(** ** Scenario data *)
(* ===================================================================== *)

(** A verifier in the shape of [constructEvent] for the scenarios: the
    header must be the secret behind [v1=], and the payload names one of
    the known events. *)
Definition scenarioConstructEvent (events : list (string * Event))
  (payload header secret : string) : Event + string :=
  if String.eqb header ("v1=" ++ secret) then
    match find (fun e => String.eqb (fst e) payload) events with
    | Some (_, event) => inl event
    | None => inr "Unexpected end of JSON input"
    end
  else inr "No signatures found matching the expected signature for payload.".

Definition scenarioIsUrl (s : string) : bool := prefix "https://" s.

Definition scenarioIsEmail (s : string) : bool :=
  match index 0 "@" s with Some _ => true | None => false end.

Definition promoterUser : User.t := User.mk 0 "pat@promo.example" "PROMOTER".

Definition promoterPat : Promoter.t :=
  Promoter.mk 1 0 PromoterStatus.APPROVED "REFABC123" 0 0.

(** An approved promoter and nobody else. *)
Definition store0 : Store :=
  mkStore [promoterUser] [] [promoterPat] [] [] [] [] 2.

Definition annRegistration : RegistrationBody :=
  mkRegistrationBody "Ann" "Lee" "ann@example.com" "NL" "PREMIUM"
                     (Some "REFABC123") "tok" true.

(** Ann has registered for PREMIUM with Pat's code. *)
Definition store1 : Store :=
  Eval vm_compute in fst (registerParticipant scenarioIsEmail annRegistration store0).

Definition annCheckout : CreateSessionRequest :=
  mkCreateSessionRequest 2
    (mkCreateSessionBody "PREMIUM" 3 "https://hunt.example/ok"
                         "https://hunt.example/cancel").

Definition annReply : option (string * string) :=
  Some ("cs_1", "https://pay.example/cs_1").

(** Ann has opened a checkout session. *)
Definition store2 : Store :=
  Eval vm_compute in fst (createSession scenarioIsUrl annReply annCheckout store1).

Definition annSession : Session.t :=
  Session.mk "cs_1" "pi_1" "ann@example.com"
             (Metadata.mk 3 2 "PREMIUM" "REFABC123").

(** The provider has reported the session completed. *)
Definition store3 : Store :=
  Eval vm_compute in fst (handleCheckoutSessionCompleted 10 annSession store2).

Definition annFailure : PaymentIntent.t :=
  PaymentIntent.mk "pi_1" (Some "Your card was declined.").

Definition strayFailure : PaymentIntent.t :=
  PaymentIntent.mk "pi_404" (Some "Your card was declined.").

Definition scenarioEvents : list (string * Event) :=
  [("evt_completed", CheckoutSessionCompleted annSession);
   ("evt_failed", PaymentIntentPaymentFailed annFailure);
   ("evt_stray", PaymentIntentPaymentFailed strayFailure)].

Definition scenarioSecret : string := "whsec_test".

Definition scenarioWebhook (now : nat) (req : WebhookRequest) (s : Store)
  : Store * Response :=
  stripeWebhook (scenarioConstructEvent scenarioEvents) scenarioSecret now req s.

Definition freeRegistration : RegistrationBody :=
  mkRegistrationBody "Bo" "Ray" "bo@example.com" "SE" "FREE"
                     (Some "REFABC123") "tok" true.

(** Session metadata of a participant who registered without a code. *)
Definition plainSession : Session.t :=
  Session.mk "cs_1" "pi_1" "ann@example.com" (Metadata.mk 3 2 "PREMIUM" "").

Definition caraRegistration : RegistrationBody :=
  mkRegistrationBody "Cara" "Diaz" "cara@example.com" "ES" "VIP"
                     None "tok" true.

(** Cara has registered for VIP without a referral code. *)
Definition storeCara : Store :=
  Eval vm_compute in
    fst (registerParticipant scenarioIsEmail caraRegistration store0).

Definition caraCheckout : CreateSessionRequest :=
  mkCreateSessionRequest 2
    (mkCreateSessionBody "VIP" 3 "https://hunt.example/ok"
                         "https://hunt.example/cancel").

(** Two draws of [Math.random().toString(36)]: the first gives the code
    Pat already holds. *)
Definition scenarioDraws : list string := ["0.abc123xyz"; "0.k3j9zq81"].

Definition quinnApplication : PromoterBody :=
  mkPromoterBody "Quinn" "Roe" "quinn@example.com" "NL" "BUSINESS"
    "Ten years of running community events and newsletters."
    "I will present the hunt in my weekly newsletter, on my video channel and at two local meetups each month."
    "tok" true true.

(** The payment of Ann after the provider has reported it failed. *)
Definition store4 : Store :=
  Eval vm_compute in fst (handlePaymentIntentFailed annFailure store3).

(** The scenario as requests to the server. *)
Definition scenarioRequests : list Request :=
  [RegisterParticipant annRegistration;
   CreateSession annReply annCheckout;
   StripeWebhook 10 (mkWebhookRequest "evt_completed" "v1=whsec_test");
   StripeWebhook 11 (mkWebhookRequest "evt_completed" "v1=whsec_test")].


(* ===================================================================== *)
(** ** middleware/auth.ts *)
(* ===================================================================== *)

From Stdlib Require QArith.

(** What a middleware does with a request: hand it on, with what it has
    attached to it, or answer it. *)
Inductive Gate (A : Type) :=
| Next (a : A)
| Respond (status : nat) (error : string).
Arguments Next {A} a.
Arguments Respond {A} status error.

(** [s.split(' ')]: the pieces of [s] between occurrences of [sep]. *)
Fixpoint splitOn (sep : ascii) (s : string) : list string :=
  match s with
  | EmptyString => [EmptyString]
  | String c rest =>
      if Ascii.eqb c sep then EmptyString :: splitOn sep rest
      else match splitOn sep rest with
           | piece :: pieces => String c piece :: pieces
           | [] => [String c EmptyString]
           end
  end.

(** What [jwt.verify(token, secret)] of the jsonwebtoken library does: the
    [id] of the payload (if it has one), a [JsonWebTokenError] (its subclasses for an
    expired or a not yet valid token included), or another error. *)
Inductive JwtVerify :=
| Decoded (id : option Id)
| JsonWebTokenError
| JwtOtherError.

(** [req.user], the columns selected from the user row. *)
Record AuthUser := mkAuthUser {
  auId : Id;
  auEmail : string;
  auRole : string
}.

Section Auth.
(** [process.env.JWT_SECRET] and the verifier of the library. *)
Variable jwtSecret : option string.
Variable jwtVerify : string -> string -> JwtVerify.

(** [authenticate], on the [Authorization] header of the request. It only
    reads the store. *)
Definition authenticate (authorization : option string) (s : Store)
  : Gate AuthUser :=
  match authorization with
  | None => Respond 401 "Access denied. No token provided."
  | Some authHeader =>
      if negb (truthy authHeader) || negb (prefix "Bearer " authHeader) then
        Respond 401 "Access denied. No token provided."
      else
        match jwtSecret with
        | None => Respond 500 "Internal server error during authentication."
        | Some secret =>
            if negb (truthy secret) then
              Respond 500 "Internal server error during authentication."
            else
              match nth_error (splitOn " " authHeader) 1 with
              | None => Respond 401 "Invalid token."
              | Some token =>
                  match jwtVerify token secret with
                  | JsonWebTokenError => Respond 401 "Invalid token."
                  | JwtOtherError =>
                      Respond 500 "Internal server error during authentication."
                  | Decoded None =>
                      Respond 500 "Internal server error during authentication."
                  | Decoded (Some id) =>
                      match find (hasId userTable id) (users s) with
                      | None => Respond 401 "Invalid token. User not found."
                      | Some user =>
                          Next (mkAuthUser (User.id user) (User.email user)
                                           (User.role user))
                      end
                  end
              end
        end
  end.

(** [authorize(...roles)], on [req.user]. *)
Definition authorize (roles : list string) (user : option AuthUser)
  : Gate AuthUser :=
  match user with
  | None => Respond 401 "Authentication required."
  | Some u =>
      if existsb (String.eqb (auRole u)) roles then Next u
      else Respond 403 "Insufficient permissions."
  end.

(** A route behind [router.use(authenticate)] and
    [router.use(authorize('ADMIN'))]: the handler runs for the user the
    middlewares let through. *)
Definition adminRoute {B} (authorization : option string)
  (handler : Id -> M B) (s : Store) : Store * Gate (Result B) :=
  match authenticate authorization s with
  | Respond status error => (s, Respond status error)
  | Next user =>
      match authorize ["ADMIN"] (Some user) with
      | Respond status error => (s, Respond status error)
      | Next user =>
          let (s1, result) := handler (auId user) s in
          (s1, Next result)
      end
  end.
End Auth.

(* ===================================================================== *)
(** ** middleware/validateTurnstile.ts *)
(* ===================================================================== *)

(** The environment variables the middleware reads. *)
Record TurnstileEnv := mkTurnstileEnv {
  TURNSTILE_SECRET_KEY : option string;
  NODE_ENV : option string;
  RAILWAY_ENVIRONMENT : option string;
  DISABLE_TURNSTILE : option string
}.

(** What the call to the siteverify endpoint gives: the [success] field of
    the reply, or an error thrown (network, timeout, malformed reply). *)
Inductive Siteverify :=
| Replied (success : bool)
| SiteverifyError.

Definition isDevelopment (env : TurnstileEnv) : bool :=
  match NODE_ENV env with
  | Some v => String.eqb v "development"
  | None => false
  end.

Definition isDisabled (env : TurnstileEnv) : bool :=
  match DISABLE_TURNSTILE env with
  | Some v => String.eqb v "true"
  | None => false
  end.

(** The environments in which the [catch] block lets the request through
    whatever was thrown. *)
Definition bypassOnError (env : TurnstileEnv) : bool :=
  isDevelopment env || truthyOpt (RAILWAY_ENVIRONMENT env) || isDisabled env.

(** [validateTurnstile], on [req.body]: [None] when the request has no
    body ([req.body] is undefined or null), so that destructuring it throws
    inside the [try]; otherwise the [turnstileToken] of the body. [siteverify] is what the provider answers
    when it is asked. *)
Definition validateTurnstile (env : TurnstileEnv) (siteverify : Siteverify)
  (body : option (option string)) : Gate unit :=
  match body with
  | None =>
      if bypassOnError env then Next tt
      else Respond 500 "Bot verification service temporarily unavailable."
  | Some turnstileToken =>
      if negb (truthyOpt turnstileToken) then
        Respond 400 "Turnstile verification required."
      else if negb (truthyOpt (TURNSTILE_SECRET_KEY env)) then
        if isDevelopment env || truthyOpt (RAILWAY_ENVIRONMENT env) then Next tt
        else Respond 500 "Server configuration error."
      else
        match siteverify with
        | Replied success =>
            if negb success then
              Respond 400 "Bot verification failed. Please try again."
            else Next tt
        | SiteverifyError =>
            if bypassOnError env then Next tt
            else Respond 500 "Bot verification service temporarily unavailable."
        end
  end.

(* ===================================================================== *)
(** ** Paginated lists: routes/payments.ts, routes/promoters.ts *)
(* ===================================================================== *)

(** [parseInt(q) || d], on what [parseInt] gave ([None] for [NaN]): zero is
    as falsy as [NaN]. *)
Definition orDefault (parsed : option Z) (d : Z) : Z :=
  match parsed with
  | Some n => if Z.eqb n 0 then d else n
  | None => d
  end.

(** [Math.ceil(a / b)] for [b] other than zero. The quotient of a row count
    by a page size is far below the range where doubles lose integers. *)
Definition ceilDiv (a b : Z) : Z := (- ((- a) / b))%Z.

(** [findMany({ orderBy, skip, take })] on the rows already filtered and
    ordered: a negative [skip] is refused by the client, a negative [take]
    counts from the end of the list. *)
Definition window {R} (l : list R) (skip take : Z) : Result (list R) :=
  if Z.ltb skip 0 then
    Throw (PrismaError "Invalid value for skip argument.")
  else if Z.leb 0 take then
    Ok (firstn (Z.to_nat take) (skipn (Z.to_nat skip) l))
  else
    Ok (rev (firstn (Z.to_nat (- take)) (skipn (Z.to_nat skip) (rev l)))).

Record Pagination := mkPagination {
  pgPage : Z;
  pgLimit : Z;
  pgTotal : Z;
  pgPages : Z
}.

Definition pageOf (page : option Z) : Z := orDefault page 1.

Definition limitOf (limit : option Z) (default cap : Z) : Z :=
  Z.min (orDefault limit default) cap.

Definition paginationOf (page limit total : Z) : Pagination :=
  mkPagination page limit total (ceilDiv total limit).

Definition ownedBy (user : Id) (p : Payment.t) : bool :=
  Nat.eqb (Payment.userId p) user.

(** [GET /api/payments/history]: the payments of the account, newest first
    (rows are stored in the order they were created), each with the tier
    and status of its participant. *)
Definition paymentHistory (user : Id) (page limit : option Z)
  : M (list (Payment.t * option (Tier.t * ParticipantStatus.t)) * Pagination) :=
  let page := pageOf page in
  let limit := limitOf limit 10 50 in
  let offset := ((page - 1) * limit)%Z in
  fun s =>
    let mine := filter (ownedBy user) (payments s) in
    match window (rev mine) offset limit with
    | Throw e => (s, Throw e)
    | Ok payments =>
        (s, Ok (map (fun p =>
                       (p, option_map
                             (fun pt => (Participant.tier pt,
                                         Participant.status pt))
                             (find (hasId participantTable
                                      (Payment.participantId p))
                                   (participants s))))
                    payments,
                paginationOf page limit (Z.of_nat (length mine))))
    end.

(** [GET /api/promoters/referrals]: the referrals of the promoter of the
    account, newest first. *)
Definition promoterReferrals (user : Id) (page limit : option Z)
  : M (list Referral.t * Pagination) :=
  let page := pageOf page in
  let limit := limitOf limit 20 100 in
  let offset := ((page - 1) * limit)%Z in
  promoter <- findFirst promoterTable
                (fun p => Nat.eqb (Promoter.userId p) user) ;;
  match promoter with
  | None => throw (AppError "Promoter not found" 404)
  | Some promoter =>
      fun s =>
        let mine := filter (attributedTo (Promoter.id promoter))
                           (referrals s) in
        match window (rev mine) offset limit with
        | Throw e => (s, Throw e)
        | Ok referrals =>
            (s, Ok (referrals,
                    paginationOf page limit (Z.of_nat (length mine))))
        end
  end.

(* ===================================================================== *)
(** ** routes/payments.ts: session status *)
(* ===================================================================== *)

(** What [stripe.checkout.sessions.retrieve] gives for a session. *)
Record RetrievedSession := mkRetrievedSession {
  rsId : string;
  rsStatus : string;
  rsPaymentStatus : string;
  rsUrl : string
}.

Record SessionStatus := mkSessionStatus {
  ssPaymentId : Id;
  ssPaymentStatus : PaymentStatus.t;
  ssAmount : Z;
  ssTier : Tier.t;
  ssSession : RetrievedSession;
  ssParticipantId : Id;
  ssParticipantTier : Tier.t;
  ssParticipantStatus : ParticipantStatus.t
}.

(** [GET /api/payments/session/:sessionId/status]. [retrieved] is what the
    provider answers, nothing when the call fails. *)
Definition sessionStatus (retrieved : option RetrievedSession) (user : Id)
  (sessionId : string) : M SessionStatus :=
  payment <- findFirst paymentTable
               (fun p => String.eqb (Payment.stripeSessionId p) sessionId
                         && Nat.eqb (Payment.userId p) user) ;;
  match payment with
  | None => throw (AppError "Payment session not found" 404)
  | Some payment =>
      match retrieved with
      | None => throw (StripeError "checkout session retrieval failed")
      | Some session =>
          participant <- findFirst participantTable
                           (hasId participantTable
                              (Payment.participantId payment)) ;;
          match participant with
          | None => throw (Error "Cannot read properties of null")
          | Some participant =>
              ret (mkSessionStatus (Payment.id payment)
                     (Payment.status payment) (Payment.amount payment)
                     (Payment.tier payment) session
                     (Participant.id participant)
                     (Participant.tier participant)
                     (Participant.status participant))
          end
      end
  end.

(* ===================================================================== *)
(** ** routes/admin.ts *)
(* ===================================================================== *)

Record ApproveBody := mkApproveBody {
  apPromoterId : Id;
  apApproved : bool;
  apCommissionRate : option QArith_base.Q
}.

(** [z.number().min(0).max(1)]. *)
Definition inUnitInterval (r : QArith_base.Q) : bool :=
  QArith_base.Qle_bool (QArith_base.Qmake 0 1) r
  && QArith_base.Qle_bool r (QArith_base.Qmake 1 1).

(** [approvePromoterSchema.parse]; an id is a cuid by construction. *)
Definition approvePromoterSchema (b : ApproveBody) : M ApproveBody :=
  match apCommissionRate b with
  | Some r =>
      if inUnitInterval r then ret b
      else throw (ZodError "Number out of range")
  | None => ret b
  end.

Definition decidePromoter (approved : bool) (p : Promoter.t) : Promoter.t :=
  Promoter.mk (Promoter.id p) (Promoter.userId p)
    (if approved then PromoterStatus.APPROVED else PromoterStatus.REJECTED)
    (Promoter.referralCode p) (Promoter.totalReferrals p)
    (Promoter.totalRevenue p).

(** [PUT /api/admin/promoters/approve], for the admin [admin]. The columns
    it writes besides the status (approver, dates, reason, commission rate,
    the password of the user) are not among those the rows carry; the
    update of the user is there for the row it requires. *)
Definition approvePromoter (admin : Id) (b : ApproveBody) : M Promoter.t :=
  tryCatch
    (validatedData <- approvePromoterSchema b ;;
     promoter <- findFirst promoterTable
                   (hasId promoterTable (apPromoterId validatedData)) ;;
     match promoter with
     | None => throw (AppError "Promoter not found" 404)
     | Some promoter =>
         if negb (PromoterStatus.eqb (Promoter.status promoter)
                                     PromoterStatus.PENDING)
         then throw (AppError
                       "Only pending applications can be approved/rejected"
                       400)
         else
           user <- findFirst userTable
                     (hasId userTable (Promoter.userId promoter)) ;;
           transaction
             (updatedPromoter <- update promoterTable
                                   (apPromoterId validatedData)
                                   (decidePromoter (apApproved validatedData)) ;;
              (if apApproved validatedData then
                 update userTable (Promoter.userId promoter) (fun u => u) ;;
                 ret tt
               else
                 match user with
                 | None => throw (Error "Cannot read properties of null")
                 | Some _ => ret tt
                 end) ;;
              create auditLogTable
                     (fun id => AuditLog.mk id (Some admin)
                                  (if apApproved validatedData
                                   then "PROMOTER_APPROVED"
                                   else "PROMOTER_REJECTED")
                                  "PROMOTER" (Promoter.id updatedPromoter)) ;;
              ret updatedPromoter)
     end)
    rethrowZod.

Definition parseParticipantStatus (s : string) : option ParticipantStatus.t :=
  if String.eqb s "PENDING" then Some ParticipantStatus.PENDING
  else if String.eqb s "APPROVED" then Some ParticipantStatus.APPROVED
  else if String.eqb s "REJECTED" then Some ParticipantStatus.REJECTED
  else if String.eqb s "ACTIVE" then Some ParticipantStatus.ACTIVE
  else if String.eqb s "SUSPENDED" then Some ParticipantStatus.SUSPENDED
  else None.

Record StatusBody := mkStatusBody {
  stParticipantId : Id;
  stStatus : string
}.

Definition setParticipantStatus (status : ParticipantStatus.t)
  (p : Participant.t) : Participant.t :=
  Participant.mk (Participant.id p) (Participant.userId p)
    (Participant.tier p) status (Participant.referredBy p).

(** [PUT /api/admin/participants/status], for the admin [admin]. *)
Definition updateParticipantStatus (admin : Id) (b : StatusBody)
  : M Participant.t :=
  tryCatch
    (match parseParticipantStatus (stStatus b) with
     | None => throw (ZodError "Invalid enum value")
     | Some status =>
         transaction
           (participant <- update participantTable (stParticipantId b)
                             (setParticipantStatus status) ;;
            create auditLogTable
                   (fun id => AuditLog.mk id (Some admin)
                                "PARTICIPANT_STATUS_UPDATE" "PARTICIPANT"
                                (Participant.id participant)) ;;
            ret participant)
     end)
    rethrowZod.

(* ===================================================================== *)
(** ** The server with the admin routes *)
(* ===================================================================== *)

Inductive AnyRequest :=
| Public (r : Request)
| ApprovePromoter (admin : Id) (b : ApproveBody)
| UpdateParticipantStatus (admin : Id) (b : StatusBody).

Section AnyServer.
Variable constructEvent : string -> string -> string -> Event + string.
Variable endpointSecret : string.
Variable isUrl : string -> bool.
Variable isEmail : string -> bool.
Variable defaultTotalReferrals : Z.
Variable defaultTotalRevenue : Z.

Definition serveAny (r : AnyRequest) (s : Store) : Store :=
  match r with
  | Public r =>
      serveRequest constructEvent endpointSecret isUrl isEmail
                   defaultTotalReferrals defaultTotalRevenue r s
  | ApprovePromoter admin b => fst (approvePromoter admin b s)
  | UpdateParticipantStatus admin b => fst (updateParticipantStatus admin b s)
  end.

Definition serveAnyAll (rs : list AnyRequest) (s : Store) : Store :=
  fold_left (fun s r => serveAny r s) rs s.
End AnyServer.

(** The store after an application has been decided. *)
Definition decidedStore (admin : Id) (approved : bool) (promoter : Promoter.t)
  (s : Store) : Store :=
  mkStore (users s) (participants s)
    (updateRows promoterTable (Promoter.id promoter)
       (decidePromoter approved) (promoters s))
    (referrals s) (payments s)
    (auditLogs s ++ [AuditLog.mk (nextId s) (Some admin)
                       (if approved then "PROMOTER_APPROVED"
                        else "PROMOTER_REJECTED")
                       "PROMOTER" (Promoter.id promoter)])
    (stripeSessions s) (S (nextId s)).

(** The store after the status of a participant has been set. *)
Definition statusStore (admin : Id) (status : ParticipantStatus.t)
  (participant : Id) (s : Store) : Store :=
  mkStore (users s)
    (updateRows participantTable participant (setParticipantStatus status)
       (participants s))
    (promoters s) (referrals s) (payments s)
    (auditLogs s ++ [AuditLog.mk (nextId s) (Some admin)
                       "PARTICIPANT_STATUS_UPDATE" "PARTICIPANT" participant])
    (stripeSessions s) (S (nextId s)).

(** The response of a registration that went through. *)
Definition registrationResponse (d : RegistrationData) (s : Store)
  : Response :=
  mkResponse 201
    (RegistrationSuccessful (S (nextId s)) (dEmail d) (dTier d)
       (if Tier.eqb (dTier d) Tier.FREE then ParticipantStatus.APPROVED
        else ParticipantStatus.PENDING)
       (negb (Tier.eqb (dTier d) Tier.FREE))).

(** The event object the provider sends when the checkout session [cs] has
    been paid with payment intent [intent]. *)
Definition completedSessionOf (cs : CheckoutSession.t) (intent : string)
  : Session.t :=
  Session.mk (CheckoutSession.id cs) intent (CheckoutSession.customer_email cs)
             (CheckoutSession.metadata cs).

(** Every referral names a promoter of the store. *)
Definition referralsHavePromoter (s : Store) : Prop :=
  forall r, In r (referrals s) ->
            find (hasId promoterTable (Referral.promoterId r)) (promoters s)
            <> None.

(** No space occurs in [s]. *)
Fixpoint noSpace (s : string) : bool :=
  match s with
  | EmptyString => true
  | String c rest => negb (Ascii.eqb c " ") && noSpace rest
  end.

(** No lower-case letter of the ASCII alphabet occurs in [s]. *)
Fixpoint noLowerCase (s : string) : bool :=
  match s with
  | EmptyString => true
  | String c rest =>
      negb (Nat.leb 97 (nat_of_ascii c) && Nat.leb (nat_of_ascii c) 122)
      && noLowerCase rest
  end.

(** The payments page [k] of the history shows, nothing when the request
    throws. *)
Definition historyPage (user : Id) (limit : option Z) (s : Store) (k : nat)
  : list Payment.t :=
  match snd (paymentHistory user (Some (Z.of_nat k)) limit s) with
  | Ok (rows, _) => map fst rows
  | Throw _ => []
  end.

(** Pages 1 to [n] of the history, one after the other. *)
Definition historyPages (user : Id) (limit : option Z) (s : Store) (n : nat)
  : list Payment.t :=
  flat_map (historyPage user limit s) (seq 1 n).

(* ===================================================================== *)
(** ** More scenario data *)
(* ===================================================================== *)

Definition suspendAnn : StatusBody := mkStatusBody 3 "SUSPENDED".

(** An admin (user 0 stands in) has suspended Ann after her payment. *)
Definition storeSuspended : Store :=
  Eval vm_compute in fst (updateParticipantStatus 0 suspendAnn store3).

(** Quinn has applied as a promoter. *)
Definition storeQuinn : Store :=
  Eval vm_compute in
    fst (registerPromoter scenarioIsEmail 0 0 scenarioDraws quinnApplication
                          store0).

Definition danRegistration : RegistrationBody :=
  mkRegistrationBody "Dan" "Ek" "dan@example.com" "SE" "VIP"
                     (Some "REFK3J9ZQ") "tok" true.

(** A verifier that accepts one token, Ann's, under one secret. *)
Definition scenarioJwtVerify (token secret : string) : JwtVerify :=
  if String.eqb token "tok-ann" && String.eqb secret "s3cret"
  then Decoded (Some 2)
  else JsonWebTokenError.

Definition annUser : AuthUser := mkAuthUser 2 "ann@example.com" "PARTICIPANT".

Definition approveQuinn : ApproveBody := mkApproveBody 3 true None.

(** An admin (user 0 stands in) has approved Quinn's application. *)
Definition storeApproved : Store :=
  Eval vm_compute in fst (approvePromoter 0 approveQuinn storeQuinn).

(* ===================================================================== *)
(** ** What the server never touches *)
(* ===================================================================== *)

(** [new] is [old] with rows added at the end. *)
Definition grows {A} (old new : list A) : Prop :=
  exists more, new = app old more.

(** The columns of a row that say what it is about. *)
Definition userIdentity (u : User.t) : Id * string * string :=
  (User.id u, User.email u, User.role u).

Definition participantIdentity (p : Participant.t)
  : Id * Id * option string :=
  (Participant.id p, Participant.userId p, Participant.referredBy p).

Definition promoterIdentity (p : Promoter.t) : Id * Id * string :=
  (Promoter.id p, Promoter.userId p, Promoter.referralCode p).

Definition referralIdentity (r : Referral.t)
  : Id * Id * string * string * Tier.t * Z :=
  (Referral.id r, Referral.promoterId r, Referral.participantEmail r,
   Referral.referralCode r, Referral.tier r, Referral.commission r).

Definition paymentIdentity (p : Payment.t)
  : Id * Id * Id * string * Z * string * Tier.t * option string :=
  (Payment.id p, Payment.userId p, Payment.participantId p,
   Payment.stripeSessionId p, Payment.amount p, Payment.currency p,
   Payment.tier p, Payment.referralCode p).

(** From [s] to [s'] no row has been deleted, moved or given another
    identity, and no audit log entry or provider session has been changed
    at all. Of a user the identity is its id, email and role: the password,
    which the approval of a promoter overwrites, is not among the columns
    the rows carry, and nothing is said of it. *)
Definition keeps (s s' : Store) : Prop :=
  grows (map userIdentity (users s)) (map userIdentity (users s'))
  /\ grows (map participantIdentity (participants s))
           (map participantIdentity (participants s'))
  /\ grows (map promoterIdentity (promoters s))
           (map promoterIdentity (promoters s'))
  /\ grows (map referralIdentity (referrals s))
           (map referralIdentity (referrals s'))
  /\ grows (map paymentIdentity (payments s))
           (map paymentIdentity (payments s'))
  /\ grows (auditLogs s) (auditLogs s')
  /\ grows (stripeSessions s) (stripeSessions s')
  /\ (nextId s <= nextId s')%nat.

(** The users of [s'] are those of [s], or those and one more whose email
    no user of [s] has. *)
Definition addsNewEmail (s s' : Store) : Prop :=
  users s' = users s
  \/ exists u, users s' = app (users s) [u]
               /\ forall v, In v (users s) -> User.email v <> User.email u.

(** The requests of the scenario, then an admin suspending Ann. *)
Definition scenarioAnyRequests : list AnyRequest :=
  app (map Public scenarioRequests) [UpdateParticipantStatus 0 suspendAnn].
(* ===================================================================== *)
(** ** Basic facts on tables *)
(* ===================================================================== *)

Unset Implicit Arguments.

Lemma find_some_hasId {R} (T : Table R) (f : R -> bool) l r :
  find f l = Some r -> find (hasId T (rowId T r)) l <> None.
Proof.
  induction l as [|x l IH]; simpl; [discriminate|].
  destruct (f x).
  - intros [= ->]. unfold hasId. now rewrite Nat.eqb_refl.
  - intros H. destruct (hasId T (rowId T r) x); [discriminate | auto].
Qed.

(** A lookup that the update does not disturb finds the updated row. *)
Lemma find_updateRows {R} (T : Table R) (f : R -> bool) (data : R -> R) id l :
  (forall r, f (data r) = f r) ->
  find f (updateRows T id data l)
  = option_map (fun r => if Nat.eqb (rowId T r) id then data r else r)
               (find f l).
Proof.
  intros Hf. induction l as [|r l IH]; simpl; [reflexivity|].
  destruct (Nat.eqb (rowId T r) id) eqn:E.
  - rewrite Hf. destruct (f r); simpl; [now rewrite E | exact IH].
  - destruct (f r); simpl; [now rewrite E | exact IH].
Qed.


(* ===================================================================== *)
(** ** The webhook handlers in closed form *)
(* ===================================================================== *)

(** Case analysis on a condition the goal is stuck on. *)
Ltac case_if :=
  match goal with
  | |- context [if ?c then _ else _] => destruct c eqn:?
  end.

(** Case analysis on the lookup in table [l] the goal is stuck on. *)
Ltac case_find l H :=
  match goal with
  | |- context [find ?f l] => destruct (find f l) eqn:H; cbn
  end.

Lemma handleCheckoutSessionCompleted_eq now session s :
  handleCheckoutSessionCompleted now session s = completedResult now session s.
Proof.
  unfold handleCheckoutSessionCompleted, tryCatch, transaction,
    checkoutSessionCompletedTx, processReferral, asTier, bind, findFirst,
    update, create, ret, throw.
  unfold completedResult, matchingReferral, hasId, bySession.
  cbn.
  case_find (payments s) Hpay; [|reflexivity].
  case_find (payments s) Hid;
    [|exfalso; exact (find_some_hasId paymentTable _ _ _ Hpay Hid)].
  destruct (Tier.parse _); cbn; [|reflexivity].
  case_find (participants s) Hpt; [|reflexivity].
  destruct (truthy _); cbn; [|reflexivity].
  case_find (referrals s) Href; [|reflexivity].
  case_find (referrals s) Hrid;
    [|exfalso; exact (find_some_hasId referralTable _ _ _ Href Hrid)].
  case_find (promoters s) Hpr; reflexivity.
Qed.

Lemma handlePaymentIntentFailed_eq paymentIntent s :
  handlePaymentIntentFailed paymentIntent s
  = match find (byIntent paymentIntent) (payments s) with
    | Some payment => (failedStore paymentIntent payment s, Ok tt)
    | None => (s, Ok tt)
    end.
Proof.
  unfold handlePaymentIntentFailed, tryCatch, bind, findFirst, update, create,
    ret, throw, byIntent.
  cbn.
  case_find (payments s) Hpay; [|reflexivity].
  case_find (payments s) Hid;
    [|exfalso; exact (find_some_hasId paymentTable _ _ _ Hpay Hid)].
  reflexivity.
Qed.

Lemma handleCheckoutSessionCompleted_outcome now session s :
  CompletedOutcome now session s (handleCheckoutSessionCompleted now session s).
Proof.
  rewrite handleCheckoutSessionCompleted_eq. unfold completedResult.
  destruct (find (bySession session) (payments s)) as [payment|] eqn:Hpay;
    [|constructor].
  destruct (Tier.parse _) as [tier|] eqn:Htier; [|constructor].
  destruct (find (hasId participantTable _) _) eqn:Hpt; [|constructor].
  pose proof (@Committed now session s payment tier Hpay Htier) as HC.
  rewrite Hpt in HC. specialize (HC ltac:(discriminate)).
  destruct (matchingReferral session s) as [r|] eqn:Hr.
  - destruct (find (hasId promoterTable _) _) eqn:Hpr; [|constructor].
    apply HC. intros r' [= <-]. rewrite Hpr. discriminate.
  - apply HC. discriminate.
Qed.

(** When its lookups succeed the handler commits. *)
Lemma handleCheckoutSessionCompleted_commits now session s payment tier :
  find (bySession session) (payments s) = Some payment ->
  Tier.parse (Metadata.tier (Session.metadata session)) = Some tier ->
  find (hasId participantTable
          (Metadata.participantId (Session.metadata session)))
       (participants s) <> None ->
  (forall r, matchingReferral session s = Some r ->
             find (hasId promoterTable (Referral.promoterId r))
                  (promoters s) <> None) ->
  handleCheckoutSessionCompleted now session s
  = (committedStore now session payment tier (matchingReferral session s) s,
     Ok tt).
Proof.
  intros Hpay Htier Hpt Hpr.
  rewrite handleCheckoutSessionCompleted_eq. unfold completedResult.
  rewrite Hpay, Htier.
  destruct (find (hasId participantTable _) _); [|congruence].
  destruct (matchingReferral session s) as [r|]; [|reflexivity].
  specialize (Hpr r eq_refl).
  destruct (find (hasId promoterTable _) _); [reflexivity|congruence].
Qed.

(* ===================================================================== *)
(** ** The routes case by case *)
(* ===================================================================== *)

Lemma createPaymentSessionSchema_pure isUrl b s :
  (exists d, createPaymentSessionSchema isUrl b s = (s, Ok d)
             /\ PaidTier.parse (csTier b) = Some (vTier d)
             /\ vParticipantId d = csParticipantId b
             /\ vSuccessUrl d = csSuccessUrl b
             /\ vCancelUrl d = csCancelUrl b)
  \/ (exists m, createPaymentSessionSchema isUrl b s = (s, Throw (ZodError m))).
Proof.
  unfold createPaymentSessionSchema.
  destruct (PaidTier.parse (csTier b)) as [tier|];
    [|right; eexists; reflexivity].
  destruct (isUrl (csSuccessUrl b)); cbn; [|right; eexists; reflexivity].
  destruct (isUrl (csCancelUrl b)); cbn; [|right; eexists; reflexivity].
  left. eexists. split; [reflexivity|]. cbn. repeat split.
Qed.

(** [create-session] either throws and leaves the store alone, or goes
    through all its steps. *)
Lemma createSession_outcome isUrl reply req s :
  (exists e, createSession isUrl reply req s = (s, Throw e))
  \/ (exists d participant user sessionId url res,
        createPaymentSessionSchema isUrl (csBody req) s = (s, Ok d)
        /\ find (hasId participantTable (vParticipantId d)) (participants s)
           = Some participant
        /\ Participant.userId participant = csUser req
        /\ find (completedFor (Participant.id participant)
                              (PaidTier.toTier (vTier d))) (payments s) = None
        /\ reply = Some (sessionId, url)
        /\ createSession isUrl reply req s
           = (sessionStore sessionId url d (csUser req) participant user s,
              Ok res)).
Proof.
  pattern (createSession isUrl reply req s).
  match goal with |- ?P _ => set (Q := P) end.
  unfold createSession, tryCatch, bind at 1.
  destruct (createPaymentSessionSchema_pure isUrl (csBody req) s)
    as [(d & Hd & _)|(m & Hm)].
  2:{ rewrite Hm. left. cbn. eexists; reflexivity. }
  rewrite Hd.
  unfold bind, findFirst, throw, ret, create, stripeCheckoutSessionsCreate.
  cbn.
  case_find (participants s) Hpt; [|left; eexists; reflexivity].
  destruct (Nat.eqb (Participant.userId _) (csUser req)) eqn:Hown; cbn;
    [|left; eexists; reflexivity].
  case_find (payments s) Hex; [left; eexists; reflexivity|].
  case_find (users s) Hu; [|left; eexists; reflexivity].
  destruct reply as [[sessionId url]|]; cbn; [|left; eexists; reflexivity].
  right. do 6 eexists.
  split; [exact Hd|]. split; [exact Hpt|].
  split; [now apply Nat.eqb_eq|]. split; [exact Hex|].
  split; reflexivity.
Qed.

Lemma participantRegistrationSchema_pure isEmail b s :
  (exists d, participantRegistrationSchema isEmail b s = (s, Ok d)
             /\ Tier.parse (rTier b) = Some (dTier d)
             /\ dEmail d = rEmail b
             /\ dReferralCode d = rReferralCode b)
  \/ (exists m,
        participantRegistrationSchema isEmail b s = (s, Throw (ZodError m))).
Proof.
  unfold participantRegistrationSchema.
  destruct (truthy (rFirstName b)); cbn; [|right; eexists; reflexivity].
  destruct (truthy (rLastName b)); cbn; [|right; eexists; reflexivity].
  destruct (isEmail (rEmail b)); cbn; [|right; eexists; reflexivity].
  destruct (truthy (rCountry b)); cbn; [|right; eexists; reflexivity].
  destruct (Tier.parse (rTier b)) as [tier|]; [|right; eexists; reflexivity].
  destruct (truthy (rTurnstileToken b)); cbn; [|right; eexists; reflexivity].
  destruct (rAcceptTerms b); cbn; [|right; eexists; reflexivity].
  left. eexists. split; [reflexivity|]. cbn. repeat split.
Qed.

Lemma lookupReferrer_eq referralCode s :
  lookupReferrer referralCode s
  = match referrerOf referralCode s with
    | Some p => (s, Ok (Some p))
    | None =>
        if truthyOpt referralCode
        then (s, Throw (AppError "Invalid referral code" 400))
        else (s, Ok None)
    end.
Proof.
  unfold lookupReferrer, referrerOf, truthyOpt, bind, findFirst, ret, throw.
  destruct referralCode as [code|]; [|reflexivity].
  destruct (truthy code); [|reflexivity].
  cbn. destruct (find _ _); reflexivity.
Qed.

(** A registration either throws and leaves the store alone, or goes
    through all its steps. *)
Lemma registerParticipant_outcome isEmail b s :
  (exists e, registerParticipant isEmail b s = (s, Throw e))
  \/ (exists d res,
        participantRegistrationSchema isEmail b s = (s, Ok d)
        /\ find (fun u => String.eqb (User.email u) (dEmail d)) (users s) = None
        /\ (truthyOpt (dReferralCode d) = true ->
            referrerOf (dReferralCode d) s <> None)
        /\ registerParticipant isEmail b s
           = (registeredStore d (referrerOf (dReferralCode d) s) s, Ok res)).
Proof.
  pattern (registerParticipant isEmail b s).
  match goal with |- ?P _ => set (Q := P) end.
  unfold registerParticipant, tryCatch, bind at 1.
  destruct (participantRegistrationSchema_pure isEmail b s)
    as [(d & Hd & _)|(m & Hm)].
  2:{ rewrite Hm. left. cbn. eexists; reflexivity. }
  rewrite Hd.
  unfold bind at 1, findFirst at 1. cbn [rows userTable].
  destruct (find _ (users s)) eqn:Hu; [left; eexists; reflexivity|].
  assert (Hgo : forall referrer,
             referrerOf (dReferralCode d) s = referrer ->
             exists res,
               (let (s1, r) :=
                  bind (transaction
                    (bind (create userTable
                             (fun id => User.mk id (dEmail d) "PARTICIPANT"))
                       (fun user =>
                        bind (create participantTable
                                (fun id =>
                                   Participant.mk id (User.id user) (dTier d)
                                     (if Tier.eqb (dTier d) Tier.FREE
                                      then ParticipantStatus.APPROVED
                                      else ParticipantStatus.PENDING)
                                     (dReferralCode d)))
                          (fun participant =>
                           bind (recordReferral d referrer)
                             (fun _ =>
                              bind (create auditLogTable
                                      (fun id =>
                                         AuditLog.mk id (Some (User.id user))
                                           "PARTICIPANT_REGISTER" "PARTICIPANT"
                                           (Participant.id participant)))
                                (fun _ => ret (user, participant)))))))
                    (fun result =>
                       let (user, participant) := result in
                       ret (mkResponse 201
                              (RegistrationSuccessful
                                 (Participant.id participant)
                                 (User.email user) (Participant.tier participant)
                                 (Participant.status participant)
                                 (negb (Tier.eqb (Participant.tier participant)
                                                 Tier.FREE))))) s in
                match r with
                | Ok a => (s1, Ok a)
                | Throw e => rethrowZod e s1
                end)
               = (registeredStore d referrer s, Ok res)).
  { intros referrer Href.
    unfold recordReferral, bind, transaction, create, update, ret. cbn.
    destruct referrer as [p|]; cbn; [|eexists; reflexivity].
    assert (Hp : find (approvedWithCode
                         (match dReferralCode d with Some c => c | None => "" end))
                      (promoters s) = Some p).
    { unfold referrerOf in Href. destruct (dReferralCode d) as [c|];
        [|discriminate]. destruct (truthy c); [exact Href|discriminate]. }
    destruct (find (fun r => Nat.eqb (Promoter.id r) (Promoter.id p))
                   (promoters s)) eqn:Hid; cbn;
      [|exfalso; exact (find_some_hasId promoterTable _ _ _ Hp Hid)].
    eexists; reflexivity. }
  unfold bind at 1. rewrite lookupReferrer_eq.
  destruct (referrerOf (dReferralCode d) s) as [p|] eqn:Href.
  - destruct (Hgo (Some p) eq_refl) as [res Hres].
    right. exists d, res. rewrite Href.
    repeat split; try assumption; try discriminate.
  - destruct (truthyOpt (dReferralCode d)) eqn:Htr;
      [left; eexists; reflexivity|].
    destruct (Hgo None eq_refl) as [res Hres].
    right. exists d, res. rewrite Href, Htr.
    repeat split; try assumption; try discriminate.
Qed.

(** The loop returns the first candidate, in the order drawn, that no
    promoter holds, and does not write to the store. *)
Lemma generateReferralCode_eq draws s :
  generateReferralCode draws s
  = (s, Ok (find (codeIsFree s) (map candidateCode draws))).
Proof.
  induction draws as [|r rest IH]; [reflexivity|].
  cbn [generateReferralCode map find].
  unfold bind, findFirst, codeIsFree at 1. cbn [rows promoterTable].
  destruct (find (hasCode (candidateCode r)) (promoters s));
    [exact IH | reflexivity].
Qed.

Lemma promoterRegistrationSchema_pure isEmail b s :
  promoterRegistrationSchema isEmail b s = (s, Ok (pEmail b))
  \/ (exists m,
        promoterRegistrationSchema isEmail b s = (s, Throw (ZodError m))).
Proof.
  unfold promoterRegistrationSchema.
  repeat case_if; first [left; reflexivity | right; eexists; reflexivity].
Qed.

(** A promoter application throws and leaves the store alone, or is still
    looking for a code, or goes through all its steps with the code the
    loop returned. *)
Lemma registerPromoter_outcome isEmail dRef dRev draws b s :
  (exists e, registerPromoter isEmail dRef dRev draws b s = (s, Throw e))
  \/ (find (codeIsFree s) (map candidateCode draws) = None
      /\ registerPromoter isEmail dRef dRev draws b s = (s, Ok None))
  \/ (exists code res,
        find (codeIsFree s) (map candidateCode draws) = Some code
        /\ registerPromoter isEmail dRef dRev draws b s
           = (appliedStore (pEmail b) code dRef dRev s, Ok (Some res))).
Proof.
  pattern (registerPromoter isEmail dRef dRev draws b s).
  match goal with |- ?P _ => set (Q := P) end.
  unfold registerPromoter, tryCatch, bind at 1.
  destruct (promoterRegistrationSchema_pure isEmail b s) as [Hd|(m & Hm)].
  2:{ rewrite Hm. left. cbn. eexists; reflexivity. }
  rewrite Hd.
  unfold bind at 1, findFirst at 1. cbn [rows userTable].
  destruct (find _ (users s)) eqn:Hu; [left; eexists; reflexivity|].
  unfold bind at 1. rewrite generateReferralCode_eq.
  destruct (find (codeIsFree s) (map candidateCode draws)) as [code|] eqn:Hc.
  - right. right. exists code. eexists.
    split; [first [exact Hc | reflexivity] | reflexivity].
  - right. left. split; [first [exact Hc | reflexivity] | reflexivity].
Qed.

(* ===================================================================== *)
(** ** Webhook authentication and the failed-payment handler *)
(* ===================================================================== *)

(** C5. A webhook request whose signature does not verify is answered with
    status 400 and the store is left exactly as it was: no payment,
    participant, referral, promoter or audit-log row is written. *)
Theorem bad_signature_rejected
  (constructEvent : string -> string -> string -> Event + string)
  (endpointSecret : string) (now : nat) (req : WebhookRequest) (s : Store)
  (message : string) :
  constructEvent (rawBody req) (stripeSignature req) endpointSecret
  = inr message ->
  stripeWebhook constructEvent endpointSecret now req s
  = (s, mkResponse 400 (Send ("Webhook Error: " ++ message))).
Proof.
  intros Hsig. unfold stripeWebhook. now rewrite Hsig.
Qed.

Lemma bad_signature_rejected_witness :
  scenarioConstructEvent scenarioEvents "evt_completed" "v1=forged"
                         scenarioSecret
  = inr "No signatures found matching the expected signature for payload."
  /\ scenarioWebhook 10 (mkWebhookRequest "evt_completed" "v1=forged") store2
     = (store2,
        mkResponse 400
          (Send ("Webhook Error: " ++
                 "No signatures found matching the expected signature for payload."))).
Proof.
  split; [reflexivity|].
  apply (bad_signature_rejected (scenarioConstructEvent scenarioEvents)
           scenarioSecret 10 (mkWebhookRequest "evt_completed" "v1=forged")
           store2).
  reflexivity.
Defined.

Lemma find_none_of_all {A} (f : A -> bool) (l : list A) :
  (forall x, In x l -> f x = false) -> find f l = None.
Proof.
  induction l as [|x l IH]; intros H; [reflexivity|]. simpl.
  rewrite (H x (or_introl eq_refl)). apply IH. intros y Hy. apply H. now right.
Qed.

(** C7. A payment-failed event whose payment-intent id matches no payment row
    writes nothing, and the processor still acknowledges it with 200. *)
Theorem payment_failed_unknown_intent_noop
  (constructEvent : string -> string -> string -> Event + string)
  (endpointSecret : string) (now : nat) (req : WebhookRequest)
  (paymentIntent : PaymentIntent.t) (s : Store) :
  constructEvent (rawBody req) (stripeSignature req) endpointSecret
  = inl (PaymentIntentPaymentFailed paymentIntent) ->
  (forall p, In p (payments s) ->
             Payment.stripePaymentIntentId p <> PaymentIntent.id paymentIntent) ->
  handlePaymentIntentFailed paymentIntent s = (s, Ok tt)
  /\ stripeWebhook constructEvent endpointSecret now req s
     = (s, mkResponse 200 Received).
Proof.
  intros Hevent Hnone.
  assert (Hfind : find (byIntent paymentIntent) (payments s) = None).
  { apply find_none_of_all. intros p Hp. unfold byIntent.
    apply String.eqb_neq. now apply Hnone. }
  assert (Hrun : handlePaymentIntentFailed paymentIntent s = (s, Ok tt)).
  { rewrite handlePaymentIntentFailed_eq. now rewrite Hfind. }
  split; [exact Hrun|].
  unfold stripeWebhook. rewrite Hevent. cbn [dispatch]. now rewrite Hrun.
Qed.

Lemma payment_failed_unknown_intent_noop_witness :
  handlePaymentIntentFailed strayFailure store3 = (store3, Ok tt)
  /\ scenarioWebhook 11 (mkWebhookRequest "evt_stray" "v1=whsec_test") store3
     = (store3, mkResponse 200 Received).
Proof.
  apply (payment_failed_unknown_intent_noop
           (scenarioConstructEvent scenarioEvents) scenarioSecret 11
           (mkWebhookRequest "evt_stray" "v1=whsec_test")).
  - reflexivity.
  - intros p Hp. simpl in Hp. destruct Hp as [<-|[]]. discriminate.
Defined.

(* ===================================================================== *)
(** ** The checkout-completed transaction *)
(* ===================================================================== *)

(** Without the transaction the callback leaves its first write behind when
    a later step throws: here the participant of the metadata is missing. *)
Example callback_alone_is_not_atomic :
  let session := Session.mk "cs_1" "pi_1" "ann@example.com"
                            (Metadata.mk 99 2 "PREMIUM" "") in
  map Payment.status (payments (fst (checkoutSessionCompletedTx 10 session store2)))
  = [PaymentStatus.COMPLETED]
  /\ snd (checkoutSessionCompletedTx 10 session store2)
     = Throw (PrismaError "Record to update not found.")
  /\ handleCheckoutSessionCompleted 10 session store2
     = (store2, Throw (PrismaError "Record to update not found.")).
Proof. repeat split. Qed.

Lemma find_firstWith {A} (f : A -> bool) (P : A -> Prop) (l : list A) :
  (forall x, f x = true <-> P x) ->
  match find f l with
  | Some x => firstWith P l x
  | None => forall x, In x l -> ~ P x
  end.
Proof.
  intros Hf. induction l as [|y l IH]; cbn [find].
  - intros x [].
  - destruct (f y) eqn:Hy.
    + exists [], l. split; [reflexivity|]. split; [now apply Hf|].
      intros z [].
    + assert (Hny : ~ P y) by (intros HP; apply Hf in HP; congruence).
      destruct (find f l) as [x|].
      * destruct IH as (pre & post & -> & Hx & Hpre).
        exists (y :: pre), post. split; [reflexivity|]. split; [exact Hx|].
        intros z [<-|Hz]; [exact Hny | now apply Hpre].
      * intros x [<-|Hx]; [exact Hny | now apply IH].
Qed.

Lemma firstWith_find {A} (f : A -> bool) (P : A -> Prop) (l : list A) x :
  (forall x, f x = true <-> P x) ->
  firstWith P l x -> find f l = Some x.
Proof.
  intros Hf (pre & post & -> & Hx & Hpre).
  induction pre as [|y pre IH]; cbn [app find].
  - apply Hf in Hx. now rewrite Hx.
  - destruct (f y) eqn:E.
    + apply Hf in E. now destruct (Hpre y (or_introl eq_refl)).
    + apply IH. intros z Hz. apply Hpre. now right.
Qed.

Lemma firstWith_in {A} (P : A -> Prop) (l : list A) x :
  firstWith P l x -> In x l /\ P x.
Proof.
  intros (pre & post & -> & Hx & _). split; [|exact Hx].
  apply in_or_app. right. now left.
Qed.

Lemma referralMatches_spec session r :
  referralMatches (Session.customer_email session)
                  (Metadata.referralCode (Session.metadata session)) r = true
  <-> unconvertedFor session r.
Proof.
  unfold referralMatches, unconvertedFor.
  rewrite !andb_true_iff, negb_true_iff, !String.eqb_eq. tauto.
Qed.

Lemma truthy_spec code : truthy code = true <-> code <> "".
Proof.
  unfold truthy. rewrite negb_true_iff. apply String.eqb_neq.
Qed.

(** The referral the handler looks up is the one the claim speaks of. *)
Lemma matchingReferral_spec session s :
  referralToConvert session s (matchingReferral session s).
Proof.
  unfold matchingReferral.
  destruct (truthy _) eqn:Hcode.
  - pose proof (find_firstWith _ _ (referrals s) (referralMatches_spec session))
      as Hfind.
    destruct (find _ (referrals s)) as [r|]; cbn.
    + split; [now apply truthy_spec | exact Hfind].
    + right. exact Hfind.
  - cbn. left. destruct (String.eqb_spec
                           (Metadata.referralCode (Session.metadata session)) "")
      as [He|Hne]; [exact He|].
    apply truthy_spec in Hne. congruence.
Qed.

Lemma referralToConvert_matching session s r :
  referralToConvert session s (Some r) -> matchingReferral session s = Some r.
Proof.
  intros [Hcode Hfirst]. unfold matchingReferral.
  apply truthy_spec in Hcode. rewrite Hcode.
  exact (firstWith_find _ _ _ _ (referralMatches_spec session) Hfirst).
Qed.

Lemma find_hasId_iff {R} (T : Table R) id l :
  find (hasId T id) l <> None <-> exists r, In r l /\ rowId T r = id.
Proof.
  split.
  - destruct (find (hasId T id) l) as [r|] eqn:Hf; [|congruence].
    intros _. apply find_some in Hf. destruct Hf as [Hin Hid].
    exists r. split; [exact Hin | now apply Nat.eqb_eq].
  - intros (r & Hin & Hid) Hnone.
    pose proof (find_none _ _ Hnone r Hin) as Hno.
    unfold hasId in Hno. rewrite Hid, Nat.eqb_refl in Hno. discriminate.
Qed.

(** C4. The five steps of checkout-completed handling run in one
    transaction, and the handler has two outcomes only. It returns exactly
    when a payment carries the session id, the tier of the metadata is a
    tier, the participant of the metadata exists and the promoter of the
    referral to convert (if there is one) exists; then all five effects are
    there: every payment row with the id of the first payment of the
    session is COMPLETED with the payment intent of the event, the
    participant of the metadata is ACTIVE with the tier, the first
    unconverted referral recorded for the customer under the code of the
    metadata (if the code is not empty and there is one) is converted at
    the time of the event by that payment, its promoter has one referral
    and the commission more, and one PAYMENT_COMPLETED audit log entry is
    appended. Otherwise it throws and the store, and with it the payment,
    is the one it started from. *)
Theorem checkout_completed_all_or_nothing
  (now : nat) (session : Session.t) (s : Store) :
  let md := Session.metadata session in
  let run := handleCheckoutSessionCompleted now session s in
  (snd run = Ok tt
   <-> (exists payment,
           In payment (payments s)
           /\ Payment.stripeSessionId payment = Session.id session)
       /\ (exists tier, Tier.parse (Metadata.tier md) = Some tier)
       /\ (exists participant,
              In participant (participants s)
              /\ Participant.id participant = Metadata.participantId md)
       /\ (forall r, referralToConvert session s (Some r) ->
                     exists promoter,
                       In promoter (promoters s)
                       /\ Promoter.id promoter = Referral.promoterId r))
  /\ match snd run with
     | Throw _ => fst run = s
     | Ok _ =>
         exists payment tier referral,
           firstWith (fun p => Payment.stripeSessionId p = Session.id session)
                     (payments s) payment
           /\ Tier.parse (Metadata.tier md) = Some tier
           /\ referralToConvert session s referral
           /\ payments (fst run)
              = map (fun p =>
                       if Nat.eqb (Payment.id p) (Payment.id payment)
                       then Payment.mk (Payment.id p) (Payment.userId p)
                              (Payment.participantId p)
                              (Session.payment_intent session)
                              (Payment.stripeSessionId p) (Payment.amount p)
                              (Payment.currency p) (Payment.tier p)
                              PaymentStatus.COMPLETED
                              (Payment.failureReason p)
                              (Payment.referralCode p)
                       else p)
                    (payments s)
           /\ participants (fst run)
              = map (fun p =>
                       if Nat.eqb (Participant.id p) (Metadata.participantId md)
                       then Participant.mk (Participant.id p)
                              (Participant.userId p) tier
                              ParticipantStatus.ACTIVE
                              (Participant.referredBy p)
                       else p)
                    (participants s)
           /\ referrals (fst run)
              = match referral with
                | Some r =>
                    map (fun x =>
                           if Nat.eqb (Referral.id x) (Referral.id r)
                           then Referral.mk (Referral.id x)
                                  (Referral.promoterId x)
                                  (Referral.participantEmail x)
                                  (Referral.referralCode x) (Referral.tier x)
                                  (Referral.commission x) true (Some now)
                                  (Some (Payment.id payment))
                           else x)
                        (referrals s)
                | None => referrals s
                end
           /\ promoters (fst run)
              = match referral with
                | Some r =>
                    map (fun p =>
                           if Nat.eqb (Promoter.id p) (Referral.promoterId r)
                           then Promoter.mk (Promoter.id p) (Promoter.userId p)
                                  (Promoter.status p) (Promoter.referralCode p)
                                  (Promoter.totalReferrals p + 1)
                                  (Promoter.totalRevenue p
                                   + Referral.commission r)
                           else p)
                        (promoters s)
                | None => promoters s
                end
           /\ auditLogs (fst run)
              = (auditLogs s ++
                 [AuditLog.mk (nextId s) (Some (Metadata.userId md))
                    "PAYMENT_COMPLETED" "PAYMENT" (Payment.id payment)])%list
           /\ users (fst run) = users s
           /\ stripeSessions (fst run) = stripeSessions s
     end.
Proof.
  cbv zeta.
  assert (Hsess : forall p,
             bySession session p = true
             <-> Payment.stripeSessionId p = Session.id session)
    by (intros p; apply String.eqb_eq).
  split.
  - split.
    + intros Hok.
      destruct (handleCheckoutSessionCompleted_outcome now session s)
        as [e | payment tier Hpay Htier Hpt Hpr]; [discriminate|].
      split; [|split; [|split]].
      * apply find_some in Hpay. exists payment.
        split; [apply Hpay | now apply Hsess].
      * now exists tier.
      * apply (find_hasId_iff participantTable) in Hpt. exact Hpt.
      * intros r Hr. apply referralToConvert_matching in Hr.
        apply (find_hasId_iff promoterTable). now apply Hpr.
    + intros ((payment & Hin & Hsid) & (tier & Htier) & Hpt & Hpr).
      destruct (find (bySession session) (payments s)) as [found|] eqn:Hpay.
      2:{ pose proof (find_none _ _ Hpay payment Hin) as Hno.
          apply Hsess in Hsid. congruence. }
      rewrite (handleCheckoutSessionCompleted_commits now session s found tier
                 Hpay Htier); [reflexivity | |].
      * now apply (find_hasId_iff participantTable).
      * intros r Hr. apply (find_hasId_iff promoterTable). apply Hpr.
        rewrite <- Hr. apply matchingReferral_spec.
  - destruct (handleCheckoutSessionCompleted_outcome now session s)
      as [e | payment tier Hpay Htier Hpt Hpr]; cbn [fst snd]; [reflexivity|].
    exists payment, tier, (matchingReferral session s).
    split.
    { pose proof (find_firstWith _ _ (payments s) Hsess) as H.
      now rewrite Hpay in H. }
    split; [exact Htier|]. split; [apply matchingReferral_spec|].
    destruct (matchingReferral session s); repeat split.
Qed.

Lemma checkout_completed_all_or_nothing_witness :
  snd (handleCheckoutSessionCompleted 10 annSession store2) = Ok tt.
Proof.
  apply (proj1 (checkout_completed_all_or_nothing 10 annSession store2)).
  split; [|split; [|split]].
  - eexists. split; [left; reflexivity | reflexivity].
  - eexists. reflexivity.
  - eexists. split; [left; reflexivity | reflexivity].
  - intros r [_ Hr]. apply firstWith_in in Hr. destruct Hr as [Hin _].
    simpl in Hin. destruct Hin as [<-|[]].
    eexists. split; [left; reflexivity | reflexivity].
Defined.

(** C10. A checkout session created for a participant without a referrer
    carries the empty string as [referralCode] in its metadata, and a
    checkout-completed event whose metadata [referralCode] is empty leaves
    the referral and promoter tables (and the users and the provider's
    sessions) as they were: only payment, participant and audit log can
    change. *)
Theorem no_referrer_skips_referral_branch
  (isUrl : string -> bool) (reply : option (string * string))
  (req : CreateSessionRequest) (s s1 : Store) (res : Response)
  (participant : Participant.t)
  (now : nat) (session : Session.t) (t : Store) :
  find (hasId participantTable (csParticipantId (csBody req)))
       (participants s) = Some participant ->
  truthyOpt (Participant.referredBy participant) = false ->
  createSession isUrl reply req s = (s1, Ok res) ->
  Metadata.referralCode (Session.metadata session) = "" ->
  (exists cs,
      stripeSessions s1 = (stripeSessions s ++ [cs])%list
      /\ Metadata.referralCode (CheckoutSession.metadata cs) = "")
  /\ (let t' := fst (handleCheckoutSessionCompleted now session t) in
      referrals t' = referrals t /\ promoters t' = promoters t
      /\ users t' = users t /\ stripeSessions t' = stripeSessions t).
Proof.
  intros Hpt Hnone Hrun Hempty. split.
  - destruct (createSession_outcome isUrl reply req s)
      as [(e & He)|(d & pt & user & sid & url & res' & Hd & Hpt' & _ & _ & _ & Hok)].
    + rewrite He in Hrun. discriminate.
    + rewrite Hok in Hrun. injection Hrun as <- _.
      destruct (createPaymentSessionSchema_pure isUrl (csBody req) s)
        as [(d' & Hd' & _ & Hid & _)|(m & Hm)]; [|congruence].
      assert (d' = d) by congruence. subst d'.
      rewrite Hid, Hpt in Hpt'. injection Hpt' as <-.
      eexists. split; [reflexivity|]. cbn.
      unfold truthyOpt in Hnone. unfold orEmpty.
      destruct (Participant.referredBy participant) as [c|]; [|reflexivity].
      now rewrite Hnone.
  - destruct (handleCheckoutSessionCompleted_outcome now session t)
      as [e | payment tier Hpay Htier Hp Hpr]; cbn.
    + repeat split.
    + unfold matchingReferral. rewrite Hempty. cbn. repeat split.
Qed.

Lemma no_referrer_skips_referral_branch_witness :
  (exists cs,
      stripeSessions
        (fst (createSession scenarioIsUrl annReply caraCheckout storeCara))
      = (stripeSessions storeCara ++ [cs])%list
      /\ Metadata.referralCode (CheckoutSession.metadata cs) = "")
  /\ (let t' := fst (handleCheckoutSessionCompleted 10 plainSession store2) in
      referrals t' = referrals store2 /\ promoters t' = promoters store2
      /\ users t' = users store2
      /\ stripeSessions t' = stripeSessions store2).
Proof.
  eapply (no_referrer_skips_referral_branch scenarioIsUrl annReply caraCheckout
            storeCara _ _
            (Participant.mk 3 2 Tier.VIP ParticipantStatus.PENDING None)
            10 plainSession store2).
  - reflexivity.
  - reflexivity.
  - vm_compute. reflexivity.
  - reflexivity.
Defined.

(* ===================================================================== *)
(** ** Checkout session creation *)
(* ===================================================================== *)





(* ===================================================================== *)
(** ** Referral records at registration *)
(* ===================================================================== *)

(** Registering for the FREE tier with a valid code creates the referral
    already converted. *)
Lemma free_referral_created_converted :
  referrals store0 = []
  /\ snd (registerParticipant scenarioIsEmail freeRegistration store0)
     = Ok (mkResponse 201
             (RegistrationSuccessful 3 "bo@example.com" Tier.FREE
                ParticipantStatus.APPROVED false))
  /\ referrals (fst (registerParticipant scenarioIsEmail freeRegistration store0))
     = [Referral.mk 4 1 "bo@example.com" "REFABC123" Tier.FREE 0 true None None].
Proof. repeat split. Qed.

Lemma registerParticipant_referrals isEmail b s :
  exists l,
    referrals (fst (registerParticipant isEmail b s))
    = (referrals s ++ l)%list.
Proof.
  destruct (registerParticipant_outcome isEmail b s)
    as [(e & He)|(d & res & _ & _ & _ & Hok)].
  - rewrite He. exists []. cbn. now rewrite app_nil_r.
  - rewrite Hok. cbn. destruct (referrerOf (dReferralCode d) s).
    + eexists; reflexivity.
    + exists []. now rewrite app_nil_r.
Qed.

Lemma createSession_referrals isUrl reply req s :
  referrals (fst (createSession isUrl reply req s)) = referrals s
  /\ promoters (fst (createSession isUrl reply req s)) = promoters s.
Proof.
  destruct (createSession_outcome isUrl reply req s)
    as [(e & He)|(d & pt & user & sid & url & res & _ & _ & _ & _ & _ & Hok)].
  - rewrite He. split; reflexivity.
  - rewrite Hok. split; reflexivity.
Qed.

Lemma handlePaymentIntentFailed_referrals paymentIntent s :
  referrals (fst (handlePaymentIntentFailed paymentIntent s)) = referrals s
  /\ promoters (fst (handlePaymentIntentFailed paymentIntent s)) = promoters s.
Proof.
  rewrite handlePaymentIntentFailed_eq.
  destruct (find (byIntent paymentIntent) (payments s)); split; reflexivity.
Qed.

(* ===================================================================== *)
(** ** Referral code allocation *)
(* ===================================================================== *)

Lemma codeIsFree_spec s code :
  codeIsFree s code = true ->
  forall p, In p (promoters s) -> Promoter.referralCode p <> code.
Proof.
  unfold codeIsFree. intros H p Hp.
  destruct (find (hasCode code) (promoters s)) eqn:Hf; [discriminate|].
  apply String.eqb_neq. exact (find_none _ _ Hf p Hp).
Qed.

Lemma find_first_after {A} (f : A -> bool) (pre post : list A) x :
  (forall y, In y pre -> f y = false) -> f x = true ->
  find f (pre ++ x :: post) = Some x.
Proof.
  intros Hpre Hx. induction pre as [|y pre IH]; simpl.
  - now rewrite Hx.
  - rewrite (Hpre y (or_introl eq_refl)). apply IH.
    intros z Hz. apply Hpre. now right.
Qed.

(** C9. The code [generateReferralCode] returns is held by no promoter of
    the store it was checked against, and the store is not written; the loop
    goes on past every draw whose candidate some promoter holds and returns
    at the first draw whose candidate is free; and the promoter row a
    successful application adds carries a code that no promoter already
    there holds. *)
Theorem referral_code_is_unused
  (isEmail : string -> bool) (dRef dRev : Z) (draws : list string)
  (b : PromoterBody) (s : Store) :
  (forall code s',
      generateReferralCode draws s = (s', Ok (Some code)) ->
      s' = s
      /\ forall p, In p (promoters s) -> Promoter.referralCode p <> code)
  /\ (forall pre r post,
        draws = (pre ++ r :: post)%list ->
        (forall x, In x pre -> codeIsFree s (candidateCode x) = false) ->
        codeIsFree s (candidateCode r) = true ->
        generateReferralCode draws s = (s, Ok (Some (candidateCode r))))
  /\ (forall s' res,
        registerPromoter isEmail dRef dRev draws b s = (s', Ok (Some res)) ->
        exists code,
          (forall p, In p (promoters s) -> Promoter.referralCode p <> code)
          /\ promoters s'
             = (promoters s ++
                [Promoter.mk (S (nextId s)) (nextId s) PromoterStatus.PENDING
                             code dRef dRev])%list).
Proof.
  split; [|split].
  - intros code s' Hrun. rewrite generateReferralCode_eq in Hrun.
    injection Hrun as <- Hc. split; [reflexivity|].
    destruct (find_some _ _ Hc) as [_ Hcode].
    exact (codeIsFree_spec _ _ Hcode).
  - intros pre r post -> Hpre Hr. rewrite generateReferralCode_eq.
    rewrite map_app. cbn [map].
    rewrite find_first_after; [reflexivity| |exact Hr].
    intros y Hy. apply in_map_iff in Hy. destruct Hy as (x & <- & Hx).
    now apply Hpre.
  - intros s' res Hrun.
    destruct (registerPromoter_outcome isEmail dRef dRev draws b s)
      as [(e & He)|[(Hn & Hno)|(code & res' & Hc & Hok)]]; try congruence.
    rewrite Hok in Hrun. injection Hrun as <- _.
    exists code. split; [|reflexivity].
    destruct (find_some _ _ Hc) as [_ Hcode].
    exact (codeIsFree_spec _ _ Hcode).
Qed.

Lemma referral_code_is_unused_witness :
  generateReferralCode scenarioDraws store0
  = (store0, Ok (Some "REFK3J9ZQ"))
  /\ (forall p, In p (promoters store0) ->
                Promoter.referralCode p <> "REFK3J9ZQ")
  /\ exists code,
      (forall p, In p (promoters store0) -> Promoter.referralCode p <> code)
      /\ promoters (fst (registerPromoter scenarioIsEmail 0 0 scenarioDraws
                           quinnApplication store0))
         = (promoters store0 ++
            [Promoter.mk 3 2 PromoterStatus.PENDING code 0 0])%list.
Proof.
  destruct (referral_code_is_unused scenarioIsEmail 0 0 scenarioDraws
              quinnApplication store0) as (Hfresh & Hfirst & Hreg).
  assert (Hrun : generateReferralCode scenarioDraws store0
                 = (store0, Ok (Some "REFK3J9ZQ"))).
  { apply (Hfirst ["0.abc123xyz"] "0.k3j9zq81" []).
    - reflexivity.
    - intros x [<-|[]]. reflexivity.
    - reflexivity. }
  split; [exact Hrun|]. split.
  - exact (proj2 (Hfresh _ _ Hrun)).
  - apply (Hreg _ (mkResponse 201
                     (ApplicationSubmitted 3 "quinn@example.com" "REFK3J9ZQ"))).
    reflexivity.
Defined.

(* ===================================================================== *)
(** ** Payment status under webhook events *)
(* ===================================================================== *)

(** A payment-failed event for the payment intent of a COMPLETED payment
    sets it to FAILED, and a checkout-completed event for the session of a
    FAILED payment sets it to COMPLETED. *)
Lemma terminal_status_is_overwritten :
  map Payment.status (payments store3) = [PaymentStatus.COMPLETED]
  /\ scenarioWebhook 11 (mkWebhookRequest "evt_failed" "v1=whsec_test") store3
     = (store4, mkResponse 200 Received)
  /\ map Payment.status (payments store4) = [PaymentStatus.FAILED]
  /\ map Payment.status
       (payments (fst (scenarioWebhook 12
                         (mkWebhookRequest "evt_completed" "v1=whsec_test")
                         store4)))
     = [PaymentStatus.COMPLETED].
Proof. repeat split. Qed.

Lemma Forall2_map_r {A} (R : A -> A -> Prop) (f : A -> A) (l : list A) :
  (forall x, R x (f x)) -> Forall2 R l (map f l).
Proof. intros H. induction l; simpl; constructor; auto. Qed.

Lemma Forall2_same {A} (R : A -> A -> Prop) (l : list A) :
  (forall x, R x x) -> Forall2 R l l.
Proof. intros H. induction l; constructor; auto. Qed.

Lemma stripeWebhook_store constructEvent endpointSecret now req s :
  fst (stripeWebhook constructEvent endpointSecret now req s)
  = match constructEvent (rawBody req) (stripeSignature req) endpointSecret with
    | inl event => fst (dispatch now event s)
    | inr _ => s
    end.
Proof.
  unfold stripeWebhook.
  destruct (constructEvent _ _ _) as [event|]; [|reflexivity].
  destruct (dispatch now event s) as [s1 [u|e]]; reflexivity.
Qed.

Lemma updateRows_in {R} (T : Table R) (data : R -> R) id l x' :
  In x' (updateRows T id data l) ->
  exists x, In x l
            /\ x' = (if Nat.eqb (rowId T x) id then data x else x).
Proof.
  unfold updateRows. intros H. apply in_map_iff in H.
  destruct H as (x & <- & Hx). eauto.
Qed.

(** The event at hand is not the one the statement is about. *)
Ltac other_event := intros; cbn [snd] in *; discriminate.

(** C1, as the code has it. A webhook request keeps every payment row and
    its id, and changes a status only to COMPLETED, by a checkout-completed
    event, or to FAILED, by a payment-failed event: never to PENDING. The
    handlers do not look at the status the payment has: once a
    checkout-completed event is processed, the payment found by its session
    id is COMPLETED, and once a payment-failed event is processed, the
    payment found by its payment-intent id is FAILED, whatever the status
    was before. *)
Theorem webhook_status_moves
  (constructEvent : string -> string -> string -> Event + string)
  (endpointSecret : string) (now : nat) (req : WebhookRequest) (s : Store) :
  let s' := fst (stripeWebhook constructEvent endpointSecret now req s) in
  let event := constructEvent (rawBody req) (stripeSignature req)
                              endpointSecret in
  Forall2
    (fun p p' =>
       Payment.id p' = Payment.id p
       /\ (Payment.status p' = Payment.status p
           \/ (Payment.status p' = PaymentStatus.COMPLETED
               /\ exists session, event = inl (CheckoutSessionCompleted session))
           \/ (Payment.status p' = PaymentStatus.FAILED
               /\ exists paymentIntent,
                   event = inl (PaymentIntentPaymentFailed paymentIntent))))
    (payments s) (payments s')
  /\ (forall session payment p',
        event = inl (CheckoutSessionCompleted session) ->
        snd (handleCheckoutSessionCompleted now session s) = Ok tt ->
        find (bySession session) (payments s) = Some payment ->
        In p' (payments s') -> Payment.id p' = Payment.id payment ->
        Payment.status p' = PaymentStatus.COMPLETED)
  /\ (forall paymentIntent payment p',
        event = inl (PaymentIntentPaymentFailed paymentIntent) ->
        find (byIntent paymentIntent) (payments s) = Some payment ->
        In p' (payments s') -> Payment.id p' = Payment.id payment ->
        Payment.status p' = PaymentStatus.FAILED).
Proof.
  cbv zeta. rewrite stripeWebhook_store.
  destruct (constructEvent _ _ _) as [event|message].
  2:{ split; [apply Forall2_same; auto|]. split; other_event. }
  destruct event as [session|pi|pi|inv|ty]; cbn [dispatch].
  - pose proof (handleCheckoutSessionCompleted_outcome now session s) as Hout.
    destruct (handleCheckoutSessionCompleted now session s) as [s1 result]
      eqn:Hrun.
    inversion Hout as [e | payment tier Hpay Htier Hpt Hpr]; subst;
      cbn [fst snd].
    + split; [apply Forall2_same; auto|]. split; [|other_event].
      intros session' payment p' [= <-] Hok. rewrite Hrun in Hok.
      discriminate.
    + split; [|split; [|other_event]].
      * cbn. apply Forall2_map_r. intros p.
        case_if; cbn;
          (split; [reflexivity|]);
          [right; left; split; [reflexivity|eexists; reflexivity]
          |left; reflexivity].
      * intros session' payment' p' [= <-] _ Hpay' Hin Hid.
        assert (payment' = payment) by congruence. subst payment'.
        cbn in Hin. apply updateRows_in in Hin.
        destruct Hin as (x & _ & ->). cbn [rowId paymentTable] in *.
        destruct (Nat.eqb (Payment.id x) (Payment.id payment)) eqn:E;
          [reflexivity|].
        apply Nat.eqb_neq in E. congruence.
  - split; [apply Forall2_same; auto|]. split; other_event.
  - rewrite handlePaymentIntentFailed_eq.
    destruct (find (byIntent pi) (payments s)) as [payment|] eqn:Hpay;
      cbn [fst].
    + split; [|split; [other_event|]].
      * cbn. apply Forall2_map_r. intros p.
        case_if; cbn;
          (split; [reflexivity|]);
          [right; right; split; [reflexivity|eexists; reflexivity]
          |left; reflexivity].
      * intros pi' payment' p' [= <-] Hpay' Hin Hid.
        assert (payment' = payment) by congruence. subst payment'.
        cbn in Hin. apply updateRows_in in Hin.
        destruct Hin as (x & _ & ->). cbn [rowId paymentTable] in *.
        destruct (Nat.eqb (Payment.id x) (Payment.id payment)) eqn:E;
          [reflexivity|].
        apply Nat.eqb_neq in E. congruence.
    + split; [apply Forall2_same; auto|].
      split; [other_event|]. intros pi' payment' p' [= <-] Hpay'. congruence.
  - split; [apply Forall2_same; auto|]. split; other_event.
  - split; [apply Forall2_same; auto|]. split; other_event.
Qed.

Lemma webhook_status_moves_witness :
  (forall p', In p' (payments store4) ->
              Payment.id p' = 6 ->
              Payment.status p' = PaymentStatus.FAILED)
  /\ (forall p',
        In p' (payments (fst (scenarioWebhook 12
                                (mkWebhookRequest "evt_completed"
                                                  "v1=whsec_test") store4))) ->
        Payment.id p' = 6 ->
        Payment.status p' = PaymentStatus.COMPLETED).
Proof.
  split.
  - destruct (webhook_status_moves (scenarioConstructEvent scenarioEvents)
                scenarioSecret 11
                (mkWebhookRequest "evt_failed" "v1=whsec_test") store3)
      as (_ & _ & Hfailed).
    intros p' Hin Hid.
    apply (Hfailed annFailure
             (Payment.mk 6 2 3 "pi_1" "cs_1" 99 "usd" Tier.PREMIUM
                         PaymentStatus.COMPLETED None (Some "REFABC123")) p');
      [reflexivity | reflexivity | exact Hin | exact Hid].
  - destruct (webhook_status_moves (scenarioConstructEvent scenarioEvents)
                scenarioSecret 12
                (mkWebhookRequest "evt_completed" "v1=whsec_test") store4)
      as (_ & Hcompleted & _).
    intros p' Hin Hid.
    apply (Hcompleted annSession
             (Payment.mk 6 2 3 "pi_1" "cs_1" 99 "usd" Tier.PREMIUM
                         PaymentStatus.FAILED (Some "Your card was declined.")
                         (Some "REFABC123")) p');
      [reflexivity | reflexivity | reflexivity | exact Hin | exact Hid].
Defined.

(* ===================================================================== *)
(** ** Redelivery of a checkout-completed event *)
(* ===================================================================== *)






(* ===================================================================== *)
(** ** Promoter counters *)
(* ===================================================================== *)


Local Open Scope Z_scope.

Lemma total_app w l l' : total w (l ++ l') = total w l + total w l'.
Proof.
  induction l as [|r l IH]; simpl; [reflexivity|]. rewrite IH. lia.
Qed.

Lemma updateRows_absent {R} (T : Table R) (data : R -> R) id l :
  ~ In id (map (rowId T) l) -> updateRows T id data l = l.
Proof.
  induction l as [|r l IH]; simpl; intros Hno; [reflexivity|].
  destruct (Nat.eqb (rowId T r) id) eqn:E.
  - apply Nat.eqb_eq in E. exfalso. apply Hno. now left.
  - f_equal. apply IH. intros H. apply Hno. now right.
Qed.

Lemma updateRows_ids {R} (T : Table R) (data : R -> R) id l :
  (forall r, rowId T (data r) = rowId T r) ->
  map (rowId T) (updateRows T id data l) = map (rowId T) l.
Proof.
  intros Hid. unfold updateRows. rewrite map_map. apply map_ext.
  intros r. destruct (Nat.eqb (rowId T r) id); [apply Hid | reflexivity].
Qed.

(** Updating by the id of a row of a table with distinct ids replaces that
    row and no other. *)
Lemma total_updateRows w data r l :
  NoDup (map Referral.id l) -> In r l ->
  total w (updateRows referralTable (Referral.id r) data l)
  = total w l - w r + w (data r).
Proof.
  induction l as [|x l IH]; simpl; intros Hnd Hin; [destruct Hin|].
  inversion Hnd as [|? ? Hx Hnd']; subst.
  destruct (Nat.eqb (Referral.id x) (Referral.id r)) eqn:E.
  - apply Nat.eqb_eq in E.
    assert (x = r).
    { destruct Hin as [->|Hin]; [reflexivity|].
      exfalso. apply Hx. rewrite E. now apply in_map. }
    subst x.
    change (map _ l) with (updateRows referralTable (Referral.id r) data l).
    rewrite updateRows_absent by exact Hx. lia.
  - destruct Hin as [->|Hin]; [now rewrite Nat.eqb_refl in E|].
    change (map _ l) with (updateRows referralTable (Referral.id r) data l).
    rewrite IH by assumption. lia.
Qed.

Lemma tracks_refl l p : tracks l l p p.
Proof. unfold tracks. repeat split; lia. Qed.





(** Crediting promoter [x] with [a] referrals and [b] revenue matches a
    move of the referral table that is worth [a] and [b] to [x] and nothing
    to the others. *)
Lemma tracks_credit l l' x a b ps :
  (forall id,
      (referralsRecorded id l' - referralsRecorded id l)
      + (conversions id l' - conversions id l)
      = if Nat.eqb id x then a else 0) ->
  (forall id,
      commissionsConverted id l' - commissionsConverted id l
      = if Nat.eqb id x then b else 0) ->
  Forall2 (tracks l l') ps (updateRows promoterTable x (creditPromoter a b) ps).
Proof.
  intros Hr Hv. apply Forall2_map_r. intros p.
  cbn [rowId promoterTable]. unfold tracks.
  specialize (Hr (Promoter.id p)). specialize (Hv (Promoter.id p)).
  destruct (Nat.eqb (Promoter.id p) x); cbn; repeat split; lia.
Qed.

Lemma referralMatches_unconverted email code r :
  referralMatches email code r = true -> convertedByPayment r = false.
Proof.
  unfold referralMatches, convertedByPayment.
  destruct (Referral.isConverted r); [|reflexivity].
  now rewrite andb_false_r.
Qed.

Lemma step_unchanged s s' :
  promoters s' = promoters s -> referrals s' = referrals s ->
  (nextId s <= nextId s')%nat ->
  referralIdsFresh s -> referralIdsFresh s' /\ countersTrack s s'.
Proof.
  intros Hp Hr Hn (Hnd & Hlt). split.
  - unfold referralIdsFresh. rewrite Hr. split; [exact Hnd|].
    intros r Hin. specialize (Hlt r Hin). lia.
  - exists (promoters s), []. rewrite Hp, Hr, app_nil_r. split; [reflexivity|].
    apply Forall2_same. intros p. apply tracks_refl.
Qed.

Lemma step_registered d referrer s :
  referralIdsFresh s ->
  referralIdsFresh (registeredStore d referrer s)
  /\ countersTrack s (registeredStore d referrer s).
Proof.
  intros Hfresh. destruct referrer as [p|].
  2:{ apply step_unchanged; [reflexivity | reflexivity | cbn; lia | exact Hfresh]. }
  destruct Hfresh as (Hnd & Hlt). split.
  - unfold referralIdsFresh. cbn. split.
    + rewrite map_app. cbn. apply NoDup_app; [exact Hnd | repeat constructor; auto | ].
      intros id Hin [<-|[]]. apply in_map_iff in Hin.
      destruct Hin as (r & Hid & Hin). specialize (Hlt r Hin). lia.
    + intros r Hin. apply in_app_or in Hin. destruct Hin as [Hin|[<-|[]]].
      * specialize (Hlt r Hin). lia.
      * cbn. lia.
  - exists (promoters (registeredStore d (Some p) s)), [].
    rewrite app_nil_r. split; [reflexivity|]. cbn.
    apply tracks_credit; intros id;
      unfold referralsRecorded, conversions, commissionsConverted;
      rewrite !total_app; cbn; unfold attributedTo, convertedByPayment; cbn;
      rewrite andb_false_r, (Nat.eqb_sym (Promoter.id p) id);
      destruct (Nat.eqb id (Promoter.id p)); cbn; lia.
Qed.

Lemma step_applied email code dRef dRev s :
  referralIdsFresh s ->
  referralIdsFresh (appliedStore email code dRef dRev s)
  /\ countersTrack s (appliedStore email code dRef dRev s).
Proof.
  intros (Hnd & Hlt). split.
  - unfold referralIdsFresh. cbn. split; [exact Hnd|].
    intros r Hin. specialize (Hlt r Hin). lia.
  - eexists (promoters s), _. cbn. split; [reflexivity|].
    apply Forall2_same. intros p. apply tracks_refl.
Qed.

Lemma step_committed now session payment tier s :
  referralIdsFresh s ->
  referralIdsFresh
    (committedStore now session payment tier (matchingReferral session s) s)
  /\ countersTrack s
       (committedStore now session payment tier (matchingReferral session s) s).
Proof.
  intros Hfresh.
  destruct (matchingReferral session s) as [r|] eqn:Hmr.
  2:{ apply step_unchanged; [reflexivity | reflexivity | cbn; lia | exact Hfresh]. }
  destruct Hfresh as (Hnd & Hlt).
  unfold matchingReferral in Hmr.
  destruct (truthy _); [|discriminate].
  apply find_some in Hmr. destruct Hmr as [Hin Hmatch].
  apply referralMatches_unconverted in Hmatch.
  split.
  - unfold referralIdsFresh. cbn.
    change Referral.id with (rowId referralTable).
    rewrite updateRows_ids by reflexivity. split; [exact Hnd|].
    intros x' Hx'. apply updateRows_in in Hx'. destruct Hx' as (x & Hx & ->).
    specialize (Hlt x Hx). cbn [rowId referralTable] in *.
    destruct (Nat.eqb _ _); cbn; lia.
  - exists (promoters (committedStore now session payment tier (Some r) s)), [].
    rewrite app_nil_r. split; [reflexivity|]. cbn.
    apply tracks_credit; intros id;
      unfold referralsRecorded, conversions, commissionsConverted;
      rewrite !total_updateRows by assumption;
      unfold attributedTo; cbn; rewrite Hmatch;
      unfold convertedByPayment; cbn;
      rewrite ?andb_false_r, ?andb_true_r, (Nat.eqb_sym (Referral.promoterId r) id);
      destruct (Nat.eqb id (Referral.promoterId r)); cbn; lia.
Qed.

Lemma step_failed paymentIntent payment s :
  referralIdsFresh s ->
  referralIdsFresh (failedStore paymentIntent payment s)
  /\ countersTrack s (failedStore paymentIntent payment s).
Proof.
  apply step_unchanged; [reflexivity | reflexivity | cbn; lia].
Qed.

Lemma step_none s :
  referralIdsFresh s -> referralIdsFresh s /\ countersTrack s s.
Proof. apply step_unchanged; [reflexivity | reflexivity | lia]. Qed.

(** One request keeps the referral ids fresh and moves the counters as
    [tracks] says. *)
Lemma serveRequest_step constructEvent endpointSecret isUrl isEmail dRef dRev
  r s :
  referralIdsFresh s ->
  referralIdsFresh
    (serveRequest constructEvent endpointSecret isUrl isEmail dRef dRev r s)
  /\ countersTrack s
       (serveRequest constructEvent endpointSecret isUrl isEmail dRef dRev r s).
Proof.
  intros Hfresh. destruct r as [b|draws b|reply req|now req]; cbn [serveRequest].
  - destruct (registerParticipant_outcome isEmail b s)
      as [(e & He)|(d & res & _ & _ & _ & Hok)].
    + rewrite He. now apply step_none.
    + rewrite Hok. now apply step_registered.
  - destruct (registerPromoter_outcome isEmail dRef dRev draws b s)
      as [(e & He)|[(_ & Hno)|(code & res & _ & Hok)]].
    + rewrite He. now apply step_none.
    + rewrite Hno. now apply step_none.
    + rewrite Hok. now apply step_applied.
  - destruct (createSession_outcome isUrl reply req s)
      as [(e & He)|(d & pt & user & sid & url & res & _ & _ & _ & _ & _ & Hok)].
    + rewrite He. now apply step_none.
    + rewrite Hok. apply step_unchanged;
        [reflexivity | reflexivity | cbn; lia | exact Hfresh].
  - rewrite stripeWebhook_store.
    destruct (constructEvent _ _ _) as [event|message];
      [|now apply step_none].
    destruct event as [session|pi|pi|inv|ty]; cbn [dispatch];
      try (now apply step_none).
    + destruct (handleCheckoutSessionCompleted_outcome now session s)
        as [e | payment tier Hpay Htier Hpt Hpr].
      * now apply step_none.
      * now apply step_committed.
    + rewrite handlePaymentIntentFailed_eq.
      destruct (find (byIntent pi) (payments s)) as [payment|].
      * now apply step_failed.
      * now apply step_none.
Qed.





(* ===================================================================== *)
(** ** The stores the modelled requests reach *)
(* ===================================================================== *)

Local Close Scope Z_scope.

Lemma updateRows_field {R B} (T : Table R) (g : R -> B) (data : R -> R) id l :
  (forall r, g (data r) = g r) ->
  map g (updateRows T id data l) = map g l.
Proof.
  intros Hg. unfold updateRows. rewrite map_map. apply map_ext.
  intros r. destruct (Nat.eqb (rowId T r) id); [apply Hg | reflexivity].
Qed.

Lemma accountsLinked_bump s s' :
  participants s' = participants s -> payments s' = payments s ->
  nextId s <= nextId s' ->
  accountsLinked s -> accountsLinked s'.
Proof.
  intros Hpt Hpm Hn (Hl & Hu & Hb & Hb').
  unfold accountsLinked, paymentsLinked. rewrite Hpt, Hpm.
  repeat split; auto.
  - intros pt Hin. specialize (Hb pt Hin). lia.
  - intros pm Hin. specialize (Hb' pm Hin). lia.
Qed.

(** Rewriting rows without touching the columns that link them keeps the
    accounts linked. *)
Lemma accountsLinked_rewrite s s' :
  Forall2 (fun p p' => Participant.id p' = Participant.id p
                       /\ Participant.userId p' = Participant.userId p)
          (participants s) (participants s') ->
  Forall2 (fun p p' => Payment.userId p' = Payment.userId p
                       /\ Payment.participantId p' = Payment.participantId p)
          (payments s) (payments s') ->
  nextId s <= nextId s' ->
  accountsLinked s -> accountsLinked s'.
Proof.
  intros Hpt Hpm Hn (Hl & Hu & Hb & Hb').
  assert (Hpt' : forall p', In p' (participants s') ->
             exists p, In p (participants s)
                       /\ Participant.id p' = Participant.id p
                       /\ Participant.userId p' = Participant.userId p).
  { clear -Hpt. induction Hpt as [|p p' l l' Hpp _ IH]; intros q [].
    - subst. exists p. split; [now left | exact Hpp].
    - destruct (IH q H) as (x & Hx & Hq). exists x. split; [now right|exact Hq]. }
  assert (Hpm' : forall p', In p' (payments s') ->
             exists p, In p (payments s)
                       /\ Payment.userId p' = Payment.userId p
                       /\ Payment.participantId p' = Payment.participantId p).
  { clear -Hpm. induction Hpm as [|p p' l l' Hpp _ IH]; intros q [].
    - subst. exists p. split; [now left | exact Hpp].
    - destruct (IH q H) as (x & Hx & Hq). exists x. split; [now right|exact Hq]. }
  unfold accountsLinked, paymentsLinked. repeat split.
  - intros pm pt Hpm1 Hpt1 Heq.
    destruct (Hpm' pm Hpm1) as (pm0 & Hin0 & Hu0 & Hp0).
    destruct (Hpt' pt Hpt1) as (pt0 & Hin1 & Hi1 & Hu1).
    rewrite Hp0, Hi1. apply Hl; congruence.
  - intros p1 p2 H1 H2 Heq.
    destruct (Hpt' p1 H1) as (q1 & Hq1 & Hi1 & Hu1).
    destruct (Hpt' p2 H2) as (q2 & Hq2 & Hi2 & Hu2).
    rewrite Hi1, Hi2. apply Hu; congruence.
  - intros pt Hin. destruct (Hpt' pt Hin) as (q & Hq & _ & Hu1).
    specialize (Hb q Hq). lia.
  - intros pm Hin. destruct (Hpm' pm Hin) as (q & Hq & Hu1 & _).
    specialize (Hb' q Hq). lia.
Qed.

Lemma accountsLinked_registered d referrer s :
  accountsLinked s -> accountsLinked (registeredStore d referrer s).
Proof.
  intros (Hl & Hu & Hb & Hb').
  unfold accountsLinked, paymentsLinked.
  cbn [participants payments registeredStore].
  remember (nextId (registeredStore d referrer s)) as n' eqn:Hn'.
  assert (Hn : nextId s < n') by (subst n'; destruct referrer; cbn; lia).
  clear Hn'. repeat split.
  - intros pm pt Hpm Hpt Heq. apply in_app_or in Hpt.
    destruct Hpt as [Hpt|[<-|[]]]; [now apply Hl|].
    cbn in Heq. specialize (Hb' pm Hpm). lia.
  - intros p1 p2 H1 H2 Heq. apply in_app_or in H1. apply in_app_or in H2.
    destruct H1 as [H1|[<-|[]]], H2 as [H2|[<-|[]]]; cbn in *.
    + now apply Hu.
    + specialize (Hb p1 H1). lia.
    + specialize (Hb p2 H2). lia.
    + reflexivity.
  - intros pt Hpt. apply in_app_or in Hpt.
    destruct Hpt as [Hpt|[<-|[]]]; [specialize (Hb pt Hpt)|cbn]; lia.
  - intros pm Hpm. specialize (Hb' pm Hpm). lia.
Qed.

Lemma accountsLinked_session sessionId url d reqUser participant user s :
  In participant (participants s) ->
  accountsLinked s ->
  accountsLinked (sessionStore sessionId url d reqUser participant user s).
Proof.
  intros Hin (Hl & Hu & Hb & Hb').
  unfold accountsLinked, paymentsLinked. cbn [participants payments sessionStore nextId].
  repeat split.
  - intros pm pt Hpm Hpt Heq. apply in_app_or in Hpm.
    destruct Hpm as [Hpm|[<-|[]]]; [now apply Hl|].
    cbn in *. symmetry. now apply Hu.
  - exact Hu.
  - intros pt Hpt. specialize (Hb pt Hpt). lia.
  - intros pm Hpm. apply in_app_or in Hpm.
    destruct Hpm as [Hpm|[<-|[]]]; [specialize (Hb' pm Hpm)|cbn; specialize (Hb _ Hin)]; lia.
Qed.

Lemma referralPerEmail_keep s s' :
  users s' = users s -> referrals s' = referrals s ->
  referralPerEmail s -> referralPerEmail s'.
Proof. unfold referralPerEmail. now intros -> ->. Qed.

Lemma referralPerEmail_registered d referrer s :
  find (fun u => String.eqb (User.email u) (dEmail d)) (users s) = None ->
  referralPerEmail s -> referralPerEmail (registeredStore d referrer s).
Proof.
  intros Hnew (Hnd & Hu). unfold referralPerEmail.
  cbn [users referrals registeredStore].
  assert (Hold : forall r, In r (referrals s) ->
             exists u, In u (users s ++ [User.mk (nextId s) (dEmail d) "PARTICIPANT"])
                       /\ User.email u = Referral.participantEmail r).
  { intros r Hr. destruct (Hu r Hr) as (u & Hin & He).
    exists u. split; [apply in_or_app; now left | exact He]. }
  destruct referrer as [p|]; [|split; assumption].
  split.
  - rewrite map_app. cbn. apply NoDup_app; [exact Hnd | repeat constructor; auto|].
    intros e Hin [<-|[]]. apply in_map_iff in Hin.
    destruct Hin as (r & He & Hr). destruct (Hu r Hr) as (u & Hin & Hue).
    pose proof (find_none _ _ Hnew u Hin) as Hno. cbn in Hno.
    apply String.eqb_neq in Hno. congruence.
  - intros r Hr. apply in_app_or in Hr. destruct Hr as [Hr|[<-|[]]].
    + now apply Hold.
    + eexists. split; [apply in_or_app; right; now left | reflexivity].
Qed.

Lemma referralPerEmail_committed now session payment tier mr s :
  referralPerEmail s ->
  referralPerEmail (committedStore now session payment tier mr s).
Proof.
  intros (Hnd & Hu). destruct mr as [r|]; [|split; assumption].
  unfold referralPerEmail. cbn [users referrals committedStore]. split.
  - rewrite updateRows_field by reflexivity. exact Hnd.
  - intros x' Hx'. apply updateRows_in in Hx'. destruct Hx' as (x & Hx & ->).
    destruct (Hu x Hx) as (u & Hin & He). exists u. split; [exact Hin|].
    rewrite He. destruct (Nat.eqb _ _); reflexivity.
Qed.

Lemma accountsLinked_committed now session payment tier mr s :
  accountsLinked s ->
  accountsLinked (committedStore now session payment tier mr s).
Proof.
  apply accountsLinked_rewrite; cbn.
  - apply Forall2_map_r. intros p. destruct (Nat.eqb _ _); split; reflexivity.
  - apply Forall2_map_r. intros p. destruct (Nat.eqb _ _); split; reflexivity.
  - lia.
Qed.

Lemma accountsLinked_failed paymentIntent payment s :
  accountsLinked s -> accountsLinked (failedStore paymentIntent payment s).
Proof.
  apply accountsLinked_rewrite; cbn.
  - apply Forall2_same. intros p. split; reflexivity.
  - apply Forall2_map_r. intros p. destruct (Nat.eqb _ _); split; reflexivity.
  - lia.
Qed.

(** Every modelled request keeps the store consistent. *)
Lemma serveRequest_consistent constructEvent endpointSecret isUrl isEmail
  dRef dRev r s :
  consistent s ->
  consistent
    (serveRequest constructEvent endpointSecret isUrl isEmail dRef dRev r s).
Proof.
  intros (Hfresh & Hlinked & Hemail).
  split; [exact (proj1 (serveRequest_step constructEvent endpointSecret isUrl
                          isEmail dRef dRev r s Hfresh))|].
  destruct r as [b|draws b|reply req|now req]; cbn [serveRequest].
  - destruct (registerParticipant_outcome isEmail b s)
      as [(e & He)|(d & res & _ & Hnew & _ & Hok)].
    + rewrite He. now split.
    + rewrite Hok. split;
        [now apply accountsLinked_registered
        |now apply referralPerEmail_registered].
  - destruct (registerPromoter_outcome isEmail dRef dRev draws b s)
      as [(e & He)|[(_ & Hno)|(code & res & _ & Hok)]].
    + rewrite He. now split.
    + rewrite Hno. now split.
    + rewrite Hok. split.
      * revert Hlinked. apply accountsLinked_bump; cbn; [reflexivity|reflexivity|lia].
      * destruct Hemail as (Hnd & Hu). split; [exact Hnd|].
        intros x Hx. destruct (Hu x Hx) as (u & Hin & He).
        exists u. split; [cbn; apply in_or_app; now left | exact He].
  - destruct (createSession_outcome isUrl reply req s)
      as [(e & He)|(d & pt & user & sid & url & res & _ & Hpt & _ & _ & _ & Hok)].
    + rewrite He. now split.
    + rewrite Hok. apply find_some in Hpt. split.
      * now apply accountsLinked_session.
      * revert Hemail. now apply referralPerEmail_keep.
  - rewrite stripeWebhook_store.
    destruct (constructEvent _ _ _) as [event|message]; [|now split].
    destruct event as [session|pi|pi|inv|ty]; cbn [dispatch]; try (now split).
    + destruct (handleCheckoutSessionCompleted_outcome now session s)
        as [e | payment tier Hpay Htier Hpt Hpr]; [now split|].
      split; [now apply accountsLinked_committed
             |now apply referralPerEmail_committed].
    + rewrite handlePaymentIntentFailed_eq.
      destruct (find (byIntent pi) (payments s)) as [payment|]; [|now split].
      split; [now apply accountsLinked_failed|].
      revert Hemail. now apply referralPerEmail_keep.
Qed.

Lemma emptyStore_consistent : consistent emptyStore.
Proof.
  unfold consistent, referralIdsFresh, accountsLinked, paymentsLinked,
    referralPerEmail.
  cbn. repeat split; try apply NoDup_nil; intros; contradiction.
Qed.

(** The stores reached from the empty one are consistent. *)
Lemma serveAll_consistent constructEvent endpointSecret isUrl isEmail
  dRef dRev rs s :
  consistent s ->
  consistent
    (serveAll constructEvent endpointSecret isUrl isEmail dRef dRev rs s).
Proof.
  unfold serveAll. revert s.
  induction rs as [|r rs IH]; intros s Hs; cbn [fold_left]; [exact Hs|].
  apply IH. now apply serveRequest_consistent.
Qed.

(** In a consistent store at most one referral matches an email. *)
Lemma consistent_one_match s email code :
  consistent s ->
  length (filter (referralMatches email code) (referrals s)) <= 1.
Proof.
  intros (_ & _ & Hnd & _). revert Hnd.
  induction (referrals s) as [|r l IH]; cbn; intros Hnd; [lia|].
  inversion Hnd as [|? ? Hr Hnd']; subst.
  destruct (referralMatches email code r) eqn:Hm; [|now apply IH].
  cbn. assert (Hnone : filter (referralMatches email code) l = []).
  { clear -Hr Hm. induction l as [|x l IH]; [reflexivity|]. cbn.
    destruct (referralMatches email code x) eqn:Hx.
    - exfalso. apply Hr. left. unfold referralMatches in *.
      apply andb_prop in Hm. destruct Hm as [Hm _].
      apply andb_prop in Hm. destruct Hm as [Hm _].
      apply andb_prop in Hx. destruct Hx as [Hx _].
      apply andb_prop in Hx. destruct Hx as [Hx _].
      apply String.eqb_eq in Hm, Hx. congruence.
    - apply IH. intros H. apply Hr. now right. }
  rewrite Hnone. cbn. lia.
Qed.

(** The hypotheses the statements above put on a store hold in every store
    the modelled requests reach from a consistent one, the empty store
    among them: referral ids are fresh, payments are linked to the
    participant of their account, and at most one referral matches an email
    and a code. *)
Lemma reached_store_is_consistent constructEvent endpointSecret isUrl isEmail
  dRef dRev rs s0 :
  consistent s0 ->
  let s := serveAll constructEvent endpointSecret isUrl isEmail dRef dRev
                    rs s0 in
  referralIdsFresh s
  /\ paymentsLinked s
  /\ forall email code,
      length (filter (referralMatches email code) (referrals s)) <= 1.
Proof.
  intros Hs0 s.
  pose proof (serveAll_consistent constructEvent endpointSecret isUrl isEmail
                dRef dRev rs s0 Hs0) as Hs.
  fold s in Hs. split; [apply Hs|]. split; [apply Hs|].
  intros email code. now apply consistent_one_match.
Qed.

(* ===================================================================== *)
(** ** Referral rows over time *)
(* ===================================================================== *)

Lemma convertedFrom_trans r0 r1 r2 :
  convertedFrom r0 r1 -> convertedFrom r1 r2 -> convertedFrom r0 r2.
Proof.
  intros [->|(Hun & now1 & pay1 & ->)] H12; [exact H12|].
  destruct H12 as [->|(Hun2 & _)]; [|discriminate].
  right. split; [exact Hun|]. now exists now1, pay1.
Qed.

Lemma NoDup_map_same {A B} (g : A -> B) (l : list A) x y :
  NoDup (map g l) -> In x l -> In y l -> g x = g y -> x = y.
Proof.
  induction l as [|z l IH]; cbn [map]; intros Hnd Hx Hy Hg; [destruct Hx|].
  inversion Hnd as [|? ? Hz Hnd']; subst.
  destruct Hx as [->|Hx], Hy as [->|Hy].
  - reflexivity.
  - exfalso. apply Hz. rewrite Hg. now apply in_map.
  - exfalso. apply Hz. rewrite <- Hg. now apply in_map.
  - now apply IH.
Qed.

Lemma referralsKept_same s s' :
  referrals s' = referrals s -> referralsKept s s'.
Proof.
  intros Heq i r0 Hi. exists r0. rewrite Heq. split; [exact Hi | now left].
Qed.

Lemma referralsKept_app s s' more :
  referrals s' = (referrals s ++ more)%list -> referralsKept s s'.
Proof.
  intros Heq i r0 Hi. exists r0. rewrite Heq. split; [|now left].
  rewrite nth_error_app1; [exact Hi|]. apply nth_error_Some. congruence.
Qed.

Lemma referralsKept_trans s0 s1 s2 :
  referralsKept s0 s1 -> referralsKept s1 s2 -> referralsKept s0 s2.
Proof.
  intros H01 H12 i r0 Hi.
  destruct (H01 i r0 Hi) as (r1 & Hi1 & Hc1).
  destruct (H12 i r1 Hi1) as (r2 & Hi2 & Hc2).
  exists r2. split; [exact Hi2|]. eapply convertedFrom_trans; eassumption.
Qed.

(** With distinct ids the checkout-completed transaction changes no
    referral but the unconverted one it found, and converts that one. *)
Lemma referralsKept_committed now session payment tier s :
  referralIdsFresh s ->
  referralsKept s
    (committedStore now session payment tier (matchingReferral session s) s).
Proof.
  intros [Hnd _].
  destruct (matchingReferral session s) as [r|] eqn:Hmr;
    [|now apply referralsKept_same].
  unfold matchingReferral in Hmr. destruct (truthy _); [|discriminate].
  apply find_some in Hmr. destruct Hmr as [Hin Hmatch].
  assert (Hun : Referral.isConverted r = false).
  { unfold referralMatches in Hmatch.
    destruct (Referral.isConverted r); [|reflexivity].
    now rewrite andb_false_r in Hmatch. }
  intros i r0 Hi. cbn [referrals committedStore]. unfold updateRows.
  rewrite nth_error_map, Hi. cbn [option_map rowId referralTable].
  eexists. split; [reflexivity|].
  destruct (Nat.eqb (Referral.id r0) (Referral.id r)) eqn:E; [|now left].
  apply Nat.eqb_eq in E.
  assert (r0 = r) as ->.
  { apply (NoDup_map_same Referral.id (referrals s)); auto.
    eapply nth_error_In; eassumption. }
  right. split; [exact Hun|]. eexists _, _. reflexivity.
Qed.

Lemma serveRequest_referralsKept constructEvent endpointSecret isUrl isEmail
  dRef dRev r s :
  referralIdsFresh s ->
  referralsKept s
    (serveRequest constructEvent endpointSecret isUrl isEmail dRef dRev r s).
Proof.
  intros Hfresh. destruct r as [b|draws b|reply req|now req]; cbn [serveRequest].
  - destruct (registerParticipant_referrals isEmail b s) as (l & Hl).
    now apply (referralsKept_app _ _ l).
  - destruct (registerPromoter_outcome isEmail dRef dRev draws b s)
      as [(e & He)|[(_ & Hno)|(code & res & _ & Hok)]].
    + rewrite He. now apply referralsKept_same.
    + rewrite Hno. now apply referralsKept_same.
    + rewrite Hok. now apply referralsKept_same.
  - apply referralsKept_same. apply createSession_referrals.
  - rewrite stripeWebhook_store.
    destruct (constructEvent _ _ _) as [event|message];
      [|now apply referralsKept_same].
    destruct event as [session|pi|pi|inv|ty]; cbn [dispatch];
      try (now apply referralsKept_same).
    + destruct (handleCheckoutSessionCompleted_outcome now session s)
        as [e | payment tier Hpay Htier Hpt Hpr]; cbn [fst].
      * now apply referralsKept_same.
      * now apply referralsKept_committed.
    + apply referralsKept_same. apply handlePaymentIntentFailed_referrals.
Qed.

Lemma serveAll_referralsKept constructEvent endpointSecret isUrl isEmail
  dRef dRev rs s :
  referralIdsFresh s ->
  referralsKept s
    (serveAll constructEvent endpointSecret isUrl isEmail dRef dRev rs s).
Proof.
  unfold serveAll. revert s.
  induction rs as [|r rs IH]; intros s Hfresh; cbn [fold_left].
  - now apply referralsKept_same.
  - destruct (serveRequest_step constructEvent endpointSecret isUrl isEmail
                dRef dRev r s Hfresh) as (Hfresh' & _).
    eapply referralsKept_trans; [|now apply IH].
    now apply serveRequest_referralsKept.
Qed.

(** C8, as the code has it. A registration that supplies a valid referral
    code creates one referral row, for the approved promoter holding the
    code, with commission 0 and no payment; its [isConverted] is [false] for
    the PREMIUM and VIP tiers and [true] for the FREE tier. In a store whose
    referral ids are distinct and below the id counter, whatever requests
    are served afterwards the row stays where it is and is either as it was
    created or, when it was created unconverted, converted with a time and
    a payment; a row created for the FREE tier is never changed, so it is
    never linked to a payment. Rows already in the referral table are not
    changed by a registration, by the creation of a checkout session or by
    the payment-failed handler, so an unconverted referral can only be
    converted by the checkout-completed transaction. *)
Theorem referral_created_unconverted_unless_free
  (isEmail : string -> bool) (b : RegistrationBody) (s s' : Store)
  (res : Response) :
  registerParticipant isEmail b s = (s', Ok res) ->
  truthyOpt (rReferralCode b) = true ->
  (exists tier code promoter,
      Tier.parse (rTier b) = Some tier
      /\ rReferralCode b = Some code
      /\ find (approvedWithCode code) (promoters s) = Some promoter
      /\ referrals s'
         = (referrals s ++
            [Referral.mk (S (S (nextId s))) (Promoter.id promoter) (rEmail b)
               code tier 0 (Tier.eqb tier Tier.FREE) None None])%list
      /\ (referralIdsFresh s ->
          forall constructEvent endpointSecret isUrl isEmail' dRef dRev rs,
          exists r,
            nth_error
              (referrals (serveAll constructEvent endpointSecret isUrl
                                   isEmail' dRef dRev rs s'))
              (length (referrals s)) = Some r
            /\ convertedFrom
                 (Referral.mk (S (S (nextId s))) (Promoter.id promoter)
                    (rEmail b) code tier 0 (Tier.eqb tier Tier.FREE)
                    None None) r
            /\ (tier = Tier.FREE ->
                Referral.isConverted r = true
                /\ Referral.convertedAt r = None
                /\ Referral.paymentId r = None)))
  /\ (forall isEmail' b' t,
        exists l, referrals (fst (registerParticipant isEmail' b' t))
                  = (referrals t ++ l)%list)
  /\ (forall isUrl reply req t,
        referrals (fst (createSession isUrl reply req t)) = referrals t)
  /\ (forall paymentIntent t,
        referrals (fst (handlePaymentIntentFailed paymentIntent t))
        = referrals t).
Proof.
  intros Hrun Hcode. split; [|split; [|split]].
  - destruct (registerParticipant_outcome isEmail b s)
      as [(e & He)|(d & res' & Hd & _ & Href & Hok)]; [congruence|].
    rewrite Hok in Hrun. injection Hrun as <- _.
    destruct (participantRegistrationSchema_pure isEmail b s)
      as [(d' & Hd' & Htier & Hemail & Hc)|(m & Hm)]; [|congruence].
    assert (d' = d) by congruence. subst d'.
    rewrite Hc in Href. specialize (Href Hcode).
    pose proof Hcode as Hcode'.
    unfold referrerOf in *. unfold truthyOpt in Hcode.
    destruct (rReferralCode b) as [code|] eqn:Hb; [|discriminate].
    rewrite Hcode in *.
    destruct (find (approvedWithCode code) (promoters s)) as [p|] eqn:Hp;
      [|congruence].
    exists (dTier d), code, p.
    assert (Hrefs :
              referrals (registeredStore d
                           (match dReferralCode d with
                            | Some code0 =>
                                if truthy code0
                                then find (approvedWithCode code0) (promoters s)
                                else None
                            | None => None
                            end) s)
              = (referrals s ++
                 [Referral.mk (S (S (nextId s))) (Promoter.id p) (rEmail b)
                    code (dTier d) 0 (Tier.eqb (dTier d) Tier.FREE)
                    None None])%list).
    { cbn. rewrite Hc. cbn. rewrite Hcode, Hp. unfold newReferral.
      now rewrite Hc, Hemail. }
    repeat split; try assumption.
    intros Hfresh constructEvent endpointSecret isUrl isEmail' dRef dRev rs.
    set (s1 := registeredStore d _ s) in *.
    assert (Hfresh1 : referralIdsFresh s1).
    { pose proof (serveRequest_step constructEvent endpointSecret isUrl
                    isEmail dRef dRev (RegisterParticipant b) s Hfresh) as Hs.
      cbn [serveRequest] in Hs. rewrite Hok in Hs. apply Hs. }
    destruct (serveAll_referralsKept constructEvent endpointSecret isUrl
                isEmail' dRef dRev rs s1 Hfresh1 (length (referrals s))
                (Referral.mk (S (S (nextId s))) (Promoter.id p) (rEmail b)
                   code (dTier d) 0 (Tier.eqb (dTier d) Tier.FREE) None None))
      as (r & Hr & Hconv).
    { rewrite Hrefs, nth_error_app2, Nat.sub_diag by lia. reflexivity. }
    exists r. split; [exact Hr|]. split; [exact Hconv|].
    intros Hfree. rewrite Hfree in Hconv.
    destruct Hconv as [->|(Hun & _)]; [|discriminate].
    repeat split.
  - intros. apply registerParticipant_referrals.
  - intros. apply createSession_referrals.
  - intros. apply handlePaymentIntentFailed_referrals.
Qed.

Lemma referral_created_unconverted_unless_free_witness :
  (exists tier code promoter,
      Tier.parse (rTier freeRegistration) = Some tier
      /\ rReferralCode freeRegistration = Some code
      /\ find (approvedWithCode code) (promoters store0) = Some promoter
      /\ referrals (fst (registerParticipant scenarioIsEmail freeRegistration
                                             store0))
         = (referrals store0 ++
            [Referral.mk (S (S (nextId store0))) (Promoter.id promoter)
               (rEmail freeRegistration) code tier 0
               (Tier.eqb tier Tier.FREE) None None])%list
      /\ (referralIdsFresh store0 ->
          forall constructEvent endpointSecret isUrl isEmail' dRef dRev rs,
          exists r,
            nth_error
              (referrals
                 (serveAll constructEvent endpointSecret isUrl isEmail' dRef
                    dRev rs
                    (fst (registerParticipant scenarioIsEmail freeRegistration
                                              store0))))
              (length (referrals store0)) = Some r
            /\ convertedFrom
                 (Referral.mk (S (S (nextId store0))) (Promoter.id promoter)
                    (rEmail freeRegistration) code tier 0
                    (Tier.eqb tier Tier.FREE) None None) r
            /\ (tier = Tier.FREE ->
                Referral.isConverted r = true
                /\ Referral.convertedAt r = None
                /\ Referral.paymentId r = None)))
  /\ (forall isEmail' b' t,
        exists l, referrals (fst (registerParticipant isEmail' b' t))
                  = (referrals t ++ l)%list)
  /\ (forall isUrl reply req t,
        referrals (fst (createSession isUrl reply req t)) = referrals t)
  /\ (forall paymentIntent t,
        referrals (fst (handlePaymentIntentFailed paymentIntent t))
        = referrals t).
Proof.
  apply (referral_created_unconverted_unless_free scenarioIsEmail
           freeRegistration store0
           (fst (registerParticipant scenarioIsEmail freeRegistration store0))
           (mkResponse 201
              (RegistrationSuccessful 3 "bo@example.com" Tier.FREE
                 ParticipantStatus.APPROVED false))).
  - reflexivity.
  - reflexivity.
Defined.

(* ===================================================================== *)
(** ** The routes in closed form *)
(* ===================================================================== *)

Lemma registerParticipant_eq isEmail b s :
  registerParticipant isEmail b s
  = match participantRegistrationSchema isEmail b s with
    | (_, Throw e) => rethrowZod e s
    | (_, Ok d) =>
        match find (fun u => String.eqb (User.email u) (dEmail d)) (users s)
        with
        | Some _ =>
            (s, Throw (AppError
                         "Email already registered. Please login instead."
                         409))
        | None =>
            match referrerOf (dReferralCode d) s with
            | Some p =>
                (registeredStore d (Some p) s, Ok (registrationResponse d s))
            | None =>
                if truthyOpt (dReferralCode d)
                then (s, Throw (AppError "Invalid referral code" 400))
                else (registeredStore d None s,
                      Ok (registrationResponse d s))
            end
        end
    end.
Proof.
  unfold registerParticipant, tryCatch, bind at 1.
  destruct (participantRegistrationSchema_pure isEmail b s)
    as [(d & Hd & _)|(m & Hm)].
  2:{ rewrite Hm. reflexivity. }
  rewrite Hd.
  unfold bind at 1, findFirst at 1. cbn [rows userTable].
  destruct (find _ (users s)) eqn:Hu; [reflexivity|].
  unfold bind at 1. rewrite lookupReferrer_eq.
  destruct (referrerOf (dReferralCode d) s) as [p|] eqn:Href.
  - unfold recordReferral, bind, transaction, create, update, ret. cbn.
    assert (Hp : find (approvedWithCode
                         (match dReferralCode d with Some c => c | None => "" end))
                      (promoters s) = Some p).
    { unfold referrerOf in Href. destruct (dReferralCode d) as [c|];
        [|discriminate]. destruct (truthy c); [exact Href|discriminate]. }
    destruct (find (fun r => Nat.eqb (Promoter.id r) (Promoter.id p))
                   (promoters s)) eqn:Hid; cbn;
      [|exfalso; exact (find_some_hasId promoterTable _ _ _ Hp Hid)].
    reflexivity.
  - destruct (truthyOpt (dReferralCode d)); reflexivity.
Qed.

Lemma createSession_eq isUrl reply req s :
  createSession isUrl reply req s
  = match createPaymentSessionSchema isUrl (csBody req) s with
    | (_, Throw e) => rethrowZod e s
    | (_, Ok d) =>
        match find (hasId participantTable (vParticipantId d)) (participants s)
        with
        | None => (s, Throw (AppError "Participant not found" 404))
        | Some participant =>
            if negb (Nat.eqb (Participant.userId participant) (csUser req))
            then (s, Throw (AppError
                              "Unauthorized access to participant record" 403))
            else
              match find (completedFor (Participant.id participant)
                                       (PaidTier.toTier (vTier d)))
                         (payments s) with
              | Some _ =>
                  (s, Throw (AppError
                               "Payment already completed for this tier" 400))
              | None =>
                  match find (hasId userTable (Participant.userId participant))
                             (users s) with
                  | None => (s, Throw (Error "Cannot read properties of null"))
                  | Some user =>
                      match reply with
                      | None =>
                          (s, Throw (StripeError
                                       "checkout session creation failed"))
                      | Some (sessionId, url) =>
                          (sessionStore sessionId url d (csUser req)
                                        participant user s,
                           Ok (mkResponse 200
                                 (SessionCreated sessionId url (nextId s)
                                    (TIER_PRICES (vTier d))
                                    (Tier.toString
                                       (PaidTier.toTier (vTier d))))))
                      end
                  end
              end
        end
    end.
Proof.
  unfold createSession, tryCatch, bind at 1.
  destruct (createPaymentSessionSchema_pure isUrl (csBody req) s)
    as [(d & Hd & _)|(m & Hm)].
  2:{ rewrite Hm. reflexivity. }
  rewrite Hd.
  unfold bind, findFirst, throw, ret, create, stripeCheckoutSessionsCreate,
    hasId.
  cbn.
  case_find (participants s) Hpt; [|reflexivity].
  destruct (Nat.eqb (Participant.userId _) (csUser req)) eqn:Hown; cbn;
    [|reflexivity].
  case_find (payments s) Hex; [reflexivity|].
  case_find (users s) Hu; [|reflexivity].
  destruct reply as [[sessionId url]|]; cbn; reflexivity.
Qed.

Lemma registerPromoter_eq isEmail dRef dRev draws b s :
  registerPromoter isEmail dRef dRev draws b s
  = match promoterRegistrationSchema isEmail b s with
    | (_, Throw e) => rethrowZod e s
    | (_, Ok email) =>
        match find (fun u => String.eqb (User.email u) email) (users s) with
        | Some _ =>
            (s, Throw (AppError
                         "Email already registered. Please login instead."
                         409))
        | None =>
            match find (codeIsFree s) (map candidateCode draws) with
            | None => (s, Ok None)
            | Some code =>
                (appliedStore email code dRef dRev s,
                 Ok (Some (mkResponse 201
                             (ApplicationSubmitted (S (nextId s)) email code))))
            end
        end
    end.
Proof.
  unfold registerPromoter, tryCatch, bind at 1.
  destruct (promoterRegistrationSchema_pure isEmail b s) as [Hd|(m & Hm)].
  2:{ rewrite Hm. reflexivity. }
  rewrite Hd.
  unfold bind at 1, findFirst at 1. cbn [rows userTable].
  destruct (find _ (users s)) eqn:Hu; [reflexivity|].
  unfold bind at 1. rewrite generateReferralCode_eq.
  destruct (find (codeIsFree s) (map candidateCode draws)); reflexivity.
Qed.

Lemma updateRows_same {R} (T : Table R) id l :
  updateRows T id (fun r => r) l = l.
Proof.
  unfold updateRows. rewrite <- (map_id l) at 2. apply map_ext.
  intros r. now destruct (Nat.eqb (rowId T r) id).
Qed.

Lemma approvePromoter_eq admin b s :
  approvePromoter admin b s
  = match approvePromoterSchema b s with
    | (_, Throw e) => rethrowZod e s
    | (_, Ok _) =>
        match find (hasId promoterTable (apPromoterId b)) (promoters s) with
        | None => (s, Throw (AppError "Promoter not found" 404))
        | Some promoter =>
            if negb (PromoterStatus.eqb (Promoter.status promoter)
                                        PromoterStatus.PENDING)
            then (s, Throw (AppError
                              "Only pending applications can be approved/rejected"
                              400))
            else
              match find (hasId userTable (Promoter.userId promoter)) (users s)
              with
              | Some _ =>
                  (decidedStore admin (apApproved b) promoter s,
                   Ok (decidePromoter (apApproved b) promoter))
              | None =>
                  (s, Throw (if apApproved b
                             then PrismaError "Record to update not found."
                             else Error "Cannot read properties of null"))
              end
        end
    end.
Proof.
  unfold approvePromoter, tryCatch, bind at 1.
  assert (Hv : approvePromoterSchema b s = (s, Ok b)
               \/ exists m, approvePromoterSchema b s = (s, Throw (ZodError m))).
  { unfold approvePromoterSchema. destruct (apCommissionRate b) as [r|];
      [|now left]. destruct (inUnitInterval r); [now left|].
    right. eexists; reflexivity. }
  destruct Hv as [Hv|(m & Hv)]; rewrite Hv; [|reflexivity].
  unfold bind, findFirst, throw, ret, create, update, transaction, hasId.
  cbn.
  case_find (promoters s) Hp; [|reflexivity].
  destruct (PromoterStatus.eqb _ _); cbn; [|reflexivity].
  assert (Hid : rowId promoterTable t = apPromoterId b).
  { apply find_some in Hp. now apply Nat.eqb_eq. }
  cbn in Hid. rewrite Hp. cbn.
  destruct (apApproved b); cbn.
  - case_find (users s) Hu; [|reflexivity].
    change (map _ (users s))
      with (updateRows userTable (Promoter.userId t) (fun u => u) (users s)).
    rewrite updateRows_same, <- Hid. reflexivity.
  - case_find (users s) Hu; cbn; rewrite <- ?Hid; reflexivity.
Qed.

Lemma updateParticipantStatus_eq admin b s :
  updateParticipantStatus admin b s
  = match parseParticipantStatus (stStatus b) with
    | None => (s, Throw (AppError "Invalid enum value" 400))
    | Some status =>
        match find (hasId participantTable (stParticipantId b))
                   (participants s) with
        | None => (s, Throw (PrismaError "Record to update not found."))
        | Some participant =>
            (statusStore admin status (stParticipantId b) s,
             Ok (setParticipantStatus status participant))
        end
    end.
Proof.
  unfold updateParticipantStatus, tryCatch.
  destruct (parseParticipantStatus (stStatus b)) as [status|]; [|reflexivity].
  unfold bind, throw, ret, create, update, transaction, hasId. cbn.
  case_find (participants s) Hp; [|reflexivity].
  apply find_some in Hp. destruct Hp as [_ Hid]. apply Nat.eqb_eq in Hid.
  cbn. rewrite Hid. reflexivity.
Qed.

(* ===================================================================== *)
(** ** More on the webhook *)
(* ===================================================================== *)

(** X1. An authenticated event of any kind other than checkout-completed
    and payment-failed (payment_intent.succeeded, invoice.payment_succeeded,
    kinds the switch does not know) is acknowledged with 200 and writes
    nothing. *)
Theorem unhandled_events_acknowledged
  (constructEvent : string -> string -> string -> Event + string)
  (endpointSecret : string) (now : nat) (req : WebhookRequest) (s : Store)
  (event : Event) :
  constructEvent (rawBody req) (stripeSignature req) endpointSecret
  = inl event ->
  (forall session, event <> CheckoutSessionCompleted session) ->
  (forall paymentIntent, event <> PaymentIntentPaymentFailed paymentIntent) ->
  stripeWebhook constructEvent endpointSecret now req s
  = (s, mkResponse 200 Received).
Proof.
  intros Hevent Hc Hf. unfold stripeWebhook. rewrite Hevent.
  destruct event as [session|pi|pi|inv|ty]; cbn; try reflexivity.
  - now destruct (Hc session).
  - now destruct (Hf pi).
Qed.

Lemma unhandled_events_acknowledged_witness :
  stripeWebhook
    (scenarioConstructEvent
       [("evt_refund", OtherEvent "charge.refunded")])
    scenarioSecret 12 (mkWebhookRequest "evt_refund" "v1=whsec_test") store3
  = (store3, mkResponse 200 Received).
Proof.
  apply (unhandled_events_acknowledged
           (scenarioConstructEvent
              [("evt_refund", OtherEvent "charge.refunded")])
           scenarioSecret 12 (mkWebhookRequest "evt_refund" "v1=whsec_test")
           store3 (OtherEvent "charge.refunded")).
  - reflexivity.
  - discriminate.
  - discriminate.
Defined.

(** X2. A checkout-completed event is answered with 500, and nothing is
    written, when no payment row carries its session id, when the tier of
    its metadata is not a tier, or when the participant of its metadata
    does not exist. *)
Theorem completed_event_failure_is_500
  (constructEvent : string -> string -> string -> Event + string)
  (endpointSecret : string) (now : nat) (req : WebhookRequest) (s : Store)
  (session : Session.t) :
  constructEvent (rawBody req) (stripeSignature req) endpointSecret
  = inl (CheckoutSessionCompleted session) ->
  (forall p, In p (payments s) ->
             Payment.stripeSessionId p <> Session.id session)
  \/ Tier.parse (Metadata.tier (Session.metadata session)) = None
  \/ (forall p, In p (participants s) ->
                Participant.id p
                <> Metadata.participantId (Session.metadata session)) ->
  stripeWebhook constructEvent endpointSecret now req s
  = (s, mkResponse 500 (JsonError "Webhook handler failed")).
Proof.
  intros Hevent Hwhy. unfold stripeWebhook. rewrite Hevent. cbn [dispatch].
  rewrite handleCheckoutSessionCompleted_eq. unfold completedResult.
  destruct Hwhy as [Hpay|[Htier|Hpt]].
  - rewrite find_none_of_all; [reflexivity|].
    intros p Hp. apply String.eqb_neq. now apply Hpay.
  - destruct (find (bySession session) (payments s)); [|reflexivity].
    now rewrite Htier.
  - destruct (find (bySession session) (payments s)); [|reflexivity].
    destruct (Tier.parse _); [|reflexivity].
    rewrite find_none_of_all; [reflexivity|].
    intros p Hp. apply Nat.eqb_neq. now apply Hpt.
Qed.

Lemma completed_event_failure_is_500_witness :
  scenarioWebhook 10 (mkWebhookRequest "evt_completed" "v1=whsec_test") store1
  = (store1, mkResponse 500 (JsonError "Webhook handler failed")).
Proof.
  apply (completed_event_failure_is_500
           (scenarioConstructEvent scenarioEvents) scenarioSecret 10
           (mkWebhookRequest "evt_completed" "v1=whsec_test") store1
           annSession).
  - reflexivity.
  - left. intros p [].
Defined.

(** X3. When the payment-failed handler finds a payment, it writes the
    payment table and the audit log and nothing else: every row with the id
    of the payment found is FAILED, with the message of the event as
    failure reason (the reason it had, when the event has none), the other
    payments are as they were, one PAYMENT_FAILED entry is appended for the
    owner of the payment, and users, participants, referrals and promoters
    are not touched, so an activation, a conversion or a credited counter is
    never taken back. *)
Theorem failed_event_touches_only_payment_and_log
  (paymentIntent : PaymentIntent.t) (payment : Payment.t) (s : Store) :
  find (byIntent paymentIntent) (payments s) = Some payment ->
  exists s',
    handlePaymentIntentFailed paymentIntent s = (s', Ok tt)
    /\ users s' = users s /\ participants s' = participants s
    /\ referrals s' = referrals s /\ promoters s' = promoters s
    /\ stripeSessions s' = stripeSessions s
    /\ auditLogs s'
       = (auditLogs s ++
          [AuditLog.mk (nextId s) (Some (Payment.userId payment))
                       "PAYMENT_FAILED" "PAYMENT" (Payment.id payment)])%list
    /\ Forall2
         (fun p p' =>
            if Nat.eqb (Payment.id p) (Payment.id payment)
            then Payment.status p' = PaymentStatus.FAILED
                 /\ Payment.failureReason p'
                    = match PaymentIntent.last_payment_error paymentIntent with
                      | Some m => Some m
                      | None => Payment.failureReason p
                      end
                 /\ Payment.stripePaymentIntentId p'
                    = Payment.stripePaymentIntentId p
                 /\ Payment.amount p' = Payment.amount p
            else p' = p)
         (payments s) (payments s').
Proof.
  intros Hfind. rewrite handlePaymentIntentFailed_eq, Hfind.
  eexists. split; [reflexivity|]. cbn. repeat split.
  apply Forall2_map_r. intros p. cbn.
  destruct (Nat.eqb (Payment.id p) (Payment.id payment)); cbn;
    [repeat split | reflexivity].
Qed.

Lemma failed_event_touches_only_payment_and_log_witness :
  exists s',
    handlePaymentIntentFailed annFailure store3 = (s', Ok tt)
    /\ participants s' = participants store3
    /\ referrals s' = referrals store3
    /\ promoters s' = promoters store3
    /\ map Payment.failureReason (payments s')
       = [Some "Your card was declined."].
Proof.
  destruct (failed_event_touches_only_payment_and_log annFailure
              (Payment.mk 6 2 3 "pi_1" "cs_1" 99 "usd" Tier.PREMIUM
                          PaymentStatus.COMPLETED None (Some "REFABC123"))
              store3 eq_refl)
    as (s' & Hrun & _ & Hpt & Hr & Hp & _ & _ & _).
  exists s'. split; [exact Hrun|]. split; [exact Hpt|]. split; [exact Hr|].
  split; [exact Hp|].
  vm_compute in Hrun. injection Hrun as <-. reflexivity.
Defined.

(** X4. A processed checkout-completed event leaves the participant named
    in its metadata ACTIVE with the tier of the metadata, whatever status
    and tier the participant had: also a participant an admin has just
    SUSPENDED or REJECTED. The other participants are as they were. *)
Theorem completed_event_overrides_participant_status
  (admin : Id) (b : StatusBody) (now : nat) (session : Session.t)
  (s s1 s2 : Store) (updated : Participant.t) :
  updateParticipantStatus admin b s = (s1, Ok updated) ->
  Metadata.participantId (Session.metadata session) = stParticipantId b ->
  handleCheckoutSessionCompleted now session s1 = (s2, Ok tt) ->
  parseParticipantStatus (stStatus b) = Some (Participant.status updated)
  /\ exists tier,
      Tier.parse (Metadata.tier (Session.metadata session)) = Some tier
      /\ Forall2
           (fun p p' =>
              if Nat.eqb (Participant.id p) (stParticipantId b)
              then p' = Participant.mk (Participant.id p)
                          (Participant.userId p) tier ParticipantStatus.ACTIVE
                          (Participant.referredBy p)
              else p' = p)
           (participants s) (participants s2).
Proof.
  intros Hset Hid Hrun.
  rewrite updateParticipantStatus_eq in Hset.
  destruct (parseParticipantStatus (stStatus b)) as [status|];
    [|discriminate].
  destruct (find _ (participants s)) as [pt|]; [|discriminate].
  injection Hset as <- <-. split; [reflexivity|].
  pose proof (handleCheckoutSessionCompleted_outcome now session
                (statusStore admin status (stParticipantId b) s)) as Hout.
  rewrite Hrun in Hout.
  inversion Hout as [e | payment tier Hpay Htier Hpt Hpr]; subst.
  exists tier. split; [exact Htier|].
  cbn. rewrite Hid. unfold updateRows. rewrite map_map.
  apply Forall2_map_r. intros p. cbn.
  destruct (Nat.eqb (Participant.id p) (stParticipantId b)) eqn:E; cbn.
  - rewrite E. reflexivity.
  - rewrite E. reflexivity.
Qed.

Lemma completed_event_overrides_participant_status_witness :
  map Participant.status (participants storeSuspended)
  = [ParticipantStatus.SUSPENDED]
  /\ exists tier,
      Tier.parse "PREMIUM" = Some tier
      /\ Forall2
           (fun p p' =>
              if Nat.eqb (Participant.id p) 3
              then p' = Participant.mk (Participant.id p)
                          (Participant.userId p) tier ParticipantStatus.ACTIVE
                          (Participant.referredBy p)
              else p' = p)
           (participants store3)
           (participants
              (fst (handleCheckoutSessionCompleted 12 annSession
                      storeSuspended))).
Proof.
  split; [reflexivity|].
  exact (proj2 (completed_event_overrides_participant_status 0 suspendAnn 12
                  annSession store3 storeSuspended
                  (fst (handleCheckoutSessionCompleted 12 annSession
                          storeSuspended))
                  (Participant.mk 3 2 Tier.PREMIUM ParticipantStatus.SUSPENDED
                                  (Some "REFABC123"))
                  eq_refl eq_refl eq_refl)).
Defined.

(* ===================================================================== *)
(** ** More on participant registration *)
(* ===================================================================== *)

(** X5. A participant registration that is refused is refused with a client
    error, 400 for a body the schema rejects or a referral code that is not
    valid and 409 for an email already registered, and has written
    nothing. *)
Theorem registration_refusals
  (isEmail : string -> bool) (b : RegistrationBody) (s s' : Store) (e : Exn) :
  registerParticipant isEmail b s = (s', Throw e) ->
  s' = s
  /\ exists message code,
      e = AppError message code /\ (code = 400 \/ code = 409).
Proof.
  rewrite registerParticipant_eq.
  destruct (participantRegistrationSchema_pure isEmail b s)
    as [(d & Hd & _)|(m & Hm)].
  - rewrite Hd. destruct (find _ (users s)).
    + intros [= <- <-]. split; [reflexivity|]. do 2 eexists. eauto.
    + destruct (referrerOf (dReferralCode d) s); [discriminate|].
      destruct (truthyOpt (dReferralCode d)); [|discriminate].
      intros [= <- <-]. split; [reflexivity|]. do 2 eexists. eauto.
  - rewrite Hm. cbn. intros [= <- <-]. split; [reflexivity|].
    do 2 eexists. eauto.
Qed.

Lemma registration_refusals_witness :
  fst (registerParticipant scenarioIsEmail annRegistration store1) = store1
  /\ exists message code,
      AppError "Email already registered. Please login instead." 409
      = AppError message code /\ (code = 400 \/ code = 409).
Proof.
  apply (registration_refusals scenarioIsEmail annRegistration store1
           (fst (registerParticipant scenarioIsEmail annRegistration store1))
           (AppError "Email already registered. Please login instead." 409)).
  reflexivity.
Defined.

Lemma find_app_r {A} (f : A -> bool) (l : list A) x :
  f x = true -> find f (l ++ [x]) <> None.
Proof.
  intros Hx. induction l as [|y l IH]; simpl.
  - now rewrite Hx.
  - destruct (f y); [discriminate | exact IH].
Qed.

(** What the schema makes of a body does not depend on the store. *)
Lemma participantRegistrationSchema_result isEmail b s s1 :
  snd (participantRegistrationSchema isEmail b s)
  = snd (participantRegistrationSchema isEmail b s1).
Proof.
  unfold participantRegistrationSchema.
  destruct (truthy (rFirstName b)); cbn; [|reflexivity].
  destruct (truthy (rLastName b)); cbn; [|reflexivity].
  destruct (isEmail (rEmail b)); cbn; [|reflexivity].
  destruct (truthy (rCountry b)); cbn; [|reflexivity].
  destruct (Tier.parse (rTier b)); [|reflexivity].
  destruct (truthy (rTurnstileToken b)); cbn; [|reflexivity].
  destruct (rAcceptTerms b); reflexivity.
Qed.

(** X6. An email registers once: after a registration has gone through, a
    registration with the same body is refused with 409 and writes
    nothing. *)
Theorem email_registers_once
  (isEmail : string -> bool) (b : RegistrationBody) (s s1 : Store)
  (res : Response) :
  registerParticipant isEmail b s = (s1, Ok res) ->
  registerParticipant isEmail b s1
  = (s1, Throw (AppError "Email already registered. Please login instead."
                         409)).
Proof.
  intros Hrun.
  destruct (participantRegistrationSchema_pure isEmail b s)
    as [(d & Hd & _)|(m & Hm)].
  2:{ rewrite registerParticipant_eq, Hm in Hrun. discriminate. }
  assert (Hd1 : participantRegistrationSchema isEmail b s1 = (s1, Ok d)).
  { pose proof (participantRegistrationSchema_result isEmail b s s1) as Hsame.
    rewrite Hd in Hsame. cbn in Hsame.
    destruct (participantRegistrationSchema_pure isEmail b s1)
      as [(d' & Hd' & _)|(m & Hm)].
    - rewrite Hd' in Hsame |- *. cbn in Hsame. congruence.
    - rewrite Hm in Hsame. discriminate. }
  assert (Husers : exists l,
             users s1 = (l ++ [User.mk (nextId s) (dEmail d) "PARTICIPANT"])%list).
  { rewrite registerParticipant_eq, Hd in Hrun.
    destruct (find _ (users s)); [discriminate|].
    destruct (referrerOf (dReferralCode d) s).
    - injection Hrun as <- _. eexists; reflexivity.
    - destruct (truthyOpt (dReferralCode d)); [discriminate|].
      injection Hrun as <- _. eexists; reflexivity. }
  destruct Husers as (l & Hl).
  rewrite registerParticipant_eq, Hd1.
  destruct (find (fun u => String.eqb (User.email u) (dEmail d)) (users s1))
    eqn:Hf; [reflexivity|].
  exfalso. rewrite Hl in Hf. revert Hf. apply find_app_r. cbn.
  apply String.eqb_refl.
Qed.

Lemma email_registers_once_witness :
  registerParticipant scenarioIsEmail annRegistration store1
  = (store1, Throw (AppError "Email already registered. Please login instead."
                             409)).
Proof.
  apply (email_registers_once scenarioIsEmail annRegistration store0 store1
           (mkResponse 201
              (RegistrationSuccessful 3 "ann@example.com" Tier.PREMIUM
                 ParticipantStatus.PENDING true))).
  reflexivity.
Defined.

(** A code that no APPROVED promoter holds has no referrer. *)
Lemma referrerOf_unapproved s code :
  (forall p, In p (promoters s) -> Promoter.referralCode p = code ->
             Promoter.status p <> PromoterStatus.APPROVED) ->
  referrerOf (Some code) s = None.
Proof.
  intros Hno. unfold referrerOf. destruct (truthy code); [|reflexivity].
  apply find_none_of_all. intros p Hp. unfold approvedWithCode.
  destruct (String.eqb_spec (Promoter.referralCode p) code) as [Hc|];
    [|reflexivity].
  specialize (Hno p Hp Hc). cbn.
  destruct (Promoter.status p); try reflexivity. congruence.
Qed.

(** X7. A registration whose body the schema accepts and whose email is
    new, but whose referral code is held by no APPROVED promoter (an
    unknown code, or the code of a promoter still PENDING or REJECTED), is
    refused with 400 "Invalid referral code" and writes nothing. *)
Theorem unapproved_code_refused
  (isEmail : string -> bool) (b : RegistrationBody) (s : Store)
  (d : RegistrationData) (code : string) :
  participantRegistrationSchema isEmail b s = (s, Ok d) ->
  (forall u, In u (users s) -> User.email u <> rEmail b) ->
  rReferralCode b = Some code -> truthy code = true ->
  (forall p, In p (promoters s) -> Promoter.referralCode p = code ->
             Promoter.status p <> PromoterStatus.APPROVED) ->
  registerParticipant isEmail b s
  = (s, Throw (AppError "Invalid referral code" 400)).
Proof.
  intros Hd Hnew Hcode Htruthy Hno.
  destruct (participantRegistrationSchema_pure isEmail b s)
    as [(d' & Hd' & _ & Hemail & Hc)|(m & Hm)]; [|congruence].
  assert (d' = d) by congruence. subst d'.
  rewrite registerParticipant_eq, Hd.
  rewrite find_none_of_all.
  2:{ intros u Hu. apply String.eqb_neq. rewrite Hemail. now apply Hnew. }
  rewrite Hc, Hcode, (referrerOf_unapproved s code Hno). cbn.
  now rewrite Htruthy.
Qed.

Lemma unapproved_code_refused_witness :
  map Promoter.status (promoters storeQuinn)
  = [PromoterStatus.APPROVED; PromoterStatus.PENDING]
  /\ registerParticipant scenarioIsEmail danRegistration storeQuinn
     = (storeQuinn, Throw (AppError "Invalid referral code" 400)).
Proof.
  split; [reflexivity|].
  apply (unapproved_code_refused scenarioIsEmail danRegistration storeQuinn
           (mkRegistrationData "dan@example.com" Tier.VIP (Some "REFK3J9ZQ"))
           "REFK3J9ZQ").
  - reflexivity.
  - intros u Hu. simpl in Hu. destruct Hu as [<-|[<-|[]]]; discriminate.
  - reflexivity.
  - reflexivity.
  - intros p Hp. simpl in Hp. destruct Hp as [<-|[<-|[]]]; discriminate.
Defined.

(** X8. A registration that goes through creates one user with role
    PARTICIPANT and one participant for it, APPROVED when the tier is FREE
    and PENDING when it is PREMIUM or VIP, with the supplied code as
    [referredBy]; it answers 201 with [needsPayment] set exactly for the
    paid tiers, and creates no payment and no checkout session. No user had
    the email before. *)
Theorem registration_creates_account
  (isEmail : string -> bool) (b : RegistrationBody) (s s' : Store)
  (res : Response) :
  registerParticipant isEmail b s = (s', Ok res) ->
  exists tier,
    Tier.parse (rTier b) = Some tier
    /\ (forall u, In u (users s) -> User.email u <> rEmail b)
    /\ users s' = (users s ++ [User.mk (nextId s) (rEmail b) "PARTICIPANT"])%list
    /\ participants s'
       = (participants s ++
          [Participant.mk (S (nextId s)) (nextId s) tier
             (if Tier.eqb tier Tier.FREE then ParticipantStatus.APPROVED
              else ParticipantStatus.PENDING)
             (rReferralCode b)])%list
    /\ payments s' = payments s
    /\ stripeSessions s' = stripeSessions s
    /\ res = mkResponse 201
               (RegistrationSuccessful (S (nextId s)) (rEmail b) tier
                  (if Tier.eqb tier Tier.FREE then ParticipantStatus.APPROVED
                   else ParticipantStatus.PENDING)
                  (negb (Tier.eqb tier Tier.FREE))).
Proof.
  intros Hrun. rewrite registerParticipant_eq in Hrun.
  destruct (participantRegistrationSchema_pure isEmail b s)
    as [(d & Hd & Htier & Hemail & Hc)|(m & Hm)].
  2:{ rewrite Hm in Hrun. discriminate. }
  rewrite Hd in Hrun.
  destruct (find _ (users s)) eqn:Hu; [discriminate|].
  exists (dTier d). split; [exact Htier|]. split.
  { intros u Hin. pose proof (find_none _ _ Hu u Hin) as Hne. cbn in Hne.
    apply String.eqb_neq in Hne. congruence. }
  assert (Hshape : forall referrer,
             users (registeredStore d referrer s)
             = (users s ++ [User.mk (nextId s) (rEmail b) "PARTICIPANT"])%list
             /\ participants (registeredStore d referrer s)
                = (participants s ++
                   [Participant.mk (S (nextId s)) (nextId s) (dTier d)
                      (if Tier.eqb (dTier d) Tier.FREE
                       then ParticipantStatus.APPROVED
                       else ParticipantStatus.PENDING)
                      (rReferralCode b)])%list
             /\ payments (registeredStore d referrer s) = payments s
             /\ stripeSessions (registeredStore d referrer s)
                = stripeSessions s
             /\ registrationResponse d s
                = mkResponse 201
                    (RegistrationSuccessful (S (nextId s)) (rEmail b) (dTier d)
                       (if Tier.eqb (dTier d) Tier.FREE
                        then ParticipantStatus.APPROVED
                        else ParticipantStatus.PENDING)
                       (negb (Tier.eqb (dTier d) Tier.FREE)))).
  { intros referrer. unfold registrationResponse, newParticipant. cbn.
    unfold newParticipant. rewrite Hemail, Hc. repeat split. }
  destruct (referrerOf (dReferralCode d) s) as [p|].
  - injection Hrun as <- <-. apply Hshape.
  - destruct (truthyOpt (dReferralCode d)); [discriminate|].
    injection Hrun as <- <-. apply Hshape.
Qed.

Lemma registration_creates_account_witness :
  exists tier,
    Tier.parse (rTier freeRegistration) = Some tier
    /\ (forall u, In u (users store0) -> User.email u <> rEmail freeRegistration)
    /\ users (fst (registerParticipant scenarioIsEmail freeRegistration store0))
       = (users store0 ++ [User.mk 2 "bo@example.com" "PARTICIPANT"])%list
    /\ participants
         (fst (registerParticipant scenarioIsEmail freeRegistration store0))
       = (participants store0 ++
          [Participant.mk 3 2 tier
             (if Tier.eqb tier Tier.FREE then ParticipantStatus.APPROVED
              else ParticipantStatus.PENDING)
             (Some "REFABC123")])%list
    /\ payments (fst (registerParticipant scenarioIsEmail freeRegistration
                        store0)) = payments store0
    /\ stripeSessions
         (fst (registerParticipant scenarioIsEmail freeRegistration store0))
       = stripeSessions store0
    /\ mkResponse 201
         (RegistrationSuccessful 3 "bo@example.com" Tier.FREE
            ParticipantStatus.APPROVED false)
       = mkResponse 201
           (RegistrationSuccessful 3 "bo@example.com" tier
              (if Tier.eqb tier Tier.FREE then ParticipantStatus.APPROVED
               else ParticipantStatus.PENDING)
              (negb (Tier.eqb tier Tier.FREE))).
Proof.
  exact (registration_creates_account scenarioIsEmail freeRegistration store0
           (fst (registerParticipant scenarioIsEmail freeRegistration store0))
           (mkResponse 201
              (RegistrationSuccessful 3 "bo@example.com" Tier.FREE
                 ParticipantStatus.APPROVED false))
           eq_refl).
Defined.

(* ===================================================================== *)
(** ** More on promoter applications *)
(* ===================================================================== *)

Lemma toUpperCase_length s : String.length (toUpperCase s) = String.length s.
Proof. induction s as [|c s IH]; simpl; [reflexivity | now rewrite IH]. Qed.

Lemma substring_length n m s :
  String.length (substring n m s) = Nat.min m (String.length s - n).
Proof.
  revert n m. induction s as [|c s IH]; intros n m.
  - destruct n, m; reflexivity.
  - destruct n as [|n].
    + destruct m as [|m]; simpl; [reflexivity|]. rewrite IH.
      now rewrite Nat.sub_0_r.
    + simpl. apply IH.
Qed.

Lemma toUpperCaseAscii_upper c :
  let n := nat_of_ascii (toUpperCaseAscii c) in
  (Nat.leb 97 n && Nat.leb n 122)%bool = false.
Proof.
  unfold toUpperCaseAscii. cbv zeta.
  destruct (Nat.leb 97 (nat_of_ascii c) && Nat.leb (nat_of_ascii c) 122)%bool
    eqn:E.
  - apply andb_prop in E. destruct E as [E1 E2].
    apply Nat.leb_le in E1, E2.
    rewrite nat_ascii_embedding by lia.
    apply andb_false_iff. left. apply Nat.leb_gt. lia.
  - exact E.
Qed.

Lemma toUpperCase_noLowerCase s : noLowerCase (toUpperCase s) = true.
Proof.
  induction s as [|c s IH]; cbn [toUpperCase noLowerCase]; [reflexivity|].
  pose proof (toUpperCaseAscii_upper c) as Hc. cbv zeta in Hc.
  rewrite Hc, IH. reflexivity.
Qed.

(** X9. A code [generateReferralCode] returns starts with REF, holds no
    lower-case letter, and is 3 to 9 characters long: "REF" and the (at
    most six) characters of the draw after its first two. A draw shorter
    than eight characters gives a shorter code, down to "REF" alone. *)
Theorem referral_code_format (draws : list string) (s s' : Store)
  (code : string) :
  generateReferralCode draws s = (s', Ok (Some code)) ->
  exists r,
    In r draws
    /\ code = "REF" ++ toUpperCase (substring 2 6 r)
    /\ prefix "REF" code = true
    /\ noLowerCase code = true
    /\ String.length code = 3 + Nat.min 6 (String.length r - 2).
Proof.
  rewrite generateReferralCode_eq. intros [= _ Hfind].
  apply find_some in Hfind. destruct Hfind as [Hin _].
  apply in_map_iff in Hin. destruct Hin as (r & <- & Hr).
  exists r. split; [exact Hr|]. split; [reflexivity|].
  unfold candidateCode.
  split; [now destruct (toUpperCase (substring 2 6 r))|]. split.
  - cbn. apply toUpperCase_noLowerCase.
  - cbn. now rewrite toUpperCase_length, substring_length.
Qed.

Lemma referral_code_format_witness :
  exists r,
    In r ["0.abc123xyz"; "0.i"]
    /\ "REFI" = "REF" ++ toUpperCase (substring 2 6 r)
    /\ prefix "REF" "REFI" = true
    /\ noLowerCase "REFI" = true
    /\ String.length "REFI" = 3 + Nat.min 6 (String.length r - 2).
Proof.
  exact (referral_code_format ["0.abc123xyz"; "0.i"] store0 store0 "REFI"
           eq_refl).
Defined.

(** X10. The promoter a successful application creates is PENDING, with
    the counters at their defaults, under the code the loop returned; until
    it is approved the code is worth nothing: a participant registration
    that supplies it is refused and writes nothing. *)
Theorem new_promoter_code_not_yet_valid
  (isEmail : string -> bool) (dRef dRev : Z) (draws : list string)
  (b : PromoterBody) (s s1 : Store) (res : Response) :
  registerPromoter isEmail dRef dRev draws b s = (s1, Ok (Some res)) ->
  exists code,
    promoters s1
    = (promoters s ++
       [Promoter.mk (S (nextId s)) (nextId s) PromoterStatus.PENDING code
                    dRef dRev])%list
    /\ res = mkResponse 201
               (ApplicationSubmitted (S (nextId s)) (pEmail b) code)
    /\ forall isEmail' b',
        rReferralCode b' = Some code ->
        exists e, registerParticipant isEmail' b' s1 = (s1, Throw e).
Proof.
  intros Hrun. rewrite registerPromoter_eq in Hrun.
  destruct (promoterRegistrationSchema_pure isEmail b s) as [Hd|(m & Hm)].
  2:{ rewrite Hm in Hrun. discriminate. }
  rewrite Hd in Hrun.
  destruct (find _ (users s)); [discriminate|].
  destruct (find (codeIsFree s) (map candidateCode draws)) as [code|] eqn:Hc;
    [|discriminate].
  injection Hrun as <- <-. exists code. split; [reflexivity|].
  split; [reflexivity|].
  intros isEmail' b' Hcode.
  apply find_some in Hc. destruct Hc as [Hin Hfree].
  assert (Hnone : referrerOf (Some code)
                    (appliedStore (pEmail b) code dRef dRev s) = None).
  { apply referrerOf_unapproved. cbn. intros p Hp Hpc.
    apply in_app_or in Hp. destruct Hp as [Hp|[<-|[]]].
    - exfalso. exact (codeIsFree_spec s code Hfree p Hp Hpc).
    - discriminate. }
  assert (Htruthy : truthy code = true).
  { apply in_map_iff in Hin. destruct Hin as (r & <- & _). reflexivity. }
  rewrite registerParticipant_eq.
  destruct (participantRegistrationSchema_pure isEmail' b'
              (appliedStore (pEmail b) code dRef dRev s))
    as [(d & Hd' & _ & _ & Hdc)|(m & Hm)].
  - rewrite Hd'. destruct (find _ (users _)); [eexists; reflexivity|].
    rewrite Hdc, Hcode, Hnone. cbn. rewrite Htruthy. eexists; reflexivity.
  - rewrite Hm. eexists; reflexivity.
Qed.

Lemma new_promoter_code_not_yet_valid_witness :
  exists code,
    promoters storeQuinn
    = (promoters store0 ++
       [Promoter.mk 3 2 PromoterStatus.PENDING code 0 0])%list
    /\ mkResponse 201 (ApplicationSubmitted 3 "quinn@example.com" "REFK3J9ZQ")
       = mkResponse 201 (ApplicationSubmitted 3 "quinn@example.com" code)
    /\ forall isEmail' b',
        rReferralCode b' = Some code ->
        exists e, registerParticipant isEmail' b' storeQuinn
                  = (storeQuinn, Throw e).
Proof.
  exact (new_promoter_code_not_yet_valid scenarioIsEmail 0 0 scenarioDraws
           quinnApplication store0 storeQuinn
           (mkResponse 201
              (ApplicationSubmitted 3 "quinn@example.com" "REFK3J9ZQ"))
           eq_refl).
Defined.

(* ===================================================================== *)
(** ** More on checkout sessions *)
(* ===================================================================== *)

(** X11. When [create-session] throws, nothing has been written: no payment
    row, no session at the provider, no audit log entry. It throws a 400
    for a body the schema rejects (the FREE tier among the cases) or a tier
    already paid, a 404 for an unknown participant, a 403 for the
    participant of another account, the provider's error when the
    provider call fails, and a TypeError when the user row of the
    participant is missing. *)
Theorem create_session_refusals
  (isUrl : string -> bool) (reply : option (string * string))
  (req : CreateSessionRequest) (s s' : Store) (e : Exn) :
  createSession isUrl reply req s = (s', Throw e) ->
  s' = s
  /\ ((exists message, e = AppError message 400)
      \/ e = AppError "Participant not found" 404
      \/ e = AppError "Unauthorized access to participant record" 403
      \/ (reply = None /\ e = StripeError "checkout session creation failed")
      \/ e = Error "Cannot read properties of null").
Proof.
  rewrite createSession_eq.
  destruct (createPaymentSessionSchema_pure isUrl (csBody req) s)
    as [(d & Hd & _)|(m & Hm)].
  2:{ rewrite Hm. cbn. intros [= <- <-]. split; [reflexivity|]. left. eauto. }
  rewrite Hd.
  destruct (find _ (participants s)) as [pt|];
    [|intros [= <- <-]; tauto].
  destruct (negb _); [intros [= <- <-]; tauto|].
  destruct (find _ (payments s)); [intros [= <- <-]; split; eauto|].
  destruct (find _ (users s)); [|intros [= <- <-]; tauto].
  destruct reply as [[sid url]|]; [discriminate|].
  intros [= <- <-]. tauto.
Qed.

Lemma create_session_refusals_witness :
  fst (createSession scenarioIsUrl None annCheckout store1) = store1
  /\ ((exists message,
          StripeError "checkout session creation failed"
          = AppError message 400)
      \/ StripeError "checkout session creation failed"
         = AppError "Participant not found" 404
      \/ StripeError "checkout session creation failed"
         = AppError "Unauthorized access to participant record" 403
      \/ (@None (string * string) = None
          /\ StripeError "checkout session creation failed"
             = StripeError "checkout session creation failed")
      \/ StripeError "checkout session creation failed"
         = Error "Cannot read properties of null").
Proof.
  exact (create_session_refusals scenarioIsUrl None annCheckout store1
           (fst (createSession scenarioIsUrl None annCheckout store1))
           (StripeError "checkout session creation failed") eq_refl).
Defined.

(** X12. A checkout session can only be opened for the participant record
    of the caller: when the participant asked for does not exist, or
    belongs to another account, a well-formed request is refused with 404
    or 403 and nothing is written. *)
Theorem create_session_only_for_own_participant
  (isUrl : string -> bool) (reply : option (string * string))
  (req : CreateSessionRequest) (s : Store) (d : CreateSessionData) :
  createPaymentSessionSchema isUrl (csBody req) s = (s, Ok d) ->
  (forall p, In p (participants s) ->
             Participant.id p = csParticipantId (csBody req) ->
             Participant.userId p <> csUser req) ->
  createSession isUrl reply req s
  = (s, Throw (AppError "Participant not found" 404))
  \/ createSession isUrl reply req s
     = (s, Throw (AppError "Unauthorized access to participant record" 403)).
Proof.
  intros Hd Hother.
  destruct (createPaymentSessionSchema_pure isUrl (csBody req) s)
    as [(d' & Hd' & _ & Hid & _)|(m & Hm)]; [|congruence].
  assert (d' = d) by congruence. subst d'.
  rewrite createSession_eq, Hd.
  destruct (find _ (participants s)) as [pt|] eqn:Hpt; [|now left].
  right. apply find_some in Hpt. destruct Hpt as [Hin Hpid].
  apply Nat.eqb_eq in Hpid. cbn in Hpid.
  assert (Hne : Participant.userId pt <> csUser req).
  { apply Hother; [exact Hin | congruence]. }
  apply Nat.eqb_neq in Hne. now rewrite Hne.
Qed.

Lemma create_session_only_for_own_participant_witness :
  createSession scenarioIsUrl annReply
    (mkCreateSessionRequest 0 (csBody annCheckout)) store1
  = (store1, Throw (AppError "Participant not found" 404))
  \/ createSession scenarioIsUrl annReply
       (mkCreateSessionRequest 0 (csBody annCheckout)) store1
     = (store1,
        Throw (AppError "Unauthorized access to participant record" 403)).
Proof.
  apply (create_session_only_for_own_participant scenarioIsUrl annReply
           (mkCreateSessionRequest 0 (csBody annCheckout)) store1
           (mkCreateSessionData PaidTier.PREMIUM 3 "https://hunt.example/ok"
                                "https://hunt.example/cancel")).
  - reflexivity.
  - intros p Hp _. simpl in Hp. destruct Hp as [<-|[]]. discriminate.
Defined.

Lemma find_app_new {A} (f : A -> bool) (l : list A) x :
  (forall y, In y l -> f y = false) -> f x = true ->
  find f (l ++ [x]) = Some x.
Proof.
  intros Hl Hx. rewrite (find_first_after f l [] x Hl Hx). reflexivity.
Qed.

Lemma Tier_parse_toString tier :
  Tier.parse (Tier.toString tier) = Some tier.
Proof. now destruct tier. Qed.

(** The store a paid checkout leaves: the session is created on a session
    id no payment carries yet, and the provider's completed event for it,
    with the metadata the session was given, is processed. *)
Lemma paid_checkout isUrl sessionId url req s s1 res now intent :
  createSession isUrl (Some (sessionId, url)) req s = (s1, Ok res) ->
  (forall p, In p (payments s) -> Payment.stripeSessionId p <> sessionId) ->
  referralsHavePromoter s ->
  exists d participant user,
    createPaymentSessionSchema isUrl (csBody req) s = (s, Ok d)
    /\ find (hasId participantTable (vParticipantId d)) (participants s)
       = Some participant
    /\ Participant.userId participant = csUser req
    /\ s1 = sessionStore sessionId url d (csUser req) participant user s
    /\ res = mkResponse 200
               (SessionCreated sessionId url (nextId s)
                  (TIER_PRICES (vTier d))
                  (Tier.toString (PaidTier.toTier (vTier d))))
    /\ let event := completedSessionOf
                      (sessionCreated sessionId url d participant user)
                      intent in
       handleCheckoutSessionCompleted now event s1
       = (committedStore now event
            (pendingPayment sessionId d participant (nextId s))
            (PaidTier.toTier (vTier d)) (matchingReferral event s1) s1,
          Ok tt).
Proof.
  intros Hrun Hfresh Hprom. rewrite createSession_eq in Hrun.
  destruct (createPaymentSessionSchema_pure isUrl (csBody req) s)
    as [(d & Hd & _)|(m & Hm)].
  2:{ rewrite Hm in Hrun. discriminate. }
  rewrite Hd in Hrun.
  destruct (find _ (participants s)) as [pt|] eqn:Hpt; [|discriminate].
  destruct (Nat.eqb (Participant.userId pt) (csUser req)) eqn:Hown;
    [|discriminate].
  cbn [negb] in Hrun.
  destruct (find _ (payments s)) eqn:Hex; [discriminate|].
  destruct (find _ (users s)) as [user|] eqn:Hu; [|discriminate].
  injection Hrun as <- <-.
  exists d, pt, user. split; [exact Hd|]. split; [exact Hpt|].
  split; [now apply Nat.eqb_eq|]. split; [reflexivity|].
  split; [reflexivity|]. cbv zeta.
  apply handleCheckoutSessionCompleted_commits.
  - cbn. apply find_app_new.
    + intros p Hp. apply String.eqb_neq. now apply Hfresh.
    + cbn. apply String.eqb_refl.
  - cbn. apply Tier_parse_toString.
  - exact (find_some_hasId participantTable _ _ pt Hpt).
  - intros r Hr. unfold matchingReferral in Hr. cbn in Hr.
    destruct (truthy _); [|discriminate].
    apply find_some in Hr. destruct Hr as [Hin _]. now apply Hprom.
Qed.

Lemma find_some_not_none {A} (f : A -> bool) (l : list A) x :
  In x l -> f x = true -> find f l <> None.
Proof.
  intros Hin Hx Hnone. rewrite (find_none f l Hnone x Hin) in Hx. discriminate.
Qed.

Lemma createPaymentSessionSchema_result isUrl b s s1 d :
  createPaymentSessionSchema isUrl b s = (s, Ok d) ->
  createPaymentSessionSchema isUrl b s1 = (s1, Ok d).
Proof.
  unfold createPaymentSessionSchema.
  destruct (PaidTier.parse (csTier b)); [|discriminate].
  destruct (isUrl (csSuccessUrl b)); cbn; [|discriminate].
  destruct (isUrl (csCancelUrl b)); cbn; [|discriminate].
  now intros [= <-].
Qed.

(** X13. Checkout round trip. When [create-session] goes through on a
    session id no payment carries yet, the provider holds a session whose
    amount is the tier price in cents; and the completed event the provider
    sends for that session, echoing its metadata, is committed: the payment
    of the session is COMPLETED with the event's payment intent, and the
    participant asked for is ACTIVE with the tier paid for. *)
Theorem checkout_round_trip
  (isUrl : string -> bool) (sessionId url : string)
  (req : CreateSessionRequest) (s s1 : Store) (res : Response)
  (now : nat) (intent : string) :
  createSession isUrl (Some (sessionId, url)) req s = (s1, Ok res) ->
  (forall p, In p (payments s) -> Payment.stripeSessionId p <> sessionId) ->
  referralsHavePromoter s ->
  exists cs tier s2,
    stripeSessions s1 = (stripeSessions s ++ [cs])%list
    /\ CheckoutSession.id cs = sessionId
    /\ PaidTier.parse (csTier (csBody req)) = Some tier
    /\ CheckoutSession.unit_amount cs = (TIER_PRICES tier * 100)%Z
    /\ handleCheckoutSessionCompleted now (completedSessionOf cs intent) s1
       = (s2, Ok tt)
    /\ (exists p, In p (payments s2)
                  /\ Payment.id p = nextId s
                  /\ Payment.userId p = csUser req
                  /\ Payment.participantId p = csParticipantId (csBody req)
                  /\ Payment.stripeSessionId p = sessionId
                  /\ Payment.stripePaymentIntentId p = intent
                  /\ Payment.amount p = TIER_PRICES tier
                  /\ Payment.tier p = PaidTier.toTier tier
                  /\ Payment.status p = PaymentStatus.COMPLETED)
    /\ (forall p, In p (participants s2) ->
                  Participant.id p = csParticipantId (csBody req) ->
                  Participant.status p = ParticipantStatus.ACTIVE
                  /\ Participant.tier p = PaidTier.toTier tier).
Proof.
  intros Hrun Hfresh Hprom.
  destruct (paid_checkout isUrl sessionId url req s s1 res now intent
              Hrun Hfresh Hprom)
    as (d & pt & user & Hd & Hpt & Hown & Hs1 & _ & Hdone).
  cbv zeta in Hdone.
  destruct (createPaymentSessionSchema_pure isUrl (csBody req) s)
    as [(d' & Hd' & Htier & Hid & _)|(m & Hm)]; [|congruence].
  assert (d' = d) by congruence. subst d'.
  pose proof (find_some _ _ Hpt) as [Hin Hpid].
  apply Nat.eqb_eq in Hpid. cbn in Hpid.
  eexists _, (vTier d), _. split; [subst s1; reflexivity|].
  split; [reflexivity|]. split; [exact Htier|]. split; [reflexivity|].
  split; [exact Hdone|]. split.
  - exists (completePayment intent
              (pendingPayment sessionId d pt (nextId s))).
    split.
    + subst s1. cbn. unfold updateRows. apply in_map_iff.
      exists (pendingPayment sessionId d pt (nextId s)). split.
      * cbn. now rewrite Nat.eqb_refl.
      * apply in_or_app. right. now left.
    + cbn. repeat split; congruence.
  - subst s1. cbn. intros p Hp Hpeq.
    apply in_map_iff in Hp. destruct Hp as (x & <- & Hx). revert Hpeq.
    destruct (Nat.eqb (Participant.id x) (Participant.id pt)) eqn:E; intros.
    + now cbn.
    + apply Nat.eqb_neq in E. congruence.
Qed.

Lemma checkout_round_trip_witness :
  exists cs tier s2,
    stripeSessions store2 = (stripeSessions store1 ++ [cs])%list
    /\ CheckoutSession.id cs = "cs_1"
    /\ PaidTier.parse (csTier (csBody annCheckout)) = Some tier
    /\ CheckoutSession.unit_amount cs = (TIER_PRICES tier * 100)%Z
    /\ handleCheckoutSessionCompleted 10 (completedSessionOf cs "pi_1") store2
       = (s2, Ok tt)
    /\ (exists p, In p (payments s2)
                  /\ Payment.id p = nextId store1
                  /\ Payment.userId p = csUser annCheckout
                  /\ Payment.participantId p
                     = csParticipantId (csBody annCheckout)
                  /\ Payment.stripeSessionId p = "cs_1"
                  /\ Payment.stripePaymentIntentId p = "pi_1"
                  /\ Payment.amount p = TIER_PRICES tier
                  /\ Payment.tier p = PaidTier.toTier tier
                  /\ Payment.status p = PaymentStatus.COMPLETED)
    /\ (forall p, In p (participants s2) ->
                  Participant.id p = csParticipantId (csBody annCheckout) ->
                  Participant.status p = ParticipantStatus.ACTIVE
                  /\ Participant.tier p = PaidTier.toTier tier).
Proof.
  eapply (checkout_round_trip scenarioIsUrl "cs_1" "https://pay.example/cs_1"
            annCheckout store1 store2 _ 10 "pi_1").
  - vm_compute. reflexivity.
  - intros p [].
  - intros r Hr. simpl in Hr. destruct Hr as [<-|[]]. vm_compute.
    discriminate.
Defined.

(** X14. A tier is paid for once. After a checkout that has gone through
    and been reported completed, the same [create-session] request is
    refused with 400 whatever the provider would answer, and nothing is
    written. *)
Theorem paid_tier_is_not_sold_again
  (isUrl : string -> bool) (sessionId url : string)
  (req : CreateSessionRequest) (s s1 s2 : Store) (res : Response)
  (now : nat) (intent : string) (cs : CheckoutSession.t)
  (reply : option (string * string)) :
  createSession isUrl (Some (sessionId, url)) req s = (s1, Ok res) ->
  (forall p, In p (payments s) -> Payment.stripeSessionId p <> sessionId) ->
  referralsHavePromoter s ->
  stripeSessions s1 = (stripeSessions s ++ [cs])%list ->
  handleCheckoutSessionCompleted now (completedSessionOf cs intent) s1
  = (s2, Ok tt) ->
  createSession isUrl reply req s2
  = (s2, Throw (AppError "Payment already completed for this tier" 400)).
Proof.
  intros Hrun Hfresh Hprom Hcs Hdone.
  destruct (paid_checkout isUrl sessionId url req s s1 res now intent
              Hrun Hfresh Hprom)
    as (d & pt & user & Hd & Hpt & Hown & Hs1 & _ & Hdone').
  cbv zeta in Hdone'.
  assert (cs = sessionCreated sessionId url d pt user) as ->.
  { subst s1. cbn in Hcs. now apply app_inv_head in Hcs as [= <-]. }
  rewrite Hdone' in Hdone. injection Hdone as <-.
  pose proof (find_some _ _ Hpt) as [Hin Hpid].
  apply Nat.eqb_eq in Hpid. cbn in Hpid.
  rewrite createSession_eq.
  rewrite (createPaymentSessionSchema_result isUrl (csBody req) s _ d Hd).
  subst s1. cbn [participants payments committedStore sessionStore].
  rewrite find_updateRows by reflexivity. rewrite Hpt. cbn [option_map].
  cbn [completedSessionOf Session.metadata sessionCreated
       CheckoutSession.metadata sessionMetadata Metadata.participantId
       participantTable rowId].
  rewrite Hpid, Nat.eqb_refl.
  cbn [activateParticipant Participant.userId Participant.id].
  apply Nat.eqb_eq in Hown. rewrite Hown. cbn [negb].
  match goal with
  | |- context [find ?f ?l] =>
      destruct (find f l) eqn:Hfind; [reflexivity|exfalso]
  end.
  revert Hfind.
  apply (find_some_not_none _ _
           (completePayment intent
              (pendingPayment sessionId d pt (nextId s)))).
  - unfold updateRows. apply in_map_iff.
    exists (pendingPayment sessionId d pt (nextId s)). split.
    + cbn. now rewrite Nat.eqb_refl.
    + apply in_or_app. right. now left.
  - unfold completedFor. cbn. rewrite Hpid, Nat.eqb_refl.
    now destruct (vTier d).
Qed.

Lemma paid_tier_is_not_sold_again_witness :
  createSession scenarioIsUrl None annCheckout store3
  = (store3, Throw (AppError "Payment already completed for this tier" 400)).
Proof.
  eapply (paid_tier_is_not_sold_again scenarioIsUrl "cs_1"
            "https://pay.example/cs_1" annCheckout store1 store2 store3 _
            10 "pi_1" _ None).
  - vm_compute. reflexivity.
  - intros p [].
  - intros r Hr. simpl in Hr. destruct Hr as [<-|[]]. vm_compute.
    discriminate.
  - vm_compute. reflexivity.
  - vm_compute. reflexivity.
Defined.

Lemma sessionStatus_eq retrieved user sessionId s :
  sessionStatus retrieved user sessionId s
  = match find (fun p => String.eqb (Payment.stripeSessionId p) sessionId
                         && Nat.eqb (Payment.userId p) user) (payments s) with
    | None => (s, Throw (AppError "Payment session not found" 404))
    | Some payment =>
        match retrieved with
        | None => (s, Throw (StripeError "checkout session retrieval failed"))
        | Some session =>
            match find (hasId participantTable (Payment.participantId payment))
                       (participants s) with
            | None => (s, Throw (Error "Cannot read properties of null"))
            | Some participant =>
                (s, Ok (mkSessionStatus (Payment.id payment)
                          (Payment.status payment) (Payment.amount payment)
                          (Payment.tier payment) session
                          (Participant.id participant)
                          (Participant.tier participant)
                          (Participant.status participant)))
            end
        end
    end.
Proof.
  unfold sessionStatus, bind, findFirst, throw, ret. cbn.
  destruct (find _ (payments s)) as [payment|]; [|reflexivity].
  destruct retrieved; [|reflexivity]. cbn.
  now destruct (find _ (participants s)).
Qed.

(** X15. The session status route reads and never writes, and shows a
    payment only to the account that owns it: an answer reports a payment
    row of the caller with the session id asked for, and a session id that
    only payments of other accounts carry is answered 404 like an unknown
    one, before the provider is asked. *)
Theorem session_status_owner_only
  (retrieved : option RetrievedSession) (user : Id) (sessionId : string)
  (s : Store) :
  fst (sessionStatus retrieved user sessionId s) = s
  /\ (forall st,
        snd (sessionStatus retrieved user sessionId s) = Ok st ->
        retrieved = Some (ssSession st)
        /\ exists payment,
             In payment (payments s)
             /\ Payment.userId payment = user
             /\ Payment.stripeSessionId payment = sessionId
             /\ ssPaymentId st = Payment.id payment
             /\ ssPaymentStatus st = Payment.status payment
             /\ ssAmount st = Payment.amount payment
             /\ ssTier st = Payment.tier payment
             /\ ssParticipantId st = Payment.participantId payment)
  /\ ((forall p, In p (payments s) ->
                 Payment.stripeSessionId p = sessionId ->
                 Payment.userId p <> user) ->
      snd (sessionStatus retrieved user sessionId s)
      = Throw (AppError "Payment session not found" 404)).
Proof.
  rewrite sessionStatus_eq.
  destruct (find _ (payments s)) as [payment|] eqn:Hpay.
  - apply find_some in Hpay. destruct Hpay as [Hin Hmatch].
    apply andb_true_iff in Hmatch. destruct Hmatch as [Hsid Huser].
    apply String.eqb_eq in Hsid. apply Nat.eqb_eq in Huser.
    split; [|split].
    + destruct retrieved; [|reflexivity].
      now destruct (find _ (participants s)).
    + intros st. destruct retrieved as [session|]; [|discriminate].
      destruct (find _ (participants s)) as [pt|] eqn:Hpt; [|discriminate].
      cbn. intros [= <-]. cbn. split; [reflexivity|].
      apply find_some in Hpt. destruct Hpt as [_ Hpid].
      apply Nat.eqb_eq in Hpid. cbn in Hpid.
      exists payment. repeat split; assumption.
    + intros Hother. exfalso. exact (Hother payment Hin Hsid Huser).
  - split; [reflexivity|]. split; [discriminate|reflexivity].
Qed.

(** X16. After a checkout that has gone through and been reported
    completed, the status route shows the caller the payment COMPLETED at
    the tier price and the participant ACTIVE with the tier paid for. *)
Theorem session_status_after_checkout
  (isUrl : string -> bool) (sessionId url : string)
  (req : CreateSessionRequest) (s s1 s2 : Store) (res : Response)
  (now : nat) (intent : string) (cs : CheckoutSession.t)
  (tier : PaidTier.t) (retrieved : RetrievedSession) :
  createSession isUrl (Some (sessionId, url)) req s = (s1, Ok res) ->
  (forall p, In p (payments s) -> Payment.stripeSessionId p <> sessionId) ->
  referralsHavePromoter s ->
  stripeSessions s1 = (stripeSessions s ++ [cs])%list ->
  PaidTier.parse (csTier (csBody req)) = Some tier ->
  handleCheckoutSessionCompleted now (completedSessionOf cs intent) s1
  = (s2, Ok tt) ->
  sessionStatus (Some retrieved) (csUser req) sessionId s2
  = (s2, Ok (mkSessionStatus (nextId s) PaymentStatus.COMPLETED
               (TIER_PRICES tier) (PaidTier.toTier tier) retrieved
               (csParticipantId (csBody req)) (PaidTier.toTier tier)
               ParticipantStatus.ACTIVE)).
Proof.
  intros Hrun Hfresh Hprom Hcs Htier Hdone.
  destruct (paid_checkout isUrl sessionId url req s s1 res now intent
              Hrun Hfresh Hprom)
    as (d & pt & user & Hd & Hpt & Hown & Hs1 & _ & Hdone').
  cbv zeta in Hdone'.
  assert (cs = sessionCreated sessionId url d pt user) as ->.
  { subst s1. cbn in Hcs. now apply app_inv_head in Hcs as [= <-]. }
  rewrite Hdone' in Hdone. injection Hdone as <-.
  destruct (createPaymentSessionSchema_pure isUrl (csBody req) s)
    as [(d' & Hd' & Htier' & Hid & _)|(m & Hm)]; [|congruence].
  assert (d' = d) by congruence. subst d'.
  assert (vTier d = tier) as Hvt by congruence.
  pose proof (find_some _ _ Hpt) as [Hin Hpid].
  apply Nat.eqb_eq in Hpid. cbn in Hpid.
  rewrite sessionStatus_eq.
  subst s1. cbn [participants payments committedStore sessionStore].
  rewrite find_updateRows by reflexivity.
  rewrite (find_app_new _ (payments s)
             (pendingPayment sessionId d pt (nextId s))).
  2:{ intros p Hp. apply andb_false_iff. left. apply String.eqb_neq.
      now apply Hfresh. }
  2:{ cbn. rewrite String.eqb_refl. now apply Nat.eqb_eq. }
  cbn [option_map paymentTable rowId pendingPayment Payment.id].
  rewrite Nat.eqb_refl.
  cbn [completePayment Payment.participantId Payment.id Payment.status
       Payment.amount Payment.tier].
  rewrite find_updateRows by reflexivity.
  cbn [completedSessionOf Session.metadata sessionCreated
       CheckoutSession.metadata sessionMetadata Metadata.participantId].
  cbn [pendingPayment Payment.participantId Payment.id Payment.amount
       Payment.tier].
  rewrite <- Hpid in Hpt. rewrite Hpt. cbn [option_map participantTable rowId].
  rewrite Nat.eqb_refl. cbn. now rewrite Hpid, Hid, Hvt.
Qed.

Lemma session_status_after_checkout_witness :
  sessionStatus (Some (mkRetrievedSession "cs_1" "complete" "paid"
                         "https://pay.example/cs_1"))
                (csUser annCheckout) "cs_1" store3
  = (store3,
     Ok (mkSessionStatus (nextId store1) PaymentStatus.COMPLETED
           (TIER_PRICES PaidTier.PREMIUM) (PaidTier.toTier PaidTier.PREMIUM)
           (mkRetrievedSession "cs_1" "complete" "paid"
              "https://pay.example/cs_1")
           (csParticipantId (csBody annCheckout))
           (PaidTier.toTier PaidTier.PREMIUM) ParticipantStatus.ACTIVE)).
Proof.
  eapply (session_status_after_checkout scenarioIsUrl "cs_1"
            "https://pay.example/cs_1" annCheckout store1 store2 store3 _
            10 "pi_1" _ PaidTier.PREMIUM).
  - vm_compute. reflexivity.
  - intros p [].
  - intros r Hr. simpl in Hr. destruct Hr as [<-|[]]. vm_compute.
    discriminate.
  - vm_compute. reflexivity.
  - reflexivity.
  - vm_compute. reflexivity.
Defined.

Lemma session_status_owner_only_witness :
  snd (sessionStatus None 0 "cs_1" store2)
  = Throw (AppError "Payment session not found" 404).
Proof.
  apply (proj2 (proj2 (session_status_owner_only None 0 "cs_1" store2))).
  intros p Hp _. simpl in Hp. destruct Hp as [<-|[]]. discriminate.
Defined.

(* ===================================================================== *)
(** ** Paginated lists *)
(* ===================================================================== *)

Lemma orDefault_nonzero parsed d : d <> 0%Z -> orDefault parsed d <> 0%Z.
Proof.
  unfold orDefault. intros Hd. destruct parsed as [n|]; [|exact Hd].
  destruct (Z.eqb n 0) eqn:E; [exact Hd | now apply Z.eqb_neq].
Qed.

Lemma firstn_In {A} (n : nat) (l : list A) x : In x (firstn n l) -> In x l.
Proof.
  intros H. rewrite <- (firstn_skipn n l). apply in_or_app. now left.
Qed.

Lemma In_skipn {A} (n : nat) (l : list A) x : In x (skipn n l) -> In x l.
Proof.
  intros H. rewrite <- (firstn_skipn n l). apply in_or_app. now right.
Qed.

Lemma window_rows {R} (l rows : list R) skip take :
  window l skip take = Ok rows ->
  (forall x, In x rows -> In x l) /\ length rows <= Z.abs_nat take.
Proof.
  unfold window. destruct (Z.ltb skip 0); [discriminate|].
  destruct (Z.leb 0 take) eqn:Htake; intros [= <-].
  - split.
    + intros x Hx. apply firstn_In in Hx.
      exact (In_skipn _ _ _ Hx).
    + rewrite length_firstn. apply Z.leb_le in Htake. lia.
  - split.
    + intros x Hx. apply in_rev in Hx. apply firstn_In in Hx.
      apply in_rev. exact (In_skipn _ _ _ Hx).
    + rewrite length_rev, length_firstn. apply Z.leb_gt in Htake. lia.
Qed.

(** X17. The payment history reads and never writes. A page holds payments
    of the caller only, each one a row of the store, and no more of them
    than the size of the limit it reports; that limit is never zero and
    never above 50, so a page asked for with a limit that is not negative
    holds at most 50 payments. The page number reported is never zero. *)
Theorem history_page_bounds
  (user : Id) (page limit : option Z) (s : Store) :
  fst (paymentHistory user page limit s) = s
  /\ forall rows pg,
       snd (paymentHistory user page limit s) = Ok (rows, pg) ->
       (forall p, In p (map fst rows) ->
                  In p (payments s) /\ Payment.userId p = user)
       /\ length rows <= Z.abs_nat (pgLimit pg)
       /\ (pgLimit pg <= 50)%Z /\ pgLimit pg <> 0%Z /\ pgPage pg <> 0%Z
       /\ ((0 <= pgLimit pg)%Z -> length rows <= 50)
       /\ pgTotal pg
          = Z.of_nat (length (filter (ownedBy user) (payments s))).
Proof.
  unfold paymentHistory. cbv zeta.
  destruct (window _ _ _) as [rows0|e] eqn:Hw; cbn; [|split; [easy|]; easy].
  split; [reflexivity|]. intros rows pg [= <- <-]. cbn.
  apply window_rows in Hw. destruct Hw as [Hin Hlen].
  assert (Hnz : limitOf limit 10 50 <> 0%Z).
  { unfold limitOf.
    pose proof (orDefault_nonzero limit 10 ltac:(lia)). lia. }
  assert (Hcap : (limitOf limit 10 50 <= 50)%Z) by (unfold limitOf; lia).
  rewrite length_map. split; [|repeat split].
  - intros p Hp. rewrite map_map in Hp. cbn in Hp. rewrite map_id in Hp.
    apply Hin, in_rev, filter_In in Hp. destruct Hp as [Hp Hu].
    split; [exact Hp | now apply Nat.eqb_eq].
  - exact Hlen.
  - exact Hcap.
  - exact Hnz.
  - apply orDefault_nonzero. lia.
  - intros Hpos. lia.
Qed.

Lemma chunks_cover {A} (L : nat) (l : list A) (n : nat) :
  length l <= n * L ->
  flat_map (fun k => firstn L (skipn (k * L) l)) (seq 0 n) = l.
Proof.
  revert l. induction n as [|n IH]; intros l Hlen.
  - destruct l; [reflexivity | simpl in Hlen; lia].
  - cbn [seq flat_map]. rewrite <- seq_shift, flat_map_concat_map, map_map.
    rewrite <- flat_map_concat_map.
    rewrite (flat_map_ext _ (fun k => firstn L (skipn (k * L) (skipn L l)))).
    + rewrite IH; [apply firstn_skipn|]. rewrite length_skipn. lia.
    + intros k. rewrite skipn_skipn. f_equal. f_equal. lia.
Qed.

Lemma ceilDiv_covers (a b : Z) :
  (0 <= a)%Z -> (0 < b)%Z ->
  (0 <= ceilDiv a b)%Z /\ (a <= ceilDiv a b * b)%Z.
Proof.
  intros Ha Hb. unfold ceilDiv.
  pose proof (Z.mul_div_le (- a) b Hb).
  assert ((- a) / b <= 0)%Z by (apply Z.div_le_upper_bound; lia).
  split; nia.
Qed.

(** X18. Paging through the payment history with a positive limit shows
    every payment of the caller exactly once, newest first: the pages from 1
    to the page count the route reports, one after the other, are the
    caller's payments in the reverse of the order they were created in. *)
Theorem history_pages_cover
  (user : Id) (limit : option Z) (s : Store) :
  (0 < orDefault limit 10)%Z ->
  historyPages user limit s
    (Z.to_nat (ceilDiv (Z.of_nat (length (filter (ownedBy user) (payments s))))
                       (limitOf limit 10 50)))
  = rev (filter (ownedBy user) (payments s)).
Proof.
  intros Hpos.
  set (mine := filter (ownedBy user) (payments s)).
  set (lim := limitOf limit 10 50).
  assert (Hlim : (0 < lim)%Z) by (unfold lim, limitOf; lia).
  destruct (ceilDiv_covers (Z.of_nat (length mine)) lim ltac:(lia) Hlim)
    as [Hn0 Hn].
  set (n := Z.to_nat (ceilDiv (Z.of_nat (length mine)) lim)) in *.
  unfold historyPages. rewrite <- seq_shift, flat_map_concat_map, map_map.
  rewrite <- flat_map_concat_map.
  rewrite (flat_map_ext _
             (fun k => firstn (Z.to_nat lim)
                         (skipn (k * Z.to_nat lim) (rev mine)))).
  - apply chunks_cover. rewrite length_rev. subst n. nia.
  - intros k. unfold historyPage, paymentHistory. cbv zeta.
    fold mine. fold lim.
    assert (Hpage : pageOf (Some (Z.of_nat (S k))) = Z.of_nat (S k)).
    { unfold pageOf, orDefault.
      destruct (Z.eqb (Z.of_nat (S k)) 0) eqn:E; [|reflexivity].
      apply Z.eqb_eq in E. lia. }
    rewrite Hpage. unfold window.
    destruct (Z.ltb ((Z.of_nat (S k) - 1) * lim) 0) eqn:Hskip;
      [apply Z.ltb_lt in Hskip; nia|].
    destruct (Z.leb 0 lim) eqn:Htake; [|apply Z.leb_gt in Htake; lia].
    cbn [snd]. rewrite map_map. cbn [fst]. rewrite map_id.
    f_equal. f_equal. nia.
Qed.

Lemma history_pages_cover_witness :
  historyPages 2 (Some 1%Z) store3
    (Z.to_nat (ceilDiv (Z.of_nat (length (filter (ownedBy 2)
                                            (payments store3))))
                       (limitOf (Some 1%Z) 10 50)))
  = rev (filter (ownedBy 2) (payments store3)).
Proof.
  apply (history_pages_cover 2 (Some 1%Z) store3). reflexivity.
Defined.

(** X19. The referral list of a promoter reads and never writes. An
    account that is no promoter is answered 404; a promoter is shown
    referrals attributed to its own promoter row only, no more of them than
    the size of the limit reported, which is never zero and never above
    100. *)
Theorem promoter_referrals_own_only
  (user : Id) (page limit : option Z) (s : Store) :
  fst (promoterReferrals user page limit s) = s
  /\ ((forall p, In p (promoters s) -> Promoter.userId p <> user) ->
      snd (promoterReferrals user page limit s)
      = Throw (AppError "Promoter not found" 404))
  /\ forall rows pg,
       snd (promoterReferrals user page limit s) = Ok (rows, pg) ->
       exists promoter,
         In promoter (promoters s)
         /\ Promoter.userId promoter = user
         /\ (forall r, In r rows ->
                       In r (referrals s)
                       /\ Referral.promoterId r = Promoter.id promoter)
         /\ length rows <= Z.abs_nat (pgLimit pg)
         /\ (pgLimit pg <= 100)%Z /\ pgLimit pg <> 0%Z.
Proof.
  unfold promoterReferrals, bind, findFirst, throw. cbv zeta. cbn.
  destruct (find _ (promoters s)) as [promoter|] eqn:Hp.
  - apply find_some in Hp. destruct Hp as [Hin Hu]. apply Nat.eqb_eq in Hu.
    destruct (window _ _ _) as [rows0|e] eqn:Hw; cbn.
    + split; [reflexivity|]. split.
      * intros Hno. now destruct (Hno promoter Hin).
      * intros rows pg [= <- <-]. cbn. exists promoter.
        apply window_rows in Hw. destruct Hw as [Hrows Hlen].
        split; [exact Hin|]. split; [exact Hu|]. split; [|split; [exact Hlen|]].
        -- intros r Hr. apply Hrows, in_rev, filter_In in Hr.
           destruct Hr as [Hr Ha]. split; [exact Hr|].
           unfold attributedTo in Ha. now apply Nat.eqb_eq in Ha.
        -- unfold limitOf.
           pose proof (orDefault_nonzero limit 20 ltac:(lia)). lia.
    + split; [reflexivity|]. split; [|discriminate].
      intros Hno. now destruct (Hno promoter Hin).
  - split; [reflexivity|]. split; [reflexivity | discriminate].
Qed.

Lemma promoter_referrals_own_only_witness :
  snd (promoterReferrals 2 None None store3)
  = Throw (AppError "Promoter not found" 404).
Proof.
  apply (proj1 (proj2 (promoter_referrals_own_only 2 None None store3))).
  intros p Hp. simpl in Hp. destruct Hp as [<-|[]]. discriminate.
Defined.

(* ===================================================================== *)
(** ** The middlewares *)
(* ===================================================================== *)

Section AuthProofs.
Variable jwtSecret : option string.
Variable jwtVerify : string -> string -> JwtVerify.

(** X20. [authenticate] lets a request through only when its header starts
    with the Bearer scheme, the token after it verifies under the
    configured secret, and the user the token names still has a row; the
    email and the role attached to the request are those of that row, not
    of the token. *)
Theorem authenticate_attaches_current_user
  (authorization : option string) (s : Store) (u : AuthUser) :
  authenticate jwtSecret jwtVerify authorization s = Next u ->
  exists header token secret user,
    authorization = Some header
    /\ prefix "Bearer " header = true
    /\ nth_error (splitOn " " header) 1 = Some token
    /\ jwtSecret = Some secret
    /\ jwtVerify token secret = Decoded (Some (auId u))
    /\ In user (users s)
    /\ User.id user = auId u
    /\ User.email user = auEmail u
    /\ User.role user = auRole u.
Proof.
  unfold authenticate. destruct authorization as [header|]; [|discriminate].
  destruct (truthy header); cbn [negb orb]; [|discriminate].
  destruct (prefix "Bearer " header) eqn:Hpre; cbn [negb]; [|discriminate].
  destruct jwtSecret as [secret|]; [|discriminate].
  destruct (truthy secret); cbn [negb]; [|discriminate].
  destruct (nth_error _ 1) as [token|] eqn:Htok; [|discriminate].
  destruct (jwtVerify token secret) as [[id|]| |] eqn:Hv; try discriminate.
  destruct (find _ (users s)) as [user|] eqn:Hu; [|discriminate].
  intros [= <-]. cbn. apply find_some in Hu. destruct Hu as [Hin Hid].
  apply Nat.eqb_eq in Hid. cbn in Hid.
  exists header, token, secret, user. rewrite Hid. repeat split; auto.
Qed.

Lemma splitOn_noSpace token :
  noSpace token = true -> splitOn " " token = [token].
Proof.
  induction token as [|c rest IH]; [reflexivity|]. cbn [noSpace splitOn].
  intros H. apply andb_true_iff in H. destruct H as [Hc Hrest].
  apply negb_true_iff in Hc. rewrite Hc, (IH Hrest). reflexivity.
Qed.

(** X21. A header made of the Bearer scheme, a space and a token without
    spaces is let through whenever a secret is configured, the token
    verifies under it and names a user of the store: the token handed to
    the verifier is the one that was sent. *)
Theorem bearer_token_is_let_through
  (token secret : string) (id : Id) (user : User.t) (s : Store) :
  noSpace token = true ->
  jwtSecret = Some secret -> truthy secret = true ->
  jwtVerify token secret = Decoded (Some id) ->
  find (hasId userTable id) (users s) = Some user ->
  authenticate jwtSecret jwtVerify (Some ("Bearer " ++ token)) s
  = Next (mkAuthUser (User.id user) (User.email user) (User.role user)).
Proof.
  intros Hns Hsec Htr Hv Hu. unfold authenticate.
  rewrite Hsec, Htr.
  change (truthy ("Bearer " ++ token)) with true.
  assert (Hpre : prefix "Bearer " ("Bearer " ++ token) = true)
    by (cbn; now destruct token).
  rewrite Hpre. cbn [negb orb].
  cbn [append splitOn Ascii.eqb Bool.eqb].
  rewrite (splitOn_noSpace token Hns). cbn [nth_error].
  now rewrite Hv, Hu.
Qed.

(** The user a request is let through with has a row. *)
Lemma authenticate_user authorization s u :
  authenticate jwtSecret jwtVerify authorization s = Next u ->
  exists user, In user (users s)
               /\ User.id user = auId u /\ User.role user = auRole u.
Proof.
  unfold authenticate.
  repeat match goal with
         | |- context [match ?x with _ => _ end] =>
             lazymatch x with
             | find _ _ => fail
             | _ => destruct x; try discriminate
             end
         end.
  destruct (find _ (users s)) as [user|] eqn:Hu; [|discriminate].
  intros [= <-]. exists user. apply find_some in Hu. cbn. tauto.
Qed.

(** X22. Behind the admin router a handler runs only for a user whose row
    has the ADMIN role, with that user's id; a request that is turned away
    is answered 401, 403 or 500 and leaves the store as it was. *)
Theorem admin_routes_need_admin_role
  {B : Type} (authorization : option string) (handler : Id -> M B)
  (s : Store) :
  (forall s1 result,
     adminRoute jwtSecret jwtVerify authorization handler s
     = (s1, Next result) ->
     exists user, In user (users s)
                  /\ User.role user = "ADMIN"
                  /\ handler (User.id user) s = (s1, result))
  /\ (forall s1 status error,
        adminRoute jwtSecret jwtVerify authorization handler s
        = (s1, Respond status error) ->
        s1 = s /\ (status = 401 \/ status = 403 \/ status = 500)).
Proof.
  unfold adminRoute.
  destruct (authenticate jwtSecret jwtVerify authorization s) as [u|st er]
    eqn:Hauth.
  - destruct (authenticate_user authorization s u Hauth)
      as (user & Hin & Hid & Hrole).
    unfold authorize. cbn [existsb]. rewrite orb_false_r.
    destruct (String.eqb (auRole u) "ADMIN") eqn:Hadmin.
    + apply String.eqb_eq in Hadmin.
      destruct (handler (auId u) s) as [s1' r] eqn:Hh. split.
      * intros s1 result [= <- <-]. exists user.
        split; [exact Hin|]. split; [congruence|]. now rewrite Hid.
      * discriminate.
    + split; [discriminate|]. intros s1 status error [= <- <- <-]. auto.
  - split; [discriminate|]. intros s1 status error [= <- <- <-].
    split; [reflexivity|]. revert Hauth. unfold authenticate.
    repeat match goal with
           | |- context [match ?x with _ => _ end] =>
               destruct x; try discriminate
           end;
      intros [= <- _]; auto.
Qed.
End AuthProofs.

Lemma authenticate_attaches_current_user_witness :
  exists header token secret user,
    Some "Bearer tok-ann" = Some header
    /\ prefix "Bearer " header = true
    /\ nth_error (splitOn " " header) 1 = Some token
    /\ Some "s3cret" = Some secret
    /\ scenarioJwtVerify token secret = Decoded (Some (auId annUser))
    /\ In user (users store3)
    /\ User.id user = auId annUser
    /\ User.email user = auEmail annUser
    /\ User.role user = auRole annUser.
Proof.
  apply (authenticate_attaches_current_user (Some "s3cret") scenarioJwtVerify
           (Some "Bearer tok-ann") store3 annUser).
  reflexivity.
Defined.

Lemma bearer_token_is_let_through_witness :
  authenticate (Some "s3cret") scenarioJwtVerify (Some "Bearer tok-ann") store3
  = Next (mkAuthUser 2 "ann@example.com" "PARTICIPANT").
Proof.
  apply (bearer_token_is_let_through (Some "s3cret") scenarioJwtVerify
           "tok-ann" "s3cret" 2
           (User.mk 2 "ann@example.com" "PARTICIPANT") store3);
    reflexivity.
Defined.

(** X23. Outside development, off Railway and with the bypass flag unset,
    the Turnstile check lets a request through exactly when it has a body
    that carries a token, a secret key is configured and the provider
    reports success. *)
Theorem turnstile_strict_in_production
  (env : TurnstileEnv) (siteverify : Siteverify)
  (body : option (option string)) :
  isDevelopment env = false ->
  truthyOpt (RAILWAY_ENVIRONMENT env) = false ->
  isDisabled env = false ->
  (validateTurnstile env siteverify body = Next tt
   <-> (exists turnstileToken,
           body = Some turnstileToken /\ truthyOpt turnstileToken = true)
       /\ truthyOpt (TURNSTILE_SECRET_KEY env) = true
       /\ siteverify = Replied true).
Proof.
  intros Hdev Hrail Hdis. unfold validateTurnstile, bypassOnError.
  rewrite Hdev, Hrail, Hdis. cbn [orb].
  destruct body as [turnstileToken|].
  2:{ split; [discriminate | intros ((tok & H & _) & _); discriminate]. }
  destruct (truthyOpt turnstileToken) eqn:Htok; cbn [negb].
  2:{ split; [discriminate|]. intros ((tok & [= <-] & H) & _). congruence. }
  destruct (truthyOpt (TURNSTILE_SECRET_KEY env)); cbn [negb].
  2:{ split; [discriminate | intros (_ & H & _); discriminate]. }
  destruct siteverify as [[|]|]; cbn [negb].
  - split; [|reflexivity]. intros _. split; [|split; reflexivity].
    now exists turnstileToken.
  - split; [discriminate | intros (_ & _ & H); discriminate].
  - split; [discriminate | intros (_ & _ & H); discriminate].
Qed.

Lemma turnstile_strict_in_production_witness :
  validateTurnstile (mkTurnstileEnv (Some "key") (Some "production") None None)
                    (Replied true) (Some (Some "tok")) = Next tt
  <-> (exists turnstileToken,
          Some (Some "tok") = Some turnstileToken
          /\ truthyOpt turnstileToken = true)
      /\ truthyOpt (TURNSTILE_SECRET_KEY
                      (mkTurnstileEnv (Some "key") (Some "production")
                                      None None)) = true
      /\ Replied true = Replied true.
Proof.
  apply (turnstile_strict_in_production
           (mkTurnstileEnv (Some "key") (Some "production") None None)
           (Replied true) (Some (Some "tok"))); reflexivity.
Defined.

(** X24. What the environment can waive. A request the Turnstile check
    lets through either has a body that carries a token, and then, when a
    secret key is configured, the provider has not answered that the
    verification failed; or it has no body at all and the environment is
    development, Railway or one with DISABLE_TURNSTILE set to true. A
    request without a body is let through in exactly those environments,
    with no token and without the provider being asked, and answered 500 in
    the others. *)
Theorem turnstile_bypass_limits
  (env : TurnstileEnv) (siteverify : Siteverify)
  (body : option (option string)) :
  (validateTurnstile env siteverify body = Next tt ->
   (exists turnstileToken,
       body = Some turnstileToken
       /\ truthyOpt turnstileToken = true
       /\ (truthyOpt (TURNSTILE_SECRET_KEY env) = true ->
           siteverify <> Replied false))
   \/ (body = None
       /\ (isDevelopment env = true
           \/ truthyOpt (RAILWAY_ENVIRONMENT env) = true
           \/ isDisabled env = true)))
  /\ (validateTurnstile env siteverify None = Next tt
      <-> isDevelopment env = true
          \/ truthyOpt (RAILWAY_ENVIRONMENT env) = true
          \/ isDisabled env = true)
  /\ (validateTurnstile env siteverify None = Next tt
      \/ validateTurnstile env siteverify None
         = Respond 500 "Bot verification service temporarily unavailable.").
Proof.
  assert (Hnone : validateTurnstile env siteverify None = Next tt
                  <-> isDevelopment env = true
                      \/ truthyOpt (RAILWAY_ENVIRONMENT env) = true
                      \/ isDisabled env = true).
  { unfold validateTurnstile, bypassOnError.
    destruct (isDevelopment env), (truthyOpt (RAILWAY_ENVIRONMENT env)),
      (isDisabled env); cbn; split; auto; try discriminate;
      intros [H|[H|H]]; discriminate. }
  split; [|split; [exact Hnone|]].
  - destruct body as [turnstileToken|].
    + intros H. left. exists turnstileToken. split; [reflexivity|].
      unfold validateTurnstile in H.
      destruct (truthyOpt turnstileToken); cbn [negb] in H; [|discriminate].
      split; [reflexivity|]. intros Hkey. rewrite Hkey in H.
      cbn [negb] in H. intros ->. discriminate.
    + intros H. right. split; [reflexivity | now apply Hnone].
  - unfold validateTurnstile. destruct (bypassOnError env); auto.
Qed.

Lemma turnstile_bypass_limits_witness :
  validateTurnstile (mkTurnstileEnv (Some "key") (Some "production") None
                                    (Some "true"))
                    (Replied false) None = Next tt.
Proof.
  apply (proj1 (proj2 (turnstile_bypass_limits
                         (mkTurnstileEnv (Some "key") (Some "production") None
                                         (Some "true"))
                         (Replied false) None))).
  right. right. reflexivity.
Defined.

(** X25. DISABLE_TURNSTILE does not switch the check off. For a request
    with a body it changes the outcome only when a secret key is
    configured, the body carries a token and the call to the provider
    throws; in every other case the check answers the same with any value
    of the flag, so a missing token and a refusal by the provider are
    answered 400 with the flag set. For a request without a body, outside
    development and off Railway, the flag set to true is what lets the
    request through instead of a 500. *)
Theorem turnstile_flag_only_waives_errors
  (env : TurnstileEnv) (siteverify : Siteverify) (flag : option string) :
  (forall turnstileToken,
     siteverify <> SiteverifyError
     \/ truthyOpt (TURNSTILE_SECRET_KEY env) = false
     \/ truthyOpt turnstileToken = false ->
     validateTurnstile
       (mkTurnstileEnv (TURNSTILE_SECRET_KEY env) (NODE_ENV env)
                       (RAILWAY_ENVIRONMENT env) flag)
       siteverify (Some turnstileToken)
     = validateTurnstile env siteverify (Some turnstileToken))
  /\ (isDevelopment env = false ->
      truthyOpt (RAILWAY_ENVIRONMENT env) = false ->
      validateTurnstile
        (mkTurnstileEnv (TURNSTILE_SECRET_KEY env) (NODE_ENV env)
                        (RAILWAY_ENVIRONMENT env) (Some "true"))
        siteverify None
      = Next tt
      /\ validateTurnstile
           (mkTurnstileEnv (TURNSTILE_SECRET_KEY env) (NODE_ENV env)
                           (RAILWAY_ENVIRONMENT env) None)
           siteverify None
         = Respond 500 "Bot verification service temporarily unavailable.").
Proof.
  split.
  - intros turnstileToken H.
    unfold validateTurnstile, bypassOnError, isDevelopment. cbn.
    destruct (truthyOpt turnstileToken); cbn [negb]; [|reflexivity].
    destruct (truthyOpt (TURNSTILE_SECRET_KEY env)); cbn [negb];
      [|reflexivity].
    destruct siteverify; [reflexivity|].
    destruct H as [H|[H|H]]; [now destruct H | discriminate | discriminate].
  - intros Hdev Hrail.
    unfold validateTurnstile, bypassOnError, isDevelopment, isDisabled in *.
    cbn. rewrite Hdev, Hrail. cbn. split; reflexivity.
Qed.

Lemma turnstile_flag_only_waives_errors_witness :
  validateTurnstile
    (mkTurnstileEnv (Some "key") (Some "production") None (Some "true"))
    (Replied false) (Some (Some "tok"))
  = validateTurnstile
      (mkTurnstileEnv (Some "key") (Some "production") None None)
      (Replied false) (Some (Some "tok")).
Proof.
  apply (proj1 (turnstile_flag_only_waives_errors
                  (mkTurnstileEnv (Some "key") (Some "production") None None)
                  (Replied false) (Some "true")) (Some "tok")).
  left. discriminate.
Defined.

(* ===================================================================== *)
(** ** The admin routes *)
(* ===================================================================== *)

Lemma approvePromoterSchema_pure b s :
  approvePromoterSchema b s = (s, Ok b)
  \/ exists m, approvePromoterSchema b s = (s, Throw (ZodError m)).
Proof.
  unfold approvePromoterSchema. destruct (apCommissionRate b) as [r|];
    [|now left]. destruct (inUnitInterval r); [now left|].
  right. eexists; reflexivity.
Qed.

(** What a decision that went through found and left. *)
Lemma approvePromoter_ok admin b s s1 p :
  approvePromoter admin b s = (s1, Ok p) ->
  exists promoter,
    find (hasId promoterTable (apPromoterId b)) (promoters s) = Some promoter
    /\ Promoter.id promoter = apPromoterId b
    /\ Promoter.status promoter = PromoterStatus.PENDING
    /\ p = decidePromoter (apApproved b) promoter
    /\ s1 = decidedStore admin (apApproved b) promoter s.
Proof.
  rewrite approvePromoter_eq.
  destruct (approvePromoterSchema_pure b s) as [Hv|(m & Hv)]; rewrite Hv;
    [|discriminate].
  destruct (find _ (promoters s)) as [promoter|] eqn:Hp; [|discriminate].
  destruct (PromoterStatus.eqb _ _) eqn:Hst; cbn [negb]; [|discriminate].
  destruct (find _ (users s)); [|discriminate].
  intros [= <- <-]. exists promoter. split; [reflexivity|].
  apply find_some in Hp. destruct Hp as [_ Hid]. apply Nat.eqb_eq in Hid.
  split; [exact Hid|]. split; [|split; reflexivity].
  now destruct (Promoter.status promoter).
Qed.

(** X26. A promoter application is decided once. After a decision has gone
    through, the promoter it returns is APPROVED or REJECTED as asked, and
    every later decision on the same promoter id, by any admin and either
    way, is refused with 400 and writes nothing. *)
Theorem promoter_application_decided_once
  (admin : Id) (b : ApproveBody) (s s1 : Store) (p : Promoter.t) :
  approvePromoter admin b s = (s1, Ok p) ->
  Promoter.status p = (if apApproved b then PromoterStatus.APPROVED
                       else PromoterStatus.REJECTED)
  /\ forall admin' b',
       apPromoterId b' = apPromoterId b ->
       exists message,
         approvePromoter admin' b' s1 = (s1, Throw (AppError message 400)).
Proof.
  intros Hok.
  destruct (approvePromoter_ok admin b s s1 p Hok)
    as (promoter & Hp & Hid & Hst & -> & ->).
  split; [reflexivity|]. intros admin' b' Hsame.
  rewrite approvePromoter_eq.
  destruct (approvePromoterSchema_pure b' (decidedStore admin (apApproved b)
                                                        promoter s))
    as [Hv|(m & Hv)]; rewrite Hv; [|eexists; reflexivity].
  cbn [promoters decidedStore]. rewrite find_updateRows by reflexivity.
  rewrite Hsame, Hp. cbn [option_map rowId promoterTable].
  rewrite Hid, Nat.eqb_refl.
  eexists. now destruct (apApproved b).
Qed.

Lemma promoter_application_decided_once_witness :
  Promoter.status (Promoter.mk 3 2 PromoterStatus.APPROVED "REFK3J9ZQ" 0 0)
  = (if apApproved approveQuinn then PromoterStatus.APPROVED
     else PromoterStatus.REJECTED)
  /\ forall admin' b',
       apPromoterId b' = apPromoterId approveQuinn ->
       exists message,
         approvePromoter admin' b' storeApproved
         = (storeApproved, Throw (AppError message 400)).
Proof.
  apply (promoter_application_decided_once 0 approveQuinn storeQuinn).
  vm_compute. reflexivity.
Defined.

(** X27. Approval is what makes a referral code valid. Once an application
    has been approved, a registration the schema accepts, with a new email
    and the code of the promoter, goes through, attributed to an APPROVED
    promoter holding that code. *)
Theorem approved_code_is_accepted
  (admin : Id) (b : ApproveBody) (s s1 : Store) (p : Promoter.t)
  (isEmail : string -> bool) (rb : RegistrationBody) (d : RegistrationData) :
  approvePromoter admin b s = (s1, Ok p) ->
  apApproved b = true ->
  truthy (Promoter.referralCode p) = true ->
  participantRegistrationSchema isEmail rb s1 = (s1, Ok d) ->
  dReferralCode d = Some (Promoter.referralCode p) ->
  find (fun u => String.eqb (User.email u) (dEmail d)) (users s1) = None ->
  exists referrer,
    In referrer (promoters s1)
    /\ Promoter.referralCode referrer = Promoter.referralCode p
    /\ Promoter.status referrer = PromoterStatus.APPROVED
    /\ registerParticipant isEmail rb s1
       = (registeredStore d (Some referrer) s1,
          Ok (registrationResponse d s1)).
Proof.
  intros Hok Happ Htr Hd Hcode Hnew.
  destruct (approvePromoter_ok admin b s s1 p Hok)
    as (promoter & Hp & Hid & Hst & Hpd & Hs1).
  rewrite registerParticipant_eq, Hd, Hnew, Hcode.
  unfold referrerOf. rewrite Htr.
  destruct (find (approvedWithCode (Promoter.referralCode p)) (promoters s1))
    as [referrer|] eqn:Href.
  - exists referrer. apply find_some in Href. destruct Href as [Hin Hm].
    unfold approvedWithCode in Hm. apply andb_true_iff in Hm.
    destruct Hm as [Hc Ha]. apply String.eqb_eq in Hc.
    repeat split; auto. now destruct (Promoter.status referrer).
  - exfalso. revert Href. apply (find_some_not_none _ _ p).
    + subst s1. cbn [promoters decidedStore]. unfold updateRows.
      apply in_map_iff. exists promoter. split.
      * cbn [rowId promoterTable]. now rewrite Nat.eqb_refl.
      * apply find_some in Hp. apply Hp.
    + unfold approvedWithCode. rewrite String.eqb_refl. subst p.
      now rewrite Happ.
Qed.

Lemma approved_code_is_accepted_witness :
  exists referrer,
    In referrer (promoters storeApproved)
    /\ Promoter.referralCode referrer
       = Promoter.referralCode
           (Promoter.mk 3 2 PromoterStatus.APPROVED "REFK3J9ZQ" 0 0)
    /\ Promoter.status referrer = PromoterStatus.APPROVED
    /\ registerParticipant scenarioIsEmail danRegistration storeApproved
       = (registeredStore
            (mkRegistrationData "dan@example.com" Tier.VIP (Some "REFK3J9ZQ"))
            (Some referrer) storeApproved,
          Ok (registrationResponse
                (mkRegistrationData "dan@example.com" Tier.VIP
                   (Some "REFK3J9ZQ"))
                storeApproved)).
Proof.
  apply (approved_code_is_accepted 0 approveQuinn storeQuinn storeApproved
           (Promoter.mk 3 2 PromoterStatus.APPROVED "REFK3J9ZQ" 0 0)
           scenarioIsEmail danRegistration
           (mkRegistrationData "dan@example.com" Tier.VIP (Some "REFK3J9ZQ")));
    vm_compute; reflexivity.
Defined.

(** X28. The status route asks nothing of the participant but to exist:
    any of the five statuses is set on it whatever its current status and
    payments, and only the participant rows and the audit log change. A
    status outside the five is refused with 400, and for an unknown
    participant the route throws the error of the failed update, which is
    no [AppError]; neither writes anything. *)
Theorem status_route_is_unconditional
  (admin : Id) (b : StatusBody) (s : Store) :
  (parseParticipantStatus (stStatus b) = None ->
   updateParticipantStatus admin b s
   = (s, Throw (AppError "Invalid enum value" 400)))
  /\ (forall status,
        parseParticipantStatus (stStatus b) = Some status ->
        (forall p, In p (participants s) ->
                   Participant.id p <> stParticipantId b) ->
        updateParticipantStatus admin b s
        = (s, Throw (PrismaError "Record to update not found.")))
  /\ (forall status participant,
        parseParticipantStatus (stStatus b) = Some status ->
        In participant (participants s) ->
        Participant.id participant = stParticipantId b ->
        exists s1 updated,
          updateParticipantStatus admin b s = (s1, Ok updated)
          /\ Participant.status updated = status
          /\ (forall p, In p (participants s1) ->
                        Participant.id p = stParticipantId b ->
                        Participant.status p = status)
          /\ users s1 = users s /\ promoters s1 = promoters s
          /\ referrals s1 = referrals s /\ payments s1 = payments s).
Proof.
  rewrite updateParticipantStatus_eq. split; [|split].
  - now intros ->.
  - intros status -> Hno.
    rewrite (find_none_of_all _ (participants s)).
    + reflexivity.
    + intros p Hp. apply Nat.eqb_neq. now apply Hno.
  - intros status participant -> Hin Hid.
    destruct (find _ (participants s)) as [found|] eqn:Hf.
    + eexists _, _. split; [reflexivity|]. split; [reflexivity|].
      split; [|repeat split]. cbn. intros p Hp Hpid.
      apply in_map_iff in Hp. destruct Hp as (x & <- & Hx). revert Hpid.
      cbn [rowId participantTable].
      destruct (Nat.eqb (Participant.id x) (stParticipantId b)) eqn:E;
        [reflexivity|]. apply Nat.eqb_neq in E. intros. contradiction.
    + exfalso. revert Hf. apply (find_some_not_none _ _ participant Hin).
      now apply Nat.eqb_eq.
Qed.

Lemma status_route_is_unconditional_witness :
  exists s1 updated,
    updateParticipantStatus 0 (mkStatusBody 3 "ACTIVE") store1
    = (s1, Ok updated)
    /\ Participant.status updated = ParticipantStatus.ACTIVE
    /\ (forall p, In p (participants s1) ->
                  Participant.id p = stParticipantId (mkStatusBody 3 "ACTIVE") ->
                  Participant.status p = ParticipantStatus.ACTIVE)
    /\ users s1 = users store1 /\ promoters s1 = promoters store1
    /\ referrals s1 = referrals store1 /\ payments s1 = payments store1.
Proof.
  apply (proj2 (proj2 (status_route_is_unconditional 0
                         (mkStatusBody 3 "ACTIVE") store1))
           ParticipantStatus.ACTIVE
           (Participant.mk 3 2 Tier.PREMIUM ParticipantStatus.PENDING
              (Some "REFABC123"))).
  - reflexivity.
  - left. reflexivity.
  - reflexivity.
Defined.

(* ===================================================================== *)
(** ** What the server never touches *)
(* ===================================================================== *)

Lemma grows_refl {A} (l : list A) : grows l l.
Proof. exists []. now rewrite app_nil_r. Qed.

Lemma grows_app {A} (l more : list A) : grows l (l ++ more)%list.
Proof. now exists more. Qed.

Lemma grows_trans {A} (l1 l2 l3 : list A) :
  grows l1 l2 -> grows l2 l3 -> grows l1 l3.
Proof.
  intros (m1 & ->) (m2 & ->). exists (m1 ++ m2)%list. now rewrite app_assoc.
Qed.

Lemma grows_map_app {A B} (f : A -> B) (l more : list A) :
  grows (map f l) (map f (l ++ more)%list).
Proof. rewrite map_app. apply grows_app. Qed.

Lemma grows_updateRows {R B} (T : Table R) (g : R -> B) (data : R -> R) id l :
  (forall r, g (data r) = g r) ->
  grows (map g l) (map g (updateRows T id data l)).
Proof.
  intros Hg. rewrite (updateRows_field T g data id l Hg). apply grows_refl.
Qed.

Create HintDb keeps.
#[local] Hint Resolve grows_refl grows_app grows_map_app : keeps.

Lemma keeps_refl s : keeps s s.
Proof. unfold keeps. repeat split; auto with keeps. Qed.

Lemma keeps_trans s1 s2 s3 : keeps s1 s2 -> keeps s2 s3 -> keeps s1 s3.
Proof.
  unfold keeps.
  intros (A1 & A2 & A3 & A4 & A5 & A6 & A7 & A8)
         (B1 & B2 & B3 & B4 & B5 & B6 & B7 & B8).
  repeat split; try (eapply grows_trans; eassumption). lia.
Qed.

Ltac keeps_store :=
  unfold keeps; cbn;
  repeat split;
  repeat match goal with
         | |- context [match ?x with _ => _ end] => destruct x
         end;
  auto with keeps;
  try (apply grows_updateRows; reflexivity);
  try lia.

Lemma keeps_registered d referrer s : keeps s (registeredStore d referrer s).
Proof. keeps_store. Qed.

Lemma keeps_applied email code dRef dRev s :
  keeps s (appliedStore email code dRef dRev s).
Proof. keeps_store. Qed.

Lemma keeps_session sessionId url d reqUser participant user s :
  keeps s (sessionStore sessionId url d reqUser participant user s).
Proof. keeps_store. Qed.

Lemma keeps_committed now session payment tier referral s :
  keeps s (committedStore now session payment tier referral s).
Proof. keeps_store. Qed.

Lemma keeps_failed paymentIntent payment s :
  keeps s (failedStore paymentIntent payment s).
Proof. keeps_store. Qed.

Lemma keeps_decided admin approved promoter s :
  keeps s (decidedStore admin approved promoter s).
Proof. keeps_store. Qed.

Lemma keeps_status admin status participant s :
  keeps s (statusStore admin status participant s).
Proof. keeps_store. Qed.

Lemma addsNewEmail_same s s' : users s' = users s -> addsNewEmail s s'.
Proof. now left. Qed.

Lemma addsNewEmail_new s s' id email role :
  users s' = (users s ++ [User.mk id email role])%list ->
  find (fun u => String.eqb (User.email u) email) (users s) = None ->
  addsNewEmail s s'.
Proof.
  intros Hu Hnone. right. eexists. split; [exact Hu|]. intros v Hv. cbn.
  apply String.eqb_neq. exact (find_none _ _ Hnone v Hv).
Qed.

(** One request keeps what is there and adds at most one user, with an
    email that is new. *)
Lemma serveAny_keeps constructEvent endpointSecret isUrl isEmail dRef dRev
  r s :
  keeps s (serveAny constructEvent endpointSecret isUrl isEmail dRef dRev r s)
  /\ addsNewEmail s
       (serveAny constructEvent endpointSecret isUrl isEmail dRef dRev r s).
Proof.
  destruct r as [[b|draws b|reply req|now req]|admin b|admin b];
    cbn [serveAny serveRequest].
  - rewrite registerParticipant_eq.
    destruct (participantRegistrationSchema_pure isEmail b s)
      as [(d & Hd & _)|(m & Hm)].
    2:{ rewrite Hm. cbn. split; [apply keeps_refl | now left]. }
    rewrite Hd.
    destruct (find _ (users s)) eqn:Hu;
      [cbn; split; [apply keeps_refl | now left]|].
    destruct (referrerOf _ s); cbn [fst].
    + split; [apply keeps_registered|].
      eapply addsNewEmail_new; [reflexivity | exact Hu].
    + destruct (truthyOpt _); cbn [fst].
      * split; [apply keeps_refl | now left].
      * split; [apply keeps_registered|].
        eapply addsNewEmail_new; [reflexivity | exact Hu].
  - rewrite registerPromoter_eq.
    destruct (promoterRegistrationSchema_pure isEmail b s) as [Hd|(m & Hm)].
    2:{ rewrite Hm. cbn. split; [apply keeps_refl | now left]. }
    rewrite Hd.
    destruct (find _ (users s)) eqn:Hu;
      [cbn; split; [apply keeps_refl | now left]|].
    destruct (find (codeIsFree s) _); cbn [fst].
    + split; [apply keeps_applied|].
      eapply addsNewEmail_new; [reflexivity | exact Hu].
    + split; [apply keeps_refl | now left].
  - destruct (createSession_outcome isUrl reply req s)
      as [(e & He)|(d & pt & user & sid & url & res & _ & _ & _ & _ & _ & Hok)].
    + rewrite He. split; [apply keeps_refl | now left].
    + rewrite Hok. split; [apply keeps_session | now left].
  - rewrite stripeWebhook_store.
    destruct (constructEvent _ _ _) as [event|message];
      [|split; [apply keeps_refl | now left]].
    destruct event as [session|pi|pi|inv|ty]; cbn [dispatch];
      try (split; [apply keeps_refl | now left]).
    + destruct (handleCheckoutSessionCompleted_outcome now session s)
        as [e | payment tier Hpay Htier Hpt Hpr]; cbn [fst].
      * split; [apply keeps_refl | now left].
      * split; [apply keeps_committed | now left].
    + rewrite handlePaymentIntentFailed_eq.
      destruct (find _ (payments s)); cbn [fst].
      * split; [apply keeps_failed | now left].
      * split; [apply keeps_refl | now left].
  - rewrite approvePromoter_eq.
    destruct (approvePromoterSchema_pure b s) as [Hv|(m & Hv)]; rewrite Hv;
      [|cbn; split; [apply keeps_refl | now left]].
    destruct (find _ (promoters s));
      [|cbn; split; [apply keeps_refl | now left]].
    destruct (negb _); [cbn; split; [apply keeps_refl | now left]|].
    destruct (find _ (users s)); cbn [fst].
    + split; [apply keeps_decided | now left].
    + split; [apply keeps_refl | now left].
  - rewrite updateParticipantStatus_eq.
    destruct (parseParticipantStatus _);
      [|cbn; split; [apply keeps_refl | now left]].
    destruct (find _ (participants s)); cbn [fst].
    + split; [apply keeps_status | now left].
    + split; [apply keeps_refl | now left].
Qed.

(** X29. Nothing is ever deleted. Whatever requests are served, public or
    admin, every table of the final store starts with the rows it had, in
    the same order and with the same identity columns (ids, owners, emails,
    roles, codes, session ids, amounts, tiers); audit log entries and
    provider sessions are not changed at all; and the id counter never goes
    back. Of the users this speaks of id, email and role only: the approval
    of a promoter overwrites the password of its user, a column the rows do
    not carry. *)
Theorem served_requests_delete_nothing
  (constructEvent : string -> string -> string -> Event + string)
  (endpointSecret : string) (isUrl isEmail : string -> bool)
  (defaultTotalReferrals defaultTotalRevenue : Z)
  (rs : list AnyRequest) (s : Store) :
  keeps s (serveAnyAll constructEvent endpointSecret isUrl isEmail
                       defaultTotalReferrals defaultTotalRevenue rs s).
Proof.
  unfold serveAnyAll. revert s.
  induction rs as [|r rs IH]; intros s; cbn [fold_left].
  - apply keeps_refl.
  - eapply keeps_trans; [|apply IH]. apply serveAny_keeps.
Qed.

Lemma NoDup_app_new {A} (l : list A) x :
  NoDup l -> ~ In x l -> NoDup (l ++ [x]).
Proof.
  intros Hnd Hx. induction Hnd as [|y l Hy Hnd IH]; cbn.
  - constructor; [intros [] | constructor].
  - constructor.
    + rewrite in_app_iff. intros [H|[<-|[]]]; [contradiction|].
      apply Hx. now left.
    + apply IH. intros H. apply Hx. now right.
Qed.

(** X30. An email has one account. When the emails of the users are
    pairwise distinct, they still are after any requests served, public or
    admin. *)
Theorem user_emails_stay_distinct
  (constructEvent : string -> string -> string -> Event + string)
  (endpointSecret : string) (isUrl isEmail : string -> bool)
  (defaultTotalReferrals defaultTotalRevenue : Z)
  (rs : list AnyRequest) (s : Store) :
  NoDup (map User.email (users s)) ->
  NoDup (map User.email
           (users (serveAnyAll constructEvent endpointSecret isUrl isEmail
                               defaultTotalReferrals defaultTotalRevenue
                               rs s))).
Proof.
  unfold serveAnyAll. revert s.
  induction rs as [|r rs IH]; intros s Hnd; cbn [fold_left]; [exact Hnd|].
  apply IH.
  destruct (serveAny_keeps constructEvent endpointSecret isUrl isEmail
              defaultTotalReferrals defaultTotalRevenue r s)
    as [_ [Hsame|(u & Hu & Hnew)]].
  - now rewrite Hsame.
  - rewrite Hu, map_app. cbn [map]. apply NoDup_app_new; [exact Hnd|].
    intros Hin. apply in_map_iff in Hin. destruct Hin as (v & Hv & Hvin).
    exact (Hnew v Hvin Hv).
Qed.

Lemma user_emails_stay_distinct_witness :
  NoDup (map User.email
           (users (serveAnyAll (scenarioConstructEvent scenarioEvents)
                               scenarioSecret scenarioIsUrl scenarioIsEmail
                               0 0 scenarioAnyRequests store0))).
Proof.
  apply (user_emails_stay_distinct (scenarioConstructEvent scenarioEvents)
           scenarioSecret scenarioIsUrl scenarioIsEmail 0 0
           scenarioAnyRequests store0).
  repeat constructor. intros [].
Defined.
